(** * The Islamic Digital Economy dashboard ([app.py]) as a shallow embedding

    [app.py] is a Streamlit script: every user interaction re-runs it from
    top to bottom.  One run is modelled as a computation in a state and
    exception monad whose state records the HTTP requests that were sent,
    the elements written to the page and the script's one mutable global
    ([country_totals]).  The backend and the widget state are inputs. *)

From Stdlib Require Import ZArith List Bool Ascii String Lia.
From Stdlib Require Import SpecFloat.
Import ListNotations.

Local Open Scope string_scope.
Local Open Scope Z_scope.

(* ================================================================== *)
(** * Python values *)

(** ** Strings

    A Python [str] is modelled by its UTF-8 encoding.  The ASCII range is
    one byte per character, which is all that [%], digits and the
    separators used by the script need. *)

Module Str.

Fixpoint to_list (s : string) : list ascii :=
  match s with
  | EmptyString => []
  | String c r => c :: to_list r
  end.

Fixpoint of_list (l : list ascii) : string :=
  match l with
  | [] => EmptyString
  | c :: r => String c (of_list r)
  end.

Definition byte (c : ascii) : N := N_of_ascii c.

(** [str.isspace] on one encoded character at the head of [l]: the number
    of bytes of a leading white-space character, or [None].  The set is
    Python's: U+0009-000D, U+001C-0020, U+0085, U+00A0, U+1680,
    U+2000-200A, U+2028, U+2029, U+202F, U+205F, U+3000. *)
Definition space_prefix (l : list ascii) : option nat :=
  match List.map byte l with
  | (9 | 10 | 11 | 12 | 13 | 28 | 29 | 30 | 31 | 32)%N :: _ => Some 1%nat
  | 194%N :: (133 | 160)%N :: _ => Some 2%nat
  | 225%N :: 154%N :: 128%N :: _ => Some 3%nat
  | 226%N :: 128%N :: b :: _ =>
      if ((128 <=? b) && (b <=? 138) || (b =? 168) || (b =? 169) || (b =? 175))%N
      then Some 3%nat else None
  | 226%N :: 129%N :: 159%N :: _ => Some 3%nat
  | 227%N :: 128%N :: 128%N :: _ => Some 3%nat
  | _ => None
  end.

(** The same test on the reversed text, for the right end. *)
Definition space_suffix (rl : list ascii) : option nat :=
  match rl with
  | a :: b :: c :: _ =>
      match space_prefix [c; b; a] with
      | Some 3%nat => Some 3%nat
      | _ => match space_prefix [b; a] with
             | Some 2%nat => Some 2%nat
             | _ => match space_prefix [a] with
                    | Some _ => Some 1%nat
                    | None => None
                    end
             end
      end
  | a :: b :: _ =>
      match space_prefix [b; a] with
      | Some 2%nat => Some 2%nat
      | _ => match space_prefix [a] with
             | Some _ => Some 1%nat
             | None => None
             end
      end
  | a :: _ => match space_prefix [a] with
              | Some _ => Some 1%nat
              | None => None
              end
  | [] => None
  end.

Fixpoint strip_with (test : list ascii -> option nat) (fuel : nat)
    (l : list ascii) : list ascii :=
  match fuel with
  | O => l
  | S fuel' =>
      match test l with
      | Some k => strip_with test fuel' (skipn k l)
      | None => l
      end
  end.

Definition lstrip_list (l : list ascii) : list ascii :=
  strip_with space_prefix (List.length l) l.

Definition rstrip_list (l : list ascii) : list ascii :=
  rev (strip_with space_suffix (List.length l) (rev l)).

(** [s.strip()] *)
Definition strip (s : string) : string :=
  of_list (rstrip_list (lstrip_list (to_list s))).

(** Truth value of a string: non-empty. *)
Definition truthy (s : string) : bool :=
  match s with
  | EmptyString => false
  | String _ _ => true
  end.

(** [s.replace(c, "")] for a one-character pattern: every occurrence of
    [c] is removed. *)
Fixpoint remove_char (c : ascii) (s : string) : string :=
  match s with
  | EmptyString => EmptyString
  | String a r =>
      if Ascii.eqb a c then remove_char c r else String a (remove_char c r)
  end.

(** Removal of at most one occurrence of [c], at the very end of [s]. *)
Fixpoint strip_trailing (c : ascii) (s : string) : string :=
  match s with
  | EmptyString => EmptyString
  | String a EmptyString => if Ascii.eqb a c then EmptyString else s
  | String a r => String a (strip_trailing c r)
  end.

Fixpoint occurs (c : ascii) (s : string) : bool :=
  match s with
  | EmptyString => false
  | String a r => Ascii.eqb a c || occurs c r
  end.

Fixpoint lookup {A} (k : string) (d : list (string * A)) : option A :=
  match d with
  | [] => None
  | (k', v) :: r => if String.eqb k k' then Some v else lookup k r
  end.

Fixpoint mem (k : string) (l : list string) : bool :=
  match l with
  | [] => false
  | x :: r => String.eqb k x || mem k r
  end.

(** Distinct elements, in order of first occurrence. *)
Fixpoint nodup (l : list string) : list string :=
  match l with
  | [] => []
  | x :: r => x :: List.filter (fun y => negb (String.eqb x y)) (nodup r)
  end.

End Str.

(** ** Floating-point numbers

    A Python [float] is an IEEE 754 binary64 value, carried by the
    Standard Library's [spec_float]: [S754_finite s m e] is
    [(-1)^s * m * 2^e].  Conversions round to nearest, ties to even, as
    CPython's do. *)

Module Float.

Definition prec : Z := 53.
Definition emax : Z := 1024.
Definition emin : Z := -1074.

(** Nearest integer to [n / d] for [0 <= n] and [0 < d], ties to even. *)
Definition round_div_even (n d : Z) : Z :=
  let q := n / d in
  match 2 * (n mod d) ?= d with
  | Lt => q
  | Gt => q + 1
  | Eq => if Z.even q then q else q + 1
  end.

(** [n * 2^k] for [0 <= k], and [n] otherwise. *)
Definition scale (n k : Z) : Z := n * 2 ^ Z.max 0 k.

(** [floor (log2 (n / d))] for [0 < n] and [0 < d]. *)
Definition ilog2_ratio (n d : Z) : Z :=
  let e0 := Z.log2 n - Z.log2 d in
  if scale d e0 <=? scale n (- e0) then e0 else e0 - 1.

(** The binary64 value nearest to [(-1)^neg * n / d], for [0 <= n] and
    [0 < d].  Values beyond the largest finite float become infinities. *)
Definition of_ratio (neg : bool) (n d : Z) : spec_float :=
  if n =? 0 then S754_zero neg
  else
    let e := ilog2_ratio n d in
    let u := Z.max (e - (prec - 1)) emin in
    let m := round_div_even (scale n (- u)) (scale d u) in
    let '(m, u) := if m =? 2 ^ prec then (2 ^ (prec - 1), u + 1) else (m, u) in
    match m with
    | Zpos p => if u <=? emax - prec then S754_finite neg p u
                else S754_infinity neg
    | _ => S754_zero neg
    end.

(** [float(z)] for a Python [int]; [None] stands for [OverflowError]. *)
Definition of_Z (z : Z) : option spec_float :=
  match of_ratio (z <? 0) (Z.abs z) 1 with
  | S754_infinity _ => None
  | f => Some f
  end.

(** [10 ** k] as numerator and denominator. *)
Definition pow10_ratio (k : Z) : Z * Z :=
  if 0 <=? k then (10 ^ k, 1) else (1, 10 ^ (- k)).

(** The float denoted by the decimal [(-1)^neg * m * 10^k]. *)
Definition of_decimal (neg : bool) (m : Z) (k : Z) : spec_float :=
  let '(pn, pd) := pow10_ratio k in
  of_ratio neg (m * pn) pd.

(** Binary64 product. *)
Definition mul (x y : spec_float) : spec_float :=
  match x, y with
  | S754_nan, _ | _, S754_nan => S754_nan
  | S754_infinity s, S754_zero _ | S754_zero s, S754_infinity _ => S754_nan
  | S754_infinity s, S754_infinity t
  | S754_infinity s, S754_finite t _ _
  | S754_finite s _ _, S754_infinity t => S754_infinity (xorb s t)
  | S754_zero s, S754_zero t
  | S754_zero s, S754_finite t _ _
  | S754_finite s _ _, S754_zero t => S754_zero (xorb s t)
  | S754_finite s m e, S754_finite t n f =>
      let k := e + f in
      of_ratio (xorb s t) (scale (Zpos m * Zpos n) k) (scale 1 (- k))
  end.

End Float.

(** ** Number formatting *)

Module Fmt.

Definition digit_char (d : Z) : ascii := ascii_of_N (48 + Z.to_N d).

Fixpoint digits_fuel (fuel : nat) (n : Z) (acc : list ascii) : list ascii :=
  match fuel with
  | O => acc
  | S fuel' =>
      let acc' := digit_char (n mod 10) :: acc in
      if n <? 10 then acc' else digits_fuel fuel' (n / 10) acc'
  end.

(** Decimal digits of [0 <= n]. *)
Definition digits (n : Z) : list ascii :=
  digits_fuel (S (Z.to_nat (Z.log2 n))) n [].

(** The [,] option: a comma between groups of three digits, counted
    from the right.  [group3_rev] works on the reversed digits; [k] is the
    size of the group being filled. *)
Fixpoint group3_rev (k : nat) (rl : list ascii) : list ascii :=
  match rl with
  | [] => []
  | c :: r =>
      if Nat.eqb k 3 then ","%char :: c :: group3_rev 1 r
      else c :: group3_rev (S k) r
  end.

Definition group3 (l : list ascii) : list ascii :=
  rev (group3_rev 0 (rev l)).

(** [l] padded on the left with zeros to [p] characters. *)
Definition zero_pad (p : nat) (l : list ascii) : list ascii :=
  List.repeat "0"%char (p - List.length l) ++ l.

(** The digits of the scaled integer [n = round (x * 10^p)] with a
    decimal point before the last [p] of them. *)
Definition fixed_digits (comma : bool) (p : nat) (n : Z) : list ascii :=
  let ip := digits (n / 10 ^ Z.of_nat p) in
  let ip := if comma then group3 ip else ip in
  match p with
  | O => ip
  | _ => ip ++ "."%char :: zero_pad p (digits (n mod 10 ^ Z.of_nat p))
  end.

(** [format(x, ".pf")] and, with [comma], [format(x, ",.pf")] for a float:
    the exact binary value rounded to [p] decimals, ties to even. *)
Definition format_f (comma : bool) (p : nat) (x : spec_float) : string :=
  match x with
  | S754_nan => "nan"
  | S754_infinity s => if s then "-inf" else "inf"
  | S754_zero s =>
      (if s then "-" else "") ++ Str.of_list (fixed_digits comma p 0)
  | S754_finite s m e =>
      let n := Float.round_div_even
                 (Float.scale (Zpos m * 10 ^ Z.of_nat p) e)
                 (Float.scale 1 (- e)) in
      (if s then "-" else "") ++ Str.of_list (fixed_digits comma p n)
  end.

End Fmt.

(** ** Reading a float from text *)

Module Parse.

Definition is_digit (c : ascii) : bool :=
  let b := Str.byte c in ((48 <=? b) && (b <=? 57))%N.

Definition digit_val (c : ascii) : Z := Z.of_N (Str.byte c) - 48.

(** A run of digits: the accumulated value, the number of digits read and
    the rest of the text. *)
Fixpoint digit_run (acc : Z) (cnt : nat) (l : list ascii)
    : Z * nat * list ascii :=
  match l with
  | c :: r =>
      if is_digit c then digit_run (acc * 10 + digit_val c) (S cnt) r
      else (acc, cnt, l)
  | [] => (acc, cnt, l)
  end.

Definition sign_of (l : list ascii) : bool * list ascii :=
  match l with
  | "-"%char :: r => (true, r)
  | "+"%char :: r => (false, r)
  | _ => (false, l)
  end.

Definition lower (c : ascii) : ascii :=
  let b := Str.byte c in
  if ((65 <=? b) && (b <=? 90))%N then ascii_of_N (b + 32) else c.

(** The optional exponent part; [None] when the text is malformed. *)
Definition exponent (l : list ascii) : option Z :=
  match l with
  | [] => Some 0
  | c :: r =>
      if Ascii.eqb (lower c) "e"%char then
        let '(neg, r1) := sign_of r in
        match digit_run 0 0 r1 with
        | (_, O, _) => None
        | (v, _, []) => Some (if neg then - v else v)
        | _ => None
        end
      else None
  end.

(** [float(s)] for ASCII text: white space is stripped, then an optional
    sign and either [inf], [infinity], [nan] in any case or a decimal
    literal with an optional exponent.  [None] stands for [ValueError].
    Digit-separating underscores and non-ASCII digits, which Python also
    accepts, are not recognised. *)
Definition float_of_string (s : string) : option spec_float :=
  let '(neg, l) := sign_of (Str.to_list (Str.strip s)) in
  let word := Str.of_list (List.map lower l) in
  if String.eqb word "inf" || String.eqb word "infinity"
  then Some (S754_infinity neg)
  else if String.eqb word "nan" then Some S754_nan
  else
    let '(ip, ni, l1) := digit_run 0 0 l in
    let '(m, nf, l2) :=
      match l1 with
      | "."%char :: r => digit_run ip 0 r
      | _ => (ip, O, l1)
      end in
    match (ni + nf)%nat with
    | O => None
    | _ =>
        match exponent l2 with
        | Some k => Some (Float.of_decimal neg m (k - Z.of_nat nf))
        | None => None
        end
    end.

End Parse.

(** ** JSON values

    What [response.json()] returns: [None], [bool], [int], [float], [str],
    [list] and [dict].  A [JObj] is a [dict] in insertion order; its keys
    are distinct, as they are in any decoded document. *)

#[local] Set Warnings "-register-all".

Inductive json : Type :=
| JNull
| JBool (b : bool)
| JInt (z : Z)
| JFloat (f : spec_float)
| JStr (s : string)
| JArr (l : list json)
| JObj (o : list (string * json)).

Definition NaN : json := JFloat S754_nan.

(** ** Exceptions *)

Inductive exn_kind :=
| RequestException   (* connection error, timeout: raised by [requests] *)
| JSONDecodeError
| KeyError
| TypeError
| ValueError
| AttributeError
| OverflowError.

Inductive exn := Exn (k : exn_kind) (msg : string).

Definition exn_str (e : exn) : string := let 'Exn _ msg := e in msg.

Inductive result (A : Type) :=
| Val (a : A)
| Exc (e : exn).
Arguments Val {A} a.
Arguments Exc {A} e.

(* ================================================================== *)
(** * The libraries the script calls *)

(** ** pandas

    A frame is its column labels and its rows; a row holds the cells it
    has a value for, and a cell without a value reads as [NaN].  The
    unification of a column's values to one dtype is not modelled: cells
    keep the decoded JSON value. *)

Module pd.

Record DataFrame := mkDF {
  columns : list string;
  records : list (list (string * json))
}.

Definition empty_frame : DataFrame := mkDF [] [].

(** [len(df)] *)
Definition len (df : DataFrame) : nat := List.length (records df).

(** [df.empty]: some axis has length 0. *)
Definition empty (df : DataFrame) : bool :=
  match columns df, records df with
  | [], _ | _, [] => true
  | _, _ => false
  end.

Definition cell (col : string) (row : list (string * json)) : json :=
  match Str.lookup col row with
  | Some v => v
  | None => NaN
  end.

(** [df[col]]: [KeyError] when there is no such column. *)
Definition column (df : DataFrame) (col : string) : result (list json) :=
  if Str.mem col (columns df) then Val (List.map (cell col) (records df))
  else Exc (Exn KeyError col).

Fixpoint set_key (k : string) (v : json) (row : list (string * json))
    : list (string * json) :=
  match row with
  | [] => [(k, v)]
  | (k', v') :: r =>
      if String.eqb k k' then (k, v) :: r else (k', v') :: set_key k v r
  end.

Fixpoint zip_set (col : string) (rows : list (list (string * json)))
    (vals : list json) : list (list (string * json)) :=
  match rows, vals with
  | row :: rows', v :: vals' => set_key col v row :: zip_set col rows' vals'
  | _, _ => rows
  end.

(** [df[col] = vals] *)
Definition set_column (df : DataFrame) (col : string) (vals : list json)
    : DataFrame :=
  mkDF (if Str.mem col (columns df) then columns df else columns df ++ [col])
       (zip_set col (records df) vals).

Definition as_object (v : json) : option (list (string * json)) :=
  match v with
  | JObj o => Some o
  | _ => None
  end.

Definition as_array (v : json) : option (list json) :=
  match v with
  | JArr l => Some l
  | _ => None
  end.

Fixpoint all_some {A B} (f : A -> option B) (l : list A) : option (list B) :=
  match l with
  | [] => Some []
  | x :: r =>
      match f x, all_some f r with
      | Some y, Some ys => Some (y :: ys)
      | _, _ => None
      end
  end.

Definition keys {A} (o : list (string * A)) : list string := List.map fst o.

(** Frame of a list of dicts: one row per dict, the columns are the keys
    in order of first appearance. *)
Definition of_records (rows : list (list (string * json))) : DataFrame :=
  mkDF (Str.nodup (List.concat (List.map keys rows))) rows.

Definition label (i : nat) : string :=
  Str.of_list (Fmt.digits (Z.of_nat i)).

Definition positional (cells : list json) : list (string * json) :=
  List.combine (List.map label (List.seq 0 (List.length cells))) cells.

(** Frame of a list of lists: positional columns. *)
Definition of_lists (rows : list (list json)) : DataFrame :=
  let width := List.fold_right (fun r n => Nat.max (List.length r) n) O rows in
  mkDF (List.map label (List.seq 0 width)) (List.map positional rows).

(** Frame of a dict: each value is a column.  Lists give the rows and
    must agree in length, dicts give the rows by their keys, scalars are
    repeated; a dict of scalars alone has no rows to give. *)
Definition of_dict (o : list (string * json)) : result DataFrame :=
  let lists := List.flat_map (fun kv => match snd kv with
                                        | JArr l => [List.length l]
                                        | _ => []
                                        end) o in
  let inner := List.flat_map (fun kv => match snd kv with
                                        | JObj d => keys d
                                        | _ => []
                                        end) o in
  match o, lists, inner with
  | [], _, _ => Val empty_frame
  | _, [], [] =>
      if List.existsb (fun kv => match snd kv with JObj _ => true | _ => false end) o
      then Val (mkDF (keys o) [])
      else Exc (Exn ValueError
                  "If using all scalar values, you must pass an index")
  | _, n :: ns, [] =>
      if List.forallb (Nat.eqb n) ns
      then Val (mkDF (keys o)
                  (List.map (fun i =>
                               List.map (fun kv =>
                                           (fst kv,
                                            match snd kv with
                                            | JArr l => List.nth i l NaN
                                            | v => v
                                            end)) o)
                            (List.seq 0 n)))
      else Exc (Exn ValueError "All arrays must be of the same length")
  | _, [], _ :: _ =>
      Val (mkDF (keys o)
             (List.map (fun i =>
                          List.map (fun kv =>
                                      (fst kv,
                                       match snd kv with
                                       | JObj d => cell i d
                                       | v => v
                                       end)) o)
                       (Str.nodup inner)))
  | _, _ :: _, _ :: _ =>
      Exc (Exn ValueError
             "Mixing dicts with non-Series may lead to ambiguous ordering.")
  end.

(** [pd.DataFrame(data)] *)
Definition DataFrame_of (data : json) : result DataFrame :=
  match data with
  | JNull => Val empty_frame
  | JArr [] => Val empty_frame
  | JArr ((JObj _ :: _) as l) =>
      match all_some as_object l with
      | Some rows => Val (of_records rows)
      | None => Exc (Exn AttributeError "object has no attribute 'keys'")
      end
  | JArr ((JArr _ :: _) as l) =>
      match all_some as_array l with
      | Some rows => Val (of_lists rows)
      | None => Exc (Exn TypeError "object is not iterable")
      end
  | JArr l => Val (mkDF ["0"] (List.map (fun v => [("0", v)]) l))
  | JObj o => of_dict o
  | _ => Exc (Exn ValueError "DataFrame constructor not properly called!")
  end.

(** [isinstance(v, list)] *)
Definition is_list (v : json) : bool :=
  match v with
  | JArr _ => true
  | _ => false
  end.

(** The [.str] accessor exists on columns of dtype [object]: a column in
    which some value is text or a container, or every value is missing. *)
Definition object_dtype (vals : list json) : bool :=
  List.existsb (fun v => match v with
                         | JStr _ | JArr _ | JObj _ => true
                         | _ => false
                         end) vals
  || List.forallb (fun v => match v with
                            | JNull | JFloat S754_nan => true
                            | _ => false
                            end) vals.

(** One value through [.str.replace(c, "")] and [.astype(float)]: text
    loses every [c] and is read as a float; anything else is missing. *)
Definition replace_to_float (c : ascii) (v : json) : option spec_float :=
  match v with
  | JStr s => Parse.float_of_string (Str.remove_char c s)
  | _ => Some S754_nan
  end.

(** [col.str.replace(c, "").astype(float)] *)
Definition str_replace_astype_float (c : ascii) (vals : list json)
    : result (list json) :=
  if object_dtype vals then
    match all_some (replace_to_float c) vals with
    | Some fs => Val (List.map JFloat fs)
    | None => Exc (Exn ValueError "could not convert string to float")
    end
  else Exc (Exn AttributeError
              "Can only use .str accessor with string values!").

(** A frame together with its row labels, where the script uses them. *)
Record Indexed := mkIndexed {
  index : list string;
  frame : DataFrame
}.

(** [pd.DataFrame.from_dict(d, orient="index")] for a dict of dicts: a
    row per outer key, a column per inner key.  Rows and columns are
    listed in order of first insertion. *)
Definition from_dict_index (d : list (string * list (string * json)))
    : Indexed :=
  mkIndexed (keys d)
            (mkDF (Str.nodup (List.concat (List.map (fun kv => keys (snd kv)) d)))
                  (List.map snd d)).

(** [pd.isna] *)
Definition isna (v : json) : bool :=
  match v with
  | JNull | JFloat S754_nan => true
  | _ => false
  end.

(** [df.fillna(v)] *)
Definition fillna (v : json) (df : DataFrame) : DataFrame :=
  mkDF (columns df)
       (List.map (fun row =>
                    List.map (fun c => (c, let x := cell c row in
                                           if isna x then v else x))
                             (columns df))
                 (records df)).

Definition fillna_indexed (v : json) (d : Indexed) : Indexed :=
  mkIndexed (index d) (fillna v (frame d)).

(** [df.reset_index()]: the row labels become the first column, named
    [index]. *)
Definition reset_index (d : Indexed) : DataFrame :=
  mkDF ("index" :: columns (frame d))
       (List.map (fun '(i, row) => ("index", JStr i) :: row)
                 (List.combine (index d) (records (frame d)))).

(** [df.rename(columns={old: new})] *)
Definition rename (old new : string) (df : DataFrame) : DataFrame :=
  let r c := if String.eqb c old then new else c in
  mkDF (List.map r (columns df))
       (List.map (List.map (fun '(c, v) => (r c, v))) (records df)).

(** [df.melt(id_vars=id, var_name=var, value_name=value)]: for every
    other column, in turn, one row per row of [df]. *)
Definition melt (id var value : string) (df : DataFrame) : DataFrame :=
  let others := List.filter (fun c => negb (String.eqb c id)) (columns df) in
  mkDF [id; var; value]
       (List.flat_map
          (fun c => List.map (fun row => [(id, cell id row);
                                          (var, JStr c);
                                          (value, cell c row)])
                             (records df))
          others).

End pd.

(** ** requests *)

Inductive method := GET | POST.

Inductive param :=
| PStr (s : string)
| PList (l : list string).

Record request := mkRequest {
  req_method : method;
  req_url : string;
  req_params : list (string * param);
  req_json : option json;
  req_timeout : option Z
}.

(** A response: [body] is what [.json()] decodes, [None] when the text is
    not a JSON document. *)
Record response := mkResponse {
  status_code : Z;
  text : string;
  body : option json
}.

(** What a call meets: an exception of the transport, or a response. *)
Inductive outcome :=
| Raises (msg : string)
| Replies (r : response).

(** The backend service, as seen during one run of the script. *)
Definition backend := request -> outcome.

(** ** plotly.express *)

Module px.

Inductive kind := Bar | Area.

Record figure := mkFigure {
  fig_kind : kind;
  fig_data : pd.DataFrame;
  fig_x : string;
  fig_y : string;
  fig_color : string;
  fig_title : string;
  fig_range_y : option (Z * Z);
  fig_barmode : option string;
  fig_text_auto : option string;
  fig_palette : string
}.

(** [px.bar] and [px.area] refuse a column name the frame does not have. *)
Definition chart (k : kind) (df : pd.DataFrame) (x y color title : string)
    (range_y : option (Z * Z)) (barmode text_auto : option string)
    (palette : string) : result figure :=
  match List.find (fun c => negb (Str.mem c (pd.columns df))) [x; y; color] with
  | Some c => Exc (Exn ValueError c)
  | None => Val (mkFigure k df x y color title range_y barmode text_auto palette)
  end.

End px.

(** ** Streamlit: the page *)

Inductive container :=
| Main
| Sidebar
| Column (i : nat).

Inductive element :=
| Image (url : string)
| Markdown (s : string)
| MarkdownOf (v : json)      (* [st.markdown(v)] for a decoded value *)
| Title (s : string)
| Header (s : string)
| Multiselect (label : string) (options default : list string)
| Slider (label : string) (lo hi value : Z)
| OptionMenu (options : list string)
| TextInput (label : string)
| Button (label : string)
| Selectbox (label : string) (options : list string)
| Metric (label value : string)
| PlotlyChart (fig : px.figure)
| Dataframe (df : pd.DataFrame)
| Error (s : string)
| Warning (s : string)
| Info (s : string)
| DownloadButton (label data file_name mime : string).

(** What seeds a run besides the backend: the environment variable and
    the widget state, that is what the user last chose.  A choice in a
    list is an index; [None] is a widget left at its default. *)
Record ui := mkUi {
  env_backend_api_url : option string;
  ui_selected_countries : option (list string);
  ui_selected_year : Z;
  ui_menu : nat;
  ui_user_query : string;
  ui_button : bool;
  ui_data_type : nat;
  ui_filter_country : option (list string);
  ui_country_profile : nat;
  ui_selected_report : nat
}.

(* ================================================================== *)
(** * The run-time state and the monad of the script *)

(** [country_totals]: country, then sector label, then total. *)
Definition totals := list (string * list (string * json)).

Record world := mkWorld {
  sent : list request;
  page : list (container * element);
  country_totals : totals
}.

Definition start : world := mkWorld [] [] [].

Definition M (A : Type) : Type := world -> result A * world.

Definition ret {A} (a : A) : M A := fun w => (Val a, w).

Definition raise {A} (e : exn) : M A := fun w => (Exc e, w).

Definition bind {A B} (m : M A) (f : A -> M B) : M B :=
  fun w =>
    match m w with
    | (Val a, w') => f a w'
    | (Exc e, w') => (Exc e, w')
    end.

(** [try: m except Exception as e: h e].  What [m] did to the state before
    it raised stays done. *)
Definition try_except {A} (m : M A) (h : exn -> M A) : M A :=
  fun w =>
    match m w with
    | (Val a, w') => (Val a, w')
    | (Exc e, w') => h e w'
    end.

Definition lift {A} (r : result A) : M A := fun w => (r, w).

Declare Scope py_scope.
Delimit Scope py_scope with py.
Notation "x <- m ;; k" := (bind m (fun x => k))
  (at level 100, m at next level, right associativity) : py_scope.
Notation "m ;; k" := (bind m (fun _ => k))
  (at level 100, right associativity) : py_scope.
Local Open Scope py_scope.

(** [for x in l: body x] *)
Fixpoint for_each {A} (l : list A) (body : A -> M unit) : M unit :=
  match l with
  | [] => ret tt
  | x :: r => body x ;; for_each r body
  end.

(** An element is written at the end of the page. *)
Definition st (c : container) (e : element) : M unit :=
  fun w => (Val tt, mkWorld (sent w) (page w ++ [(c, e)]) (country_totals w)).

(** One HTTP call: the request is recorded, then the backend's outcome is
    either raised or returned. *)
Definition call (b : backend) (r : request) : M response :=
  fun w =>
    let w' := mkWorld (sent w ++ [r]) (page w) (country_totals w) in
    match b r with
    | Raises msg => (Exc (Exn RequestException msg), w')
    | Replies resp => (Val resp, w')
    end.

(** [response.json()] *)
Definition json_of (r : response) : M json :=
  match body r with
  | Some v => ret v
  | None => raise (Exn JSONDecodeError "Expecting value")
  end.

Definition ok (r : response) : bool := status_code r =? 200.

(** ** Python operators on decoded values *)

(** [data.get(key, default)]: only a [dict] has [get]. *)
Definition dict_get (data : json) (key : string) (default : json)
    : result json :=
  match data with
  | JObj o => Val (match Str.lookup key o with
                   | Some v => v
                   | None => default
                   end)
  | _ => Exc (Exn AttributeError "object has no attribute 'get'")
  end.

Definition str_repeat (n : N) (s : string) : string :=
  N.iter n (String.append s) "".

Definition list_repeat {A} (n : N) (l : list A) : list A :=
  N.iter n (List.app l) [].

(** [v * 1_000_000] *)
Definition times_million (v : json) : result json :=
  match v with
  | JInt z => Val (JInt (z * 1000000))
  | JBool b => Val (JInt (if b then 1000000 else 0))
  | JFloat f =>
      Val (JFloat (Float.mul f (Float.of_ratio false 1000000 1)))
  | JStr s => Val (JStr (str_repeat 1000000 s))
  | JArr l => Val (JArr (list_repeat 1000000 l))
  | JNull | JObj _ =>
      Exc (Exn TypeError "unsupported operand type(s) for *")
  end.

(** [format(v, spec)] for the presentation type [f], with precision [p]
    and optionally the [,] separator.  An [int] is converted to [float]
    first. *)
Definition format_f (comma : bool) (p : nat) (v : json) : result string :=
  let of_int z :=
    match Float.of_Z z with
    | Some f => Val (Fmt.format_f comma p f)
    | None => Exc (Exn OverflowError "int too large to convert to float")
    end in
  match v with
  | JInt z => of_int z
  | JBool b => of_int (if b then 1 else 0)
  | JFloat f => Val (Fmt.format_f comma p f)
  | JStr _ => Exc (Exn ValueError "Unknown format code 'f' for object of type 'str'")
  | _ => Exc (Exn TypeError "unsupported format string")
  end.

(** [bool(s)] for an optional string: [None] and [""] are false. *)
Definition some_text (o : option string) : bool :=
  match o with
  | Some s => Str.truthy s
  | None => false
  end.

(* ================================================================== *)
(** * The script *)

(** ** Widgets that return the user's choice *)

(** A choice by index in a list of options; an index out of range is the
    first option. *)
Definition choose (i : nat) (options : list string) : string :=
  List.nth i options (List.hd "" options).

(** [st.selectbox]: [None] when there is nothing to choose from. *)
Definition selectbox (i : nat) (options : list string) : option string :=
  match options with
  | [] => None
  | _ => Some (choose i options)
  end.

(** [st.multiselect]: the chosen options, all of [default] at first. *)
Definition multiselect (chosen : option (list string))
    (options default : list string) : list string :=
  match chosen with
  | None => default
  | Some l => List.filter (fun c => Str.mem c options) l
  end.

(** [data if isinstance(data, list) else [data]] *)
Definition as_list (data : json) : json :=
  if pd.is_list data then data else JArr [data].

(** What [for row in v] ranges over. *)
Definition iterate (v : json) : result (list json) :=
  match v with
  | JArr l => Val l
  | JObj o => Val (List.map (fun kv => JStr (fst kv)) o)
  | JStr s => Val (List.map (fun c => JStr (String c "")) (Str.to_list s))
  | _ => Exc (Exn TypeError "object is not iterable")
  end.

(** [row["country"]] for an element of the decoded list.  In the
    backend's schema a country is text; a row whose country is another
    scalar is outside the model and is refused like an unusable one. *)
Definition row_country (row : json) : result string :=
  match row with
  | JObj o =>
      match Str.lookup "country" o with
      | Some (JStr c) => Val c
      | Some _ => Exc (Exn TypeError "country is not text")
      | None => Exc (Exn KeyError "country")
      end
  | _ => Exc (Exn TypeError "indices must be integers")
  end.

Fixpoint collect {A B} (f : A -> result B) (l : list A) : result (list B) :=
  match l with
  | [] => Val []
  | x :: r =>
      match f x with
      | Val y => match collect f r with
                 | Val ys => Val (y :: ys)
                 | Exc e => Exc e
                 end
      | Exc e => Exc e
      end
  end.

(** [country_totals[country][label] = total], after
    [if country not in country_totals: country_totals[country] = {}]. *)
Fixpoint put (country label : string) (total : json) (t : totals) : totals :=
  match t with
  | [] => [(country, [(label, total)])]
  | (c, d) :: r =>
      if String.eqb country c then (c, pd.set_key label total d) :: r
      else (c, d) :: put country label total r
  end.

Definition store (country label : string) (total : json) : M unit :=
  fun w => (Val tt, mkWorld (sent w) (page w)
                            (put country label total (country_totals w))).

Definition reset_totals : M unit :=
  fun w => (Val tt, mkWorld (sent w) (page w) []).

Definition read_totals : M totals :=
  fun w => (Val (country_totals w), w).

Definition default_countries : list string :=
  ["Malaysia"; "Indonesia"; "Saudi Arabia"].

Definition datasets : list string :=
  ["halal_ecommerce"; "ict_services"; "internet_penetration"; "islamic_fintech"].

Definition menu_options : list string :=
  ["Halal E-commerce"; "ICT & Fintech"; "AI Insights"; "Data Explorer"].

Definition metrics : list (string * string) :=
  [("Halal E-commerce", "halal_ecommerce");
   ("Islamic Fintech", "islamic_fintech");
   ("ICT Services", "ict_services")].

Definition by_country (metric : string) : list (string * param) :=
  [("metric", PStr metric); ("group_by", PStr "country")].

Section Script.

Variable b : backend.
Variable u : ui.

(** [os.getenv("BACKEND_API_URL", "http://backend:8000")] *)
Definition BACKEND_URL : string :=
  match env_backend_api_url u with
  | Some url => url
  | None => "http://backend:8000"
  end.

(** [requests.get(f"{BACKEND_URL}{path}", params=params)] *)
Definition get (path : string) (params : list (string * param)) : M response :=
  call b (mkRequest GET (BACKEND_URL ++ path) params None None).

(** Lines 15-20.  Defined by the script and called nowhere in it: the
    only call is in the commented-out lines 23-25. *)
Definition check_backend : M bool :=
  try_except
    (response <- call b (mkRequest GET (BACKEND_URL ++ "/health") [] None
                                   (Some 10)) ;;
     ret (ok response))
    (fun _ => ret false).

(** Lines 32-36: the options of the country selector. *)
Definition fetch_countries : M (list string) :=
  try_except
    (response <- get "/query/halal_ecommerce" [] ;;
     if ok response then
       data <- json_of response ;;
       rows <- lift (iterate data) ;;
       cs <- lift (collect row_country rows) ;;
       ret (Str.nodup cs)
     else ret default_countries)
    (fun _ => ret default_countries).

(** Lines 28-39: the sidebar filters; returns [countries]. *)
Definition sidebar_filters : M (list string) :=
  st Sidebar (Image "https://via.placeholder.com/200x100?text=Islamic+Economy+Dashboard ") ;;
  st Sidebar (Markdown "## 🌍 Filters") ;;
  countries <- fetch_countries ;;
  st Sidebar (Multiselect "Select Countries" countries countries) ;;
  st Sidebar (Slider "Select Year" 2015 2025 (ui_selected_year u)) ;;
  ret countries.

(** Lines 56-74. *)
Definition halal_ecommerce_view : M unit :=
  st Main (Header "🛒 Halal E-commerce Growth") ;;
  rev_response <- get "/aggregation/halal_ecommerce" (by_country "revenue_usd") ;;
  if ok rev_response then
    rev_data <- json_of rev_response ;;
    rev_df <- lift (pd.DataFrame_of (as_list rev_data)) ;;
    if negb (pd.empty rev_df) then
      fig <- lift (px.chart px.Bar rev_df "country" "total" "country"
                     "Total Revenue by Country" None None None "Prism") ;;
      st Main (PlotlyChart fig)
    else ret tt
  else ret tt.

(** Lines 79-97: the left half of the ICT & Fintech view. *)
Definition ict_services_chart : M unit :=
  ict_response <- get "/aggregation/ict_services" (by_country "gross_output") ;;
  if ok ict_response then
    ict_data <- json_of ict_response ;;
    ict_df <- lift (pd.DataFrame_of (as_list ict_data)) ;;
    if negb (pd.empty ict_df) then
      st (Column 1) (Markdown "## 📶 ICT Services Output") ;;
      ict_fig <- lift (px.chart px.Area ict_df "country" "total" "country"
                         "Gross Output by Country" None None None "Bold") ;;
      st (Column 1) (PlotlyChart ict_fig)
    else ret tt
  else ret tt.

(** Lines 98-114: the right half of the ICT & Fintech view. *)
Definition internet_penetration_chart : M unit :=
  penetration_response <- get "/query/internet_penetration" [] ;;
  if ok penetration_response then
    penetration_data <- json_of penetration_response ;;
    penetration_df <- lift (pd.DataFrame_of (as_list penetration_data)) ;;
    if negb (pd.empty penetration_df) then
      col <- lift (pd.column penetration_df "internet_penetration") ;;
      vals <- lift (pd.str_replace_astype_float "%" col) ;;
      let penetration_df := pd.set_column penetration_df "internet_penetration" vals in
      penetration_fig <- lift (px.chart px.Bar penetration_df "country"
                                 "internet_penetration" "country"
                                 "Internet Penetration Rate" (Some (0, 100))
                                 None None "Set1") ;;
      st (Column 2) (PlotlyChart penetration_fig)
    else ret tt
  else ret tt.

Definition ict_fintech_view : M unit :=
  ict_services_chart ;;
  internet_penetration_chart.

(** The request of line 121. *)
Definition ai_request (user_query : string) : request :=
  mkRequest POST (BACKEND_URL ++ "/ai_query") []
            (Some (JObj [("question", JStr user_query)])) None.

(** Lines 122-131: what is shown for the response to the AI query. *)
Definition ai_answer (ai_response : response) : M unit :=
  if ok ai_response then
    ai_data <- json_of ai_response ;;
    st Main (Markdown "### 🤖 AI Analysis") ;;
    answer <- lift (dict_get ai_data "answer" (JStr "No answer returned.")) ;;
    st Main (MarkdownOf answer) ;;
    match ai_data with
    | JObj o =>
        match Str.lookup "result" o with
        | Some result =>
            ai_df <- lift (pd.DataFrame_of result) ;;
            st Main (Markdown "### 📊 Query Results") ;;
            st Main (Dataframe ai_df)
        | None => ret tt
        end
    | _ => ret tt
    end
  else st Main (Error ("AI Query Failed: " ++ text ai_response)).

(** Lines 118-131. *)
Definition ai_insights_view : M unit :=
  st Main (Header "🤖 AI-Powered Analysis") ;;
  st Main (TextInput "Ask a question about the data") ;;
  let user_query := ui_user_query u in
  st Main (Button "Get AI Analysis") ;;
  if ui_button u && Str.truthy (Str.strip user_query) then
    ai_response <- call b (ai_request user_query) ;;
    ai_answer ai_response
  else ret tt.

(** Lines 135-144. *)
Definition data_explorer_view (countries : list string) : M unit :=
  st Main (Header "🔍 Explore Raw Data") ;;
  st Main (Selectbox "Select Dataset" datasets) ;;
  let data_type := choose (ui_data_type u) datasets in
  st Main (Multiselect "Filter by Country" countries countries) ;;
  let filter_country := multiselect (ui_filter_country u) countries countries in
  data_response <- get ("/query/" ++ data_type) [("countries", PList filter_country)] ;;
  if ok data_response then
    raw_data <- json_of data_response ;;
    df <- lift (pd.DataFrame_of (as_list raw_data)) ;;
    st Main (Dataframe df)
  else st Main (Warning "No data available for this selection.").

(** Lines 46-144: the navigation menu and the view it selects. *)
Definition selected_view (countries : list string) : M unit :=
  st Main (OptionMenu menu_options) ;;
  let selected := choose (ui_menu u) menu_options in
  if String.eqb selected "Halal E-commerce" then halal_ecommerce_view
  else if String.eqb selected "ICT & Fintech" then ict_fintech_view
  else if String.eqb selected "AI Insights" then ai_insights_view
  else if String.eqb selected "Data Explorer" then data_explorer_view countries
  else ret tt.

(** [f"${data.get('count', 0) * 1_000_000:,.0f} USD"] *)
Definition currency (data : json) : result string :=
  match dict_get data "count" (JInt 0) with
  | Val count =>
      match times_million count with
      | Val amount =>
          match format_f true 0 amount with
          | Val s => Val ("$" ++ s ++ " USD")
          | Exc e => Exc e
          end
      | Exc e => Exc e
      end
  | Exc e => Exc e
  end.

(** [f"{data.get('avg_growth_rate', 75.4):.1f}%"] *)
Definition percentage (data : json) : result string :=
  match dict_get data "avg_growth_rate" (JFloat (Float.of_decimal false 754 (-1))) with
  | Val rate =>
      match format_f false 1 rate with
      | Val s => Val (s ++ "%")
      | Exc e => Exc e
      end
  | Exc e => Exc e
  end.

(** One of the four columns of lines 150-168: the call, the substitute
    for a response that is not 200, and the metric. *)
Definition summary_metric (i : nat) (dataset : string) (default : json)
    (label : string) (display : json -> result string) : M unit :=
  response <- get ("/summary/" ++ dataset) [] ;;
  data <- (if ok response then json_of response else ret default) ;;
  value <- lift (display data) ;;
  st (Column i) (Metric label value).

(** Lines 147-168. *)
Definition summary_metrics : M unit :=
  st Main (Markdown "## 📈 Key Metrics") ;;
  summary_metric 1 "halal_ecommerce"
    (JObj [("count", JInt 0); ("avg_growth_rate", JInt 0)])
    "Total Halal Revenue" currency ;;
  summary_metric 2 "islamic_fintech" (JObj [("count", JInt 0)])
    "Total Fintech Transactions" currency ;;
  summary_metric 3 "ict_services" (JObj [("count", JInt 0)])
    "Total ICT Output" currency ;;
  summary_metric 4 "household_ict"
    (JObj [("avg_growth_rate", JFloat (Float.of_decimal false 754 (-1)))])
    "Average Internet Usage" percentage.

(** One of the two tables of lines 176-185. *)
Definition profile_table (i : nat) (country_profile title dataset : string)
    : M unit :=
  st (Column i) (Markdown ("### " ++ country_profile ++ title)) ;;
  response <- get ("/query/" ++ dataset) [("countries", PList [country_profile])] ;;
  data <- (if ok response then json_of response else ret (JArr [])) ;;
  df <- lift (pd.DataFrame_of data) ;;
  st (Column i) (Dataframe df).

(** Lines 171-185. *)
Definition country_profile_tool (countries : list string) : M unit :=
  st Main (Markdown "## 🌏 Country Profile Tool") ;;
  st Main (Selectbox "Select Country for Detailed Analysis" countries) ;;
  let country_profile := selectbox (ui_country_profile u) countries in
  match country_profile with
  | Some c =>
      if Str.truthy c then
        profile_table 1 c " - Halal E-commerce" "halal_ecommerce" ;;
        profile_table 2 c " - Fintech" "islamic_fintech"
      else ret tt
  | None => ret tt
  end.

(** [row[col]] for a row of [df.iterrows()]. *)
Definition row_get (df : pd.DataFrame) (row : list (string * json))
    (col : string) : result json :=
  if Str.mem col (pd.columns df) then Val (pd.cell col row)
  else Exc (Exn KeyError col).

(** Lines 203-207, the body of the inner loop.  As in [row_country], a
    country that is not text is outside the model and refused. *)
Definition add_row (label : string) (df : pd.DataFrame)
    (row : list (string * json)) : M unit :=
  country <- lift (row_get df row "country") ;;
  amount <- lift (row_get df row "total") ;;
  total <- lift (times_million amount) ;;
  match country with
  | JStr c => store c label total
  | JArr _ | JObj _ => raise (Exn TypeError "unhashable type")
  | _ => raise (Exn TypeError "country is not text")
  end.

(** Lines 197-209, the body of the outer loop. *)
Definition add_sector (sector : string * string) : M unit :=
  let '(label, endpoint) := sector in
  try_except
    (response <- get ("/aggregation/" ++ endpoint) (by_country "count") ;;
     if ok response then
       data <- json_of response ;;
       df <- lift (pd.DataFrame_of (as_list data)) ;;
       for_each (pd.records df) (add_row label df)
     else ret tt)
    (fun _ => ret tt).

(** Lines 212-213. *)
Definition melted (t : totals) : pd.DataFrame :=
  let comparison_df :=
    pd.rename "index" "Country"
      (pd.reset_index (pd.fillna_indexed (JInt 0) (pd.from_dict_index t))) in
  pd.melt "Country" "Sector" "Total (USD)" comparison_df.

(** Lines 211-224. *)
Definition comparison_chart : M unit :=
  t <- read_totals ;;
  match t with
  | [] => ret tt
  | _ =>
      compare_fig <- lift (px.chart px.Bar (melted t) "Country" "Total (USD)"
                             "Sector"
                             "Total Digital Economy Metrics by Country and Sector"
                             None (Some "group") (Some ".2s") "Pastel") ;;
      st Main (PlotlyChart compare_fig)
  end.

(** Lines 188-224. *)
Definition country_comparison : M unit :=
  st Main (Markdown "## 🌐 Country-wise Total Comparison Across Sectors") ;;
  reset_totals ;;
  for_each metrics add_sector ;;
  comparison_chart.

(** Lines 227-244. *)
Definition download_section : M unit :=
  st Sidebar (Markdown "---") ;;
  st Sidebar (Markdown "## 📥 Download Reports") ;;
  st Sidebar (Selectbox "Select report to download" datasets) ;;
  let selected_report := choose (ui_selected_report u) datasets in
  try_except
    (download_response <- get ("/download/" ++ selected_report) [] ;;
     if ok download_response then
       st Sidebar (DownloadButton "Download CSV" (text download_response)
                                  (selected_report ++ ".csv") "text/csv")
     else st Sidebar (Info "Report not available for download."))
    (fun e => st Sidebar (Error ("Error downloading report: " ++ exn_str e))).

(** The whole script, top to bottom. *)
Definition app : M unit :=
  countries <- sidebar_filters ;;
  st Main (Title "📊 Islamic Digital Economy Dashboard") ;;
  st Main (Markdown "Explore trends in halal e-commerce, fintech, and digital economy metrics across Muslim-majority countries") ;;
  selected_view countries ;;
  summary_metrics ;;
  country_profile_tool countries ;;
  country_comparison ;;
  download_section.

End Script.

(** One render pass: the script run from the empty page. *)
Definition render (b : backend) (u : ui) : result unit * world :=
  app b u start.

(* ================================================================== *)
(** * Vocabulary of the properties *)

(** The paths the script reads with GET. *)
Definition get_paths : list string :=
  ["/query/halal_ecommerce"; "/aggregation/halal_ecommerce";
   "/aggregation/ict_services"; "/query/internet_penetration"]
  ++ List.map (String.append "/query/") datasets
  ++ List.map (String.append "/summary/")
       ["halal_ecommerce"; "islamic_fintech"; "ict_services"; "household_ict"]
  ++ List.map (String.append "/query/") ["halal_ecommerce"; "islamic_fintech"]
  ++ List.map (fun m => "/aggregation/" ++ snd m) metrics
  ++ List.map (String.append "/download/") datasets.

(** The user has pressed the button of the AI Insights view on a query
    that is not blank. *)
Definition ai_submitted (u : ui) : bool :=
  String.eqb (choose (ui_menu u) menu_options) "AI Insights"
  && ui_button u
  && Str.truthy (Str.strip (ui_user_query u)).

(** The requests a run may send: a plain GET of one of [get_paths], or
    the AI query once it is submitted. *)
Definition expected (u : ui) (r : request) : Prop :=
  (exists p params,
      In p get_paths /\
      r = mkRequest GET (BACKEND_URL u ++ p) params None None)
  \/ (ai_submitted u = true /\ r = ai_request u (ui_user_query u)).

(** A call that did not give a 200 response. *)
Definition failed (o : outcome) : Prop :=
  match o with
  | Raises _ => True
  | Replies r => ok r = false
  end.

(** A 200 response carrying the document [v]. *)
Definition succeeded (o : outcome) (v : json) : Prop :=
  match o with
  | Raises _ => False
  | Replies r => ok r = true /\ body r = Some v
  end.

Definition add_sent (w : world) (l : list request) : world :=
  mkWorld (sent w ++ l) (page w) (country_totals w).

Definition add_page (w : world) (l : list (container * element)) : world :=
  mkWorld (sent w) (page w ++ l) (country_totals w).

(** [m] keeps the relation [R] between the state before and after. *)
Definition keeps (R : world -> world -> Prop) {A} (m : M A) : Prop :=
  forall w, R w (snd (m w)).

(** The request of line 17. *)
Definition health_probe (u : ui) : request :=
  mkRequest GET (BACKEND_URL u ++ "/health") [] None (Some 10).

(** A POST to [/ai_query]. *)
Definition is_ai_query (u : ui) (r : request) : Prop :=
  req_method r = POST /\ req_url r = BACKEND_URL u ++ "/ai_query".

(** The request log only grows. *)
Definition grows (w w' : world) : Prop :=
  forall r, In r (sent w) -> In r (sent w').

(** Every request in the log is one the script is expected to send. *)
Definition only_expected (u : ui) (w w' : world) : Prop :=
  Forall (expected u) (sent w) -> Forall (expected u) (sent w').

(** ** Sample inputs *)

(** Widgets as a first visit finds them: first view, nothing typed. *)
Definition first_visit : ui := mkUi None None 2020 0 "" false 0 None 0 0.

(** The AI Insights view with a question typed and the button pressed. *)
Definition asking (q : string) : ui := mkUi None None 2020 2 q true 0 None 0 0.

Definition reply (status : Z) (v : json) : outcome :=
  Replies (mkResponse status "" (Some v)).

(** A backend that answers every call with 503. *)
Definition unavailable : backend := fun _ => reply 503 JNull.

(** The request of line 33. *)
Definition filter_source (u : ui) : request :=
  mkRequest GET (BACKEND_URL u ++ "/query/halal_ecommerce") [] None None.

(** [row] is a dict whose [country] is the text [c]. *)
Definition has_country (row : json) (c : string) : Prop :=
  exists o, row = JObj o /\ Str.lookup "country" o = Some (JStr c).

(** The selector of line 38, offering [options]. *)
Definition country_selector (options : list string) : container * element :=
  (Sidebar, Multiselect "Select Countries" options options).

(** A backend whose filter source lists three rows, two of one country. *)
Definition two_countries : backend := fun r =>
  if String.eqb (req_url r) "http://backend:8000/query/halal_ecommerce"
  then reply 200 (JArr [JObj [("country", JStr "Malaysia"); ("year", JInt 2020)];
                        JObj [("country", JStr "Qatar"); ("year", JInt 2020)];
                        JObj [("country", JStr "Malaysia"); ("year", JInt 2021)]])
  else reply 503 JNull.

(** The heading of line 188. *)
Definition comparison_heading : container * element :=
  (Main, Markdown "## 🌐 Country-wise Total Comparison Across Sectors").

(** The request of line 198 for one sector's endpoint. *)
Definition agg_request (u : ui) (endpoint : string) : request :=
  mkRequest GET (BACKEND_URL u ++ "/aggregation/" ++ endpoint)
            (by_country "count") None None.

(** [o] is a row with the country and the integer total of [cx]. *)
Definition agg_row (o : list (string * json)) (cx : string * Z) : Prop :=
  Str.lookup "country" o = Some (JStr (fst cx)) /\
  Str.lookup "total" o = Some (JInt (snd cx)).

(** [country_totals[c][l]], when there is such an entry. *)
Definition entry (t : totals) (c l : string) : option json :=
  match Str.lookup c t with
  | Some d => Str.lookup l d
  | None => None
  end.

(** In the spec's words: the totals of one sector's rows, times
    1,000,000, accumulated under (country, label). *)
Definition accumulate (label : string) (cxs : list (string * Z)) (t : totals)
    : totals :=
  List.fold_left (fun t cx => put (fst cx) label (JInt (snd cx * 1000000)) t)
                 cxs t.

(** The chart of lines 214-223 for the totals [t]. *)
Definition compare_fig (t : totals) : px.figure :=
  px.mkFigure px.Bar (melted t) "Country" "Total (USD)" "Sector"
    "Total Digital Economy Metrics by Country and Sector"
    None (Some "group") (Some ".2s") "Pastel".

(** The request of lines 151, 156, 161 and 166 for one dataset. *)
Definition summary_request (u : ui) (dataset : string) : request :=
  mkRequest GET (BACKEND_URL u ++ "/summary/" ++ dataset) [] None None.

(** The count a summary call leaves to display: the one returned with a
    200 response, 0 for any other status. *)
Definition count_shown (o : outcome) (n : Z) : Prop :=
  match o with
  | Raises _ => False
  | Replies r =>
      if ok r
      then exists d, body r = Some (JObj d) /\
                     Str.lookup "count" d = Some (JInt n)
      else n = 0
  end.

(** The float written 75.4. *)
Definition f75_4 : spec_float := Float.of_decimal false 754 (-1).

(** The rate a summary call leaves to display: the one returned with a
    200 response, 75.4 for any other status. *)
Definition rate_shown (o : outcome) (f : spec_float) : Prop :=
  match o with
  | Raises _ => False
  | Replies r =>
      if ok r
      then exists d, body r = Some (JObj d) /\
                     Str.lookup "avg_growth_rate" d = Some (JFloat f)
      else f = f75_4
  end.

(** In the spec's words: the count times 1,000,000, written as dollars
    with thousands separators. *)
Definition usd (count : Z) : string :=
  let amount := count * 1000000 in
  let sign := if amount <? 0 then "-" else "" in
  let digits := Str.of_list (Fmt.group3 (Fmt.digits (Z.abs amount))) in
  "$" ++ (sign ++ digits) ++ " USD".

(** In the spec's words: the rate as a percentage with one decimal. *)
Definition percent (rate : spec_float) : string :=
  Fmt.format_f false 1 rate ++ "%".

(** A backend whose halal e-commerce summary counts 3 and whose other
    calls all answer 503. *)
Definition count_is_three : backend := fun r =>
  if String.eqb (req_url r) "http://backend:8000/summary/halal_ecommerce"
  then reply 200 (JObj [("count", JInt 3)])
  else reply 503 JNull.

(** The request of line 99. *)
Definition penetration_request (u : ui) : request :=
  mkRequest GET (BACKEND_URL u ++ "/query/internet_penetration") [] None None.

(** [o] is a row with a country and the penetration text [s]. *)
Definition penetration_row (o : list (string * json)) (s : string) : Prop :=
  Str.lookup "internet_penetration" o = Some (JStr s) /\
  exists c, Str.lookup "country" o = Some c.

(** The chart of lines 105-113 over the frame [df]. *)
Definition penetration_fig (df : pd.DataFrame) : px.figure :=
  px.mkFigure px.Bar df "country" "internet_penetration" "country"
    "Internet Penetration Rate" (Some (0, 100)) None None "Set1".

(** In the spec's words: the text with a trailing [%] stripped, parsed as
    a floating-point number. *)
Definition trailing_percent_stripped (s : string) : option spec_float :=
  Parse.float_of_string (Str.strip_trailing "%" s).

(** What the script computes: the text without any [%], parsed. *)
Definition percent_removed (s : string) : option spec_float :=
  Parse.float_of_string (Str.remove_char "%" s).

(** The float written 45.2. *)
Definition f45_2 : spec_float := Float.of_decimal false 452 (-1).

(** A backend whose penetration rows carry one usual value and one with
    the percent sign in front. *)
Definition percent_in_front : backend := fun r =>
  if String.eqb (req_url r) "http://backend:8000/query/internet_penetration"
  then reply 200 (JArr [JObj [("country", JStr "Malaysia");
                              ("internet_penetration", JStr "89.6%")];
                        JObj [("country", JStr "Qatar");
                              ("internet_penetration", JStr "%45.2")]])
  else reply 503 JNull.

(** A value that is neither a list nor a dict. *)
Definition scalar (v : json) : bool :=
  match v with
  | JArr _ | JObj _ => false
  | _ => true
  end.

(** The Data Explorer view, first dataset, widgets otherwise untouched. *)
Definition exploring : ui := mkUi None None 2020 3 "" false 0 None 0 0.

(** A backend whose [/query/halal_ecommerce] lists two rows when asked
    without a filter and answers a filtered query with the one matching
    row as a single object; every other call answers 503. *)
Definition single_row_backend : backend := fun r =>
  if String.eqb (req_url r) "http://backend:8000/query/halal_ecommerce" then
    match req_params r with
    | [] => reply 200 (JArr [JObj [("country", JStr "Malaysia"); ("revenue_usd", JInt 5)];
                             JObj [("country", JStr "Qatar"); ("revenue_usd", JInt 7)]])
    | _ => reply 200 (JObj [("country", JStr "Malaysia"); ("revenue_usd", JInt 5)])
    end
  else reply 503 JNull.

(** A backend that cannot be reached for [/summary/halal_ecommerce] and
    answers every other call with 503. *)
Definition summary_unreachable : backend := fun r =>
  if String.eqb (req_url r) "http://backend:8000/summary/halal_ecommerce"
  then Raises "Connection refused"
  else reply 503 JNull.

(** No call meets a transport exception and none is answered with 200. *)
Definition never_200 (b : backend) : Prop :=
  forall r, exists resp, b r = Replies resp /\ ok resp = false.

(** The last total listed for country [c] among one sector's rows. *)
Definition last_total (c : string) (cxs : list (string * Z)) : option Z :=
  Str.lookup c (List.rev cxs).

(** What one sector's call came to: [None] when it failed, else the
    (country, total) pairs of the rows of its 200 response, which is a
    list of objects or one object. *)
Definition sector_outcome (o : outcome) (r : option (list (string * Z)))
    : Prop :=
  match r with
  | None => failed o
  | Some cxs =>
      exists data os,
        succeeded o data /\
        as_list data = JArr (List.map JObj os) /\
        Forall2 agg_row os cxs
  end.

(** In the spec's words: what the accumulator holds for a country under a
    sector's label after that sector's call. *)
Definition stored (c : string) (r : option (list (string * Z))) : option json :=
  match r with
  | Some cxs =>
      match last_total c cxs with
      | Some x => Some (JInt (x * 1000000))
      | None => None
      end
  | None => None
  end.

(** A row of the long-form frame that is charted. *)
Definition melted_row (c l : string) (v : json) : list (string * json) :=
  [("Country", JStr c); ("Sector", JStr l); ("Total (USD)", v)].

(** The country [c] has a total under some label. *)
Definition country_present (t : totals) (c : string) : Prop :=
  exists l, entry t c l <> None.

(** Some country has a total under the label [l]. *)
Definition sector_present (t : totals) (l : string) : Prop :=
  exists c, entry t c l <> None.

(** The total charted for [c] under [l]: the stored one, 0 when there is
    none. *)
Definition charted (t : totals) (c l : string) : json :=
  match entry t c l with
  | Some v => v
  | None => JInt 0
  end.

(** [fillna(0)] on one cell. *)
Definition fill0 (v : json) : json := if pd.isna v then JInt 0 else v.

(** A backend whose halal e-commerce aggregation lists Malaysia with a
    total of 2 and whose other calls all answer 503. *)
Definition halal_only : backend := fun r =>
  if String.eqb (req_url r) "http://backend:8000/aggregation/halal_ecommerce"
  then reply 200 (JArr [JObj [("country", JStr "Malaysia"); ("total", JInt 2)]])
  else reply 503 JNull.

(** A backend whose three aggregations answer: Malaysia with a total of
    2 in each, and Qatar in the first only. *)
Definition three_sectors : backend := fun r =>
  if String.eqb (req_url r) "http://backend:8000/aggregation/halal_ecommerce"
  then reply 200 (JArr [JObj [("country", JStr "Malaysia"); ("total", JInt 2)];
                        JObj [("country", JStr "Qatar"); ("total", JInt 5)]])
  else if String.eqb (req_url r) "http://backend:8000/aggregation/islamic_fintech"
  then reply 200 (JObj [("country", JStr "Malaysia"); ("total", JInt 2)])
  else if String.eqb (req_url r) "http://backend:8000/aggregation/ict_services"
  then reply 200 (JArr [JObj [("country", JStr "Malaysia"); ("total", JInt 2)]])
  else reply 503 JNull.

(** The accumulator after one sector's call. *)
Definition after (label : string) (r : option (list (string * Z)))
    (t : totals) : totals :=
  match r with
  | Some cxs => accumulate label cxs t
  | None => t
  end.

(** The accumulator after the three calls, in the order of [metrics]. *)
Definition comparison_totals (r1 r2 r3 : option (list (string * Z))) : totals :=
  after "ICT Services" r3
    (after "Islamic Fintech" r2
       (after "Halal E-commerce" r1 [])).

(** [m] returns normally from every state, with a value that satisfies
    [P]. *)
Definition returning {A} (P : A -> Prop) (m : M A) : Prop :=
  forall w, exists a w', m w = (Val a, w') /\ P a.

(* ================================================================== *)
(** * Vocabulary of the further properties *)

(** The report chosen in the sidebar, line 230. *)
Definition selected_report (u : ui) : string :=
  choose (ui_selected_report u) datasets.

(** The request of line 233. *)
Definition download_request (u : ui) : request :=
  mkRequest GET (BACKEND_URL u ++ "/download/" ++ selected_report u)
            [] None None.

(** What the download section shows for the outcome of its call. *)
Definition download_element (u : ui) (o : outcome) : element :=
  match o with
  | Raises msg => Error ("Error downloading report: " ++ msg)
  | Replies r =>
      if status_code r =? 200
      then DownloadButton "Download CSV" (text r)
                          (selected_report u ++ ".csv") "text/csv"
      else Info "Report not available for download."
  end.

(** A backend that cannot be reached at all. *)
Definition unreachable : backend := fun _ => Raises "Connection refused".


(** A decoded body from which line 34 cannot read the countries: not a
    JSON document, a document that cannot be iterated, or a list with a
    row that has no [country]. *)
Definition no_countries_in (v : option json) : Prop :=
  match v with
  | None => True
  | Some (JArr rows) =>
      exists o, In (JObj o) rows /\ Str.lookup "country" o = None
  | Some (JNull | JBool _ | JInt _ | JFloat _) => True
  | Some (JStr _ | JObj _) => False
  end.

(** A backend whose filter source answers 200 with a row that lacks the
    country. *)
Definition row_without_country : backend := fun r =>
  if String.eqb (req_url r) "http://backend:8000/query/halal_ecommerce"
  then reply 200 (JArr [JObj [("country", JStr "Malaysia")];
                        JObj [("revenue_usd", JInt 7)]])
  else reply 503 JNull.

(** The request of lines 58-61. *)
Definition revenue_request (u : ui) : request :=
  mkRequest GET (BACKEND_URL u ++ "/aggregation/halal_ecommerce")
            (by_country "revenue_usd") None None.

(** The chart of lines 66-73 over the frame [df]. *)
Definition revenue_fig (df : pd.DataFrame) : px.figure :=
  px.mkFigure px.Bar df "country" "total" "country"
    "Total Revenue by Country" None None None "Prism".

Definition halal_header : container * element :=
  (Main, Header "🛒 Halal E-commerce Growth").

(** Some row of [os] has the key [k]. *)
Definition some_row_has (k : string) (os : list (list (string * json))) : Prop :=
  exists o, In o os /\ Str.lookup k o <> None.

(** No row of [os] has the key [k]. *)
Definition no_row_has (k : string) (os : list (list (string * json))) : Prop :=
  forall o, In o os -> Str.lookup k o = None.

(** A call answered with a status other than 200, or with 200 and an
    empty list. *)
Definition nothing_to_chart (o : outcome) : Prop :=
  match o with
  | Raises _ => False
  | Replies r => ok r = false \/ (ok r = true /\ body r = Some (JArr []))
  end.

(** A backend whose revenue aggregation lists two countries. *)
Definition two_revenues : backend := fun r =>
  if String.eqb (req_url r) "http://backend:8000/aggregation/halal_ecommerce"
  then reply 200 (JArr [JObj [("country", JStr "Malaysia"); ("total", JInt 12)];
                        JObj [("country", JStr "Qatar"); ("total", JInt 7)]])
  else reply 503 JNull.

(** A backend whose revenue aggregation names its sum [revenue] instead
    of [total]. *)
Definition renamed_total : backend := fun r =>
  if String.eqb (req_url r) "http://backend:8000/aggregation/halal_ecommerce"
  then reply 200 (JArr [JObj [("country", JStr "Malaysia"); ("revenue", JInt 12)]])
  else reply 503 JNull.

(** The dataset chosen in the Data Explorer, line 136. *)
Definition explorer_dataset (u : ui) : string :=
  choose (ui_data_type u) datasets.

(** The request of line 138, with the country filter of line 137. *)
Definition explorer_request (u : ui) (countries : list string) : request :=
  mkRequest GET (BACKEND_URL u ++ "/query/" ++ explorer_dataset u)
            [("countries",
              PList (multiselect (ui_filter_country u) countries countries))]
            None None.

(** The widgets of lines 135-137. *)
Definition explorer_widgets (countries : list string)
    : list (container * element) :=
  [(Main, Header "🔍 Explore Raw Data");
   (Main, Selectbox "Select Dataset" datasets);
   (Main, Multiselect "Filter by Country" countries countries)].

(** The frame of a list of rows, none for no rows. *)
Definition frame_of_rows (os : list (list (string * json))) : pd.DataFrame :=
  match os with
  | [] => pd.empty_frame
  | _ => pd.of_records os
  end.

(** The first two elements of a decoded AI answer, lines 124-125. *)
Definition ai_analysis (o : list (string * json)) : list (container * element) :=
  [(Main, Markdown "### 🤖 AI Analysis");
   (Main, MarkdownOf match Str.lookup "answer" o with
                     | Some answer => answer
                     | None => JStr "No answer returned."
                     end)].

(** A 200 body the comparison loop can take nothing from: not a JSON
    document, or rows none of which has a [country], or none a [total]. *)
Definition no_totals_in (v : option json) : Prop :=
  match v with
  | None => True
  | Some data =>
      exists os, as_list data = JArr (List.map JObj os) /\
                 (no_row_has "country" os \/ no_row_has "total" os)
  end.

(** A backend whose ICT aggregation answers 200 with rows that name
    their sum [count], and whose other calls answer 503. *)
Definition ict_renamed_total : backend := fun r =>
  if String.eqb (req_url r) "http://backend:8000/aggregation/ict_services"
  then reply 200 (JArr [JObj [("country", JStr "Malaysia"); ("count", JInt 4)]])
  else reply 503 JNull.

(** A backend whose halal aggregation lists a good row and then a row
    whose total is an object. *)
Definition bad_second_row : backend := fun r =>
  if String.eqb (req_url r) "http://backend:8000/aggregation/halal_ecommerce"
  then reply 200 (JArr [JObj [("country", JStr "Malaysia"); ("total", JInt 2)];
                        JObj [("country", JStr "Qatar");
                              ("total", JObj [("value", JInt 5)])];
                        JObj [("country", JStr "Oman"); ("total", JInt 9)]])
  else reply 503 JNull.

(** The requests of lines 178 and 183 for the country [c]. *)
Definition profile_request (u : ui) (dataset c : string) : request :=
  mkRequest GET (BACKEND_URL u ++ "/query/" ++ dataset)
            [("countries", PList [c])] None None.

(** The widgets of lines 171-172. *)
Definition profile_widgets (countries : list string)
    : list (container * element) :=
  [(Main, Markdown "## 🌏 Country Profile Tool");
   (Main, Selectbox "Select Country for Detailed Analysis" countries)].

(** The request of lines 80-83. *)
Definition ict_request (u : ui) : request :=
  mkRequest GET (BACKEND_URL u ++ "/aggregation/ict_services")
            (by_country "gross_output") None None.

(** Only the penetration query answers, with one row. *)
Definition penetration_only : backend := fun r =>
  if String.eqb (req_url r) "http://backend:8000/query/internet_penetration"
  then reply 200 (JArr [JObj [("country", JStr "Malaysia");
                              ("internet_penetration", JStr "89.6%")]])
  else reply 503 JNull.

(** An ASCII white-space character: tab, line feed, vertical tab, form
    feed, carriage return, the four separators and the space. *)
Definition blank (c : ascii) : bool :=
  match Str.byte c with
  | (9 | 10 | 11 | 12 | 13 | 28 | 29 | 30 | 31 | 32)%N => true
  | _ => false
  end.

(** A text made of white space only, the empty text included. *)
Definition all_blank (s : string) : bool :=
  List.forallb blank (Str.to_list s).


(** The chart of lines 89-96 over the frame [df]. *)
Definition ict_fig (df : pd.DataFrame) : px.figure :=
  px.mkFigure px.Area df "country" "total" "country"
    "Gross Output by Country" None None None "Bold".

(** A backend whose ICT aggregation answers with one object. *)
Definition one_output : backend := fun r =>
  if String.eqb (req_url r) "http://backend:8000/aggregation/ict_services"
  then reply 200 (JObj [("country", JStr "Malaysia"); ("total", JInt 40)])
  else reply 503 JNull.

(* ================================================================== *)
(** * What every run preserves *)

(** ** Facts on choices and paths *)

Lemma choose_in (i : nat) (l : list string) : l <> [] -> In (choose i l) l.
Proof.
  intros Hl. unfold choose.
  destruct (Nat.lt_ge_cases i (List.length l)) as [Hlt | Hge].
  - apply nth_In. exact Hlt.
  - rewrite nth_overflow by exact Hge.
    destruct l as [|x l]; [congruence | left; reflexivity].
Qed.

Lemma choose_dataset (i : nat) : In (choose i datasets) datasets.
Proof. apply choose_in. discriminate. Qed.

Lemma query_path (d : string) : In d datasets -> In ("/query/" ++ d) get_paths.
Proof.
  intros Hd. unfold get_paths.
  apply in_or_app. right. apply in_or_app. left.
  apply in_map. exact Hd.
Qed.

Lemma download_path (d : string) :
  In d datasets -> In ("/download/" ++ d) get_paths.
Proof.
  intros Hd. unfold get_paths.
  do 5 (apply in_or_app; right).
  apply in_map. exact Hd.
Qed.

Ltac in_paths :=
  solve [ apply query_path; apply choose_dataset
        | apply download_path; apply choose_dataset
        | vm_compute; repeat (first [left; reflexivity | right]) ].

(** A relation between the state before and after that is kept by every
    step of the script, given that it is kept by the three ways the state
    changes.  [Q] is what is known of a request that is sent. *)
Section Frame.

Variable R : world -> world -> Prop.
Variable Q : request -> Prop.
Hypothesis R_refl : forall w, R w w.
Hypothesis R_trans : forall w1 w2 w3, R w1 w2 -> R w2 w3 -> R w1 w3.
Hypothesis R_page : forall w p, R w (mkWorld (sent w) p (country_totals w)).
Hypothesis R_totals : forall w t, R w (mkWorld (sent w) (page w) t).
Hypothesis R_sent :
  forall w r, Q r -> R w (mkWorld (sent w ++ [r]) (page w) (country_totals w)).

Lemma keeps_ret {A} (a : A) : keeps R (ret a).
Proof. intros w. apply R_refl. Qed.

Lemma keeps_raise {A} (e : exn) : keeps R (@raise A e).
Proof. intros w. apply R_refl. Qed.

Lemma keeps_lift {A} (r : result A) : keeps R (lift r).
Proof. intros w. apply R_refl. Qed.

Lemma keeps_bind {A B} (m : M A) (f : A -> M B) :
  keeps R m -> (forall a, keeps R (f a)) -> keeps R (bind m f).
Proof.
  intros Hm Hf w. unfold bind.
  specialize (Hm w). destruct (m w) as [[a|e] w']; simpl in *.
  - eapply R_trans; [exact Hm | apply Hf].
  - exact Hm.
Qed.

Lemma keeps_try {A} (m : M A) (h : exn -> M A) :
  keeps R m -> (forall e, keeps R (h e)) -> keeps R (try_except m h).
Proof.
  intros Hm Hh w. unfold try_except.
  specialize (Hm w). destruct (m w) as [[a|e] w']; simpl in *.
  - exact Hm.
  - eapply R_trans; [exact Hm | apply Hh].
Qed.

Lemma keeps_st c e : keeps R (st c e).
Proof. intros w. apply R_page. Qed.

Lemma keeps_store c l v : keeps R (store c l v).
Proof. intros w. apply R_totals. Qed.

Lemma keeps_reset : keeps R reset_totals.
Proof. intros w. apply R_totals. Qed.

Lemma keeps_read : keeps R read_totals.
Proof. intros w. apply R_refl. Qed.

Lemma keeps_json_of r : keeps R (json_of r).
Proof. unfold json_of. destruct (body r); [apply keeps_ret | apply keeps_raise]. Qed.

Lemma keeps_call b r : Q r -> keeps R (call b r).
Proof.
  intros HQ w. unfold call.
  destruct (b r); simpl; apply R_sent; exact HQ.
Qed.

Lemma keeps_for_each {A} (l : list A) (body : A -> M unit) :
  (forall x, keeps R (body x)) -> keeps R (for_each l body).
Proof.
  intros Hb. induction l as [|x l IH]; simpl.
  - apply keeps_ret.
  - apply keeps_bind; [apply Hb | intros _; exact IH].
Qed.

(** *** The blocks of the script *)

Variable b : backend.
Variable u : ui.
Hypothesis Q_expected : forall r, expected u r -> Q r.

Ltac keeps_step :=
  first
    [ apply keeps_ret | apply keeps_raise | apply keeps_lift | apply keeps_st
    | apply keeps_store | apply keeps_reset | apply keeps_read
    | apply keeps_json_of
    | apply keeps_bind; [ | intros ? ]
    | apply keeps_try; [ | intros ? ]
    | apply keeps_for_each; intros ?
    | match goal with
      | |- keeps _ (if ?c then _ else _) => destruct c eqn:?
      | |- keeps _ (match ?x with _ => _ end) => destruct x eqn:?
      end ].

Lemma keeps_get (p : string) (params : list (string * param)) :
  In p get_paths -> keeps R (get b u p params).
Proof.
  intros Hp. unfold get. apply keeps_call. apply Q_expected.
  left. exists p, params. split; [exact Hp | reflexivity].
Qed.

Ltac keeps_block :=
  repeat first [ apply keeps_get; in_paths | keeps_step ].

Lemma keeps_sidebar_filters : keeps R (sidebar_filters b u).
Proof. unfold sidebar_filters, fetch_countries. keeps_block. Qed.

Lemma keeps_halal_ecommerce_view : keeps R (halal_ecommerce_view b u).
Proof. unfold halal_ecommerce_view. keeps_block. Qed.

Lemma keeps_ict_fintech_view : keeps R (ict_fintech_view b u).
Proof.
  unfold ict_fintech_view, ict_services_chart, internet_penetration_chart.
  keeps_block.
Qed.

Lemma keeps_ai_insights_view :
  String.eqb (choose (ui_menu u) menu_options) "AI Insights" = true ->
  keeps R (ai_insights_view b u).
Proof.
  intros Hmenu. unfold ai_insights_view.
  do 3 (apply keeps_bind; [apply keeps_st | intros _]).
  destruct (ui_button u && Str.truthy (Str.strip (ui_user_query u)))
    eqn:Hsub; [ | apply keeps_ret].
  apply keeps_bind.
  - apply keeps_call. apply Q_expected. right.
    split; [ | reflexivity].
    unfold ai_submitted. rewrite Hmenu.
    rewrite <- andb_assoc. exact Hsub.
  - intros ai_response. unfold ai_answer. keeps_block.
Qed.

Lemma keeps_data_explorer_view cs : keeps R (data_explorer_view b u cs).
Proof. unfold data_explorer_view. keeps_block. Qed.

Lemma keeps_selected_view cs : keeps R (selected_view b u cs).
Proof.
  unfold selected_view. apply keeps_bind; [apply keeps_st | intros _].
  destruct (String.eqb (choose (ui_menu u) menu_options) "Halal E-commerce");
    [apply keeps_halal_ecommerce_view | ].
  destruct (String.eqb (choose (ui_menu u) menu_options) "ICT & Fintech");
    [apply keeps_ict_fintech_view | ].
  destruct (String.eqb (choose (ui_menu u) menu_options) "AI Insights") eqn:Hai;
    [apply keeps_ai_insights_view; exact Hai | ].
  destruct (String.eqb (choose (ui_menu u) menu_options) "Data Explorer");
    [apply keeps_data_explorer_view | apply keeps_ret].
Qed.

Lemma keeps_summary_metric i dataset default label display :
  In ("/summary/" ++ dataset) get_paths ->
  keeps R (summary_metric b u i dataset default label display).
Proof.
  intros Hp. unfold summary_metric.
  apply keeps_bind; [apply keeps_get; exact Hp | intros ?]. keeps_block.
Qed.

Lemma keeps_summary_metrics : keeps R (summary_metrics b u).
Proof.
  unfold summary_metrics.
  repeat first [ apply keeps_summary_metric; in_paths | keeps_step ].
Qed.

Lemma keeps_profile_table i c title dataset :
  In ("/query/" ++ dataset) get_paths ->
  keeps R (profile_table b u i c title dataset).
Proof.
  intros Hp. unfold profile_table.
  apply keeps_bind; [apply keeps_st | intros _].
  apply keeps_bind; [apply keeps_get; exact Hp | intros ?]. keeps_block.
Qed.

Lemma keeps_country_profile_tool cs : keeps R (country_profile_tool b u cs).
Proof.
  unfold country_profile_tool.
  repeat first [ apply keeps_profile_table; in_paths | keeps_step ].
Qed.

Lemma keeps_add_sector label endpoint :
  In ("/aggregation/" ++ endpoint) get_paths ->
  keeps R (add_sector b u (label, endpoint)).
Proof.
  intros Hp. unfold add_sector, add_row.
  apply keeps_try; [ | intros _; apply keeps_ret].
  apply keeps_bind; [apply keeps_get; exact Hp | intros ?]. keeps_block.
Qed.

Lemma keeps_country_comparison : keeps R (country_comparison b u).
Proof.
  unfold country_comparison, comparison_chart, metrics. simpl for_each.
  repeat first [ apply keeps_add_sector; in_paths | keeps_step ].
Qed.

Lemma keeps_download_section : keeps R (download_section b u).
Proof. unfold download_section. keeps_block. Qed.

Lemma keeps_ai_answer r : keeps R (ai_answer r).
Proof. unfold ai_answer. keeps_block. Qed.

(** Everything below the views: lines 146-244. *)
Lemma keeps_below_views cs :
  keeps R (summary_metrics b u ;; country_profile_tool b u cs ;;
           country_comparison b u ;; download_section b u).
Proof.
  apply keeps_bind; [apply keeps_summary_metrics | intros _].
  apply keeps_bind; [apply keeps_country_profile_tool | intros _].
  apply keeps_bind; [apply keeps_country_comparison | intros _].
  apply keeps_download_section.
Qed.

Lemma keeps_app : keeps R (app b u).
Proof.
  unfold app.
  apply keeps_bind; [apply keeps_sidebar_filters | intros countries].
  do 2 (apply keeps_bind; [apply keeps_st | intros _]).
  apply keeps_bind; [apply keeps_selected_view | intros _].
  apply keeps_below_views.
Qed.

End Frame.

(** ** The request log *)

Lemma append_inj (s a c : string) : s ++ a = s ++ c -> a = c.
Proof.
  induction s as [|x s IH]; simpl; intros H.
  - exact H.
  - injection H as H. apply IH. exact H.
Qed.

Ltac by_growth lem :=
  apply lem with (Q := fun _ => True); unfold grows; simpl; auto;
  intros w r _ x Hx; apply in_or_app; left; exact Hx.

Lemma ai_answer_grows (r : response) : keeps grows (ai_answer r).
Proof. apply keeps_ai_answer; unfold grows; simpl; auto. Qed.

Lemma below_views_grows (b : backend) (u : ui) (cs : list string) :
  keeps grows (summary_metrics b u ;; country_profile_tool b u cs ;;
               country_comparison b u ;; download_section b u).
Proof. by_growth keeps_below_views. Qed.

Lemma bind_grows {A B} (m : M A) (f : A -> M B) (w : world) (r : request) :
  (forall a, keeps grows (f a)) ->
  In r (sent (snd (m w))) -> In r (sent (snd (bind m f w))).
Proof.
  intros Hf Hr. unfold bind.
  destruct (m w) as [[a|e] w']; simpl in *; [ | exact Hr].
  apply (Hf a w'). exact Hr.
Qed.

Lemma app_only_expected (b : backend) (u : ui) :
  keeps (only_expected u) (app b u).
Proof.
  apply keeps_app with (Q := expected u); unfold only_expected; simpl; auto.
  intros w r Hr Hw. apply Forall_app. split; [exact Hw | ].
  constructor; [exact Hr | constructor].
Qed.

Lemma render_expected (b : backend) (u : ui) :
  Forall (expected u) (sent (snd (render b u))).
Proof. apply (app_only_expected b u start). constructor. Qed.

Lemma expected_not_health (u : ui) (r : request) :
  expected u r -> req_url r <> BACKEND_URL u ++ "/health".
Proof.
  intros [(p & params & Hp & ->) | (_ & ->)] H; simpl in H;
    apply append_inj in H.
  - subst p. vm_compute in Hp.
    repeat (destruct Hp as [Hp | Hp]; [discriminate Hp | ]). exact Hp.
  - discriminate H.
Qed.

Lemma expected_ai_query (u : ui) (r : request) :
  expected u r -> is_ai_query u r ->
  ai_submitted u = true /\ r = ai_request u (ui_user_query u).
Proof.
  intros [(p & params & Hp & ->) | H] [Hm Hu]; [ | exact H].
  simpl in Hm. discriminate Hm.
Qed.

(** ** Stepping through the script *)

Lemma bind_val {A B} (m : M A) (f : A -> M B) (w w' : world) (a : A) :
  m w = (Val a, w') -> bind m f w = f a w'.
Proof. intros E. unfold bind. rewrite E. reflexivity. Qed.

Lemma bind_exc {A B} (m : M A) (f : A -> M B) (w w' : world) (e : exn) :
  m w = (Exc e, w') -> bind m f w = (Exc e, w').
Proof. intros E. unfold bind. rewrite E. reflexivity. Qed.

Lemma bind_st {B} (c : container) (e : element) (f : unit -> M B) (w : world) :
  bind (st c e) f w = f tt (add_page w [(c, e)]).
Proof. reflexivity. Qed.

Lemma add_page_page (w : world) (l1 l2 : list (container * element)) :
  add_page (add_page w l1) l2 = add_page w (l1 ++ l2).
Proof. unfold add_page. simpl. rewrite <- app_assoc. reflexivity. Qed.

(** The call of line 33 never raises out of its [try]. *)
Lemma fetch_countries_returns (b : backend) (u : ui) (w : world) :
  exists cs, fetch_countries b u w = (Val cs, add_sent w [filter_source u]).
Proof.
  unfold fetch_countries, try_except, bind, get, call, json_of, lift, ret, raise.
  fold (filter_source u).
  destruct (b (filter_source u)) as [msg | r]; [eexists; reflexivity | ].
  destruct (ok r); [ | eexists; reflexivity].
  destruct (body r) as [v | ]; [ | eexists; reflexivity].
  destruct (iterate v) as [rows | e]; [ | eexists; reflexivity].
  destruct (collect row_country rows); eexists; reflexivity.
Qed.

Lemma sidebar_filters_returns (b : backend) (u : ui) (w : world) :
  exists cs w', sidebar_filters b u w = (Val cs, w').
Proof.
  unfold sidebar_filters. rewrite !bind_st.
  destruct (fetch_countries_returns b u
              (add_page (add_page w
                 [(Sidebar, Image "https://via.placeholder.com/200x100?text=Islamic+Economy+Dashboard ")])
                 [(Sidebar, Markdown "## 🌍 Filters")])) as (cs & E).
  rewrite (bind_val _ _ _ _ _ E). rewrite !bind_st.
  eexists; eexists; reflexivity.
Qed.

Lemma ai_submitted_iff (u : ui) :
  ai_submitted u = true <->
  choose (ui_menu u) menu_options = "AI Insights" /\
  ui_button u = true /\
  Str.strip (ui_user_query u) <> "".
Proof.
  unfold ai_submitted. rewrite !andb_true_iff, String.eqb_eq.
  assert (Ht : forall s, Str.truthy s = true <-> s <> "").
  { intros [|c s]; simpl; split; congruence. }
  rewrite Ht. tauto.
Qed.

(** Once submitted, the AI query is sent whatever the backend does. *)
Lemma ai_query_sent (b : backend) (u : ui) :
  ai_submitted u = true ->
  In (ai_request u (ui_user_query u)) (sent (snd (render b u))).
Proof.
  intros Hsub. unfold ai_submitted in Hsub.
  apply andb_true_iff in Hsub as [Hsub Hq].
  apply andb_true_iff in Hsub as [Hmenu Hbutton].
  unfold render, app.
  destruct (sidebar_filters_returns b u start) as (cs & w1 & E).
  rewrite (bind_val _ _ _ _ _ E). rewrite !bind_st.
  apply bind_grows; [intros _; apply below_views_grows | ].
  unfold selected_view. rewrite bind_st.
  apply String.eqb_eq in Hmenu. rewrite Hmenu.
  change (String.eqb "AI Insights" "Halal E-commerce") with false.
  change (String.eqb "AI Insights" "ICT & Fintech") with false.
  change (String.eqb "AI Insights" "AI Insights") with true.
  cbv iota. unfold ai_insights_view. rewrite !bind_st.
  rewrite Hbutton, Hq. simpl andb. cbv iota.
  apply bind_grows; [intros r; apply ai_answer_grows | ].
  unfold call.
  destruct (b (ai_request u (ui_user_query u))); simpl;
    apply in_or_app; right; left; reflexivity.
Qed.

(* ================================================================== *)
(** * The health probe *)

(** C6, as the script has it: the dashboard defines a health probe (GET
    [/health] with a 10 second timeout, true exactly on status 200 and
    false on a transport exception), but no render cycle calls it.  No
    request to [/health] is ever sent, so the probe's result is not
    computed and gates nothing. *)
Theorem C6_health_probe_defined_not_called (b : backend) (u : ui) :
  Forall (fun r => req_url r <> BACKEND_URL u ++ "/health")
         (sent (snd (render b u)))
  /\ (forall w,
        check_backend b u w =
        (Val match b (health_probe u) with
             | Replies r => status_code r =? 200
             | Raises _ => false
             end,
         add_sent w [health_probe u]))
  /\ req_timeout (health_probe u) = Some 10.
Proof.
  split; [ | split; [ | reflexivity]].
  - eapply Forall_impl; [ | apply render_expected].
    intros r. apply expected_not_health.
  - intros w. unfold check_backend, try_except, bind, call, ret, ok.
    fold (health_probe u).
    destruct (b (health_probe u)); reflexivity.
Qed.

(** C6 as stated fails: it is not the case that every render cycle
    performs the probe.  A first visit sends no request to [/health]. *)
Lemma C6_counterexample :
  ~ (forall b u, exists r,
        In r (sent (snd (render b u))) /\
        req_url r = BACKEND_URL u ++ "/health").
Proof.
  intros H. destruct (H unavailable first_visit) as (r & Hin & Hurl).
  vm_compute in Hin.
  repeat (destruct Hin as [<- | Hin]; [vm_compute in Hurl; discriminate Hurl | ]).
  exact Hin.
Qed.

(* ================================================================== *)
(** * The AI query *)

(** C8: a POST to [/ai_query] is sent exactly when the AI Insights view
    is shown, its button is pressed and the typed query is not empty once
    white space is stripped. *)
Theorem C8_ai_query_sent_iff_submitted (b : backend) (u : ui) :
  (exists r, In r (sent (snd (render b u))) /\ is_ai_query u r)
  <->
  (choose (ui_menu u) menu_options = "AI Insights" /\
   ui_button u = true /\
   Str.strip (ui_user_query u) <> "").
Proof.
  rewrite <- ai_submitted_iff. split.
  - intros (r & Hin & Hai).
    pose proof (render_expected b u) as Hall.
    rewrite Forall_forall in Hall.
    apply (expected_ai_query u r (Hall r Hin) Hai).
  - intros Hsub. exists (ai_request u (ui_user_query u)).
    split; [apply ai_query_sent; exact Hsub | split; reflexivity].
Qed.

(** C10: the body of a POST to [/ai_query] is the question exactly as the
    user typed it; stripping only decides whether to send. *)
Theorem C10_ai_query_body_untrimmed (b : backend) (u : ui) (r : request) :
  In r (sent (snd (render b u))) ->
  is_ai_query u r ->
  req_json r = Some (JObj [("question", JStr (ui_user_query u))]).
Proof.
  intros Hin Hai.
  pose proof (render_expected b u) as Hall.
  rewrite Forall_forall in Hall.
  destruct (expected_ai_query u r (Hall r Hin) Hai) as [_ ->].
  reflexivity.
Qed.

(** A question typed with blanks around it reaches the backend with them. *)
Lemma C10_witness :
  exists r,
    In r (sent (snd (render unavailable (asking "  halal growth? ")))) /\
    req_json r = Some (JObj [("question", JStr "  halal growth? ")]).
Proof.
  exists (ai_request (asking "  halal growth? ") "  halal growth? ").
  assert (Hin : In (ai_request (asking "  halal growth? ") "  halal growth? ")
                   (sent (snd (render unavailable (asking "  halal growth? "))))).
  { vm_compute. right. left. reflexivity. }
  split; [exact Hin | ].
  apply (C10_ai_query_body_untrimmed unavailable (asking "  halal growth? ") _ Hin).
  split; reflexivity.
Defined.

(* ================================================================== *)
(** * The country selector *)

Lemma nodup_In (l : list string) (c : string) : In c (Str.nodup l) <-> In c l.
Proof.
  induction l as [|x l IH]; simpl; [tauto | ].
  rewrite filter_In, IH, negb_true_iff, String.eqb_neq.
  destruct (String.eqb_spec x c) as [-> | Hne]; tauto.
Qed.

Lemma nodup_NoDup (l : list string) : NoDup (Str.nodup l).
Proof.
  induction l as [|x l IH]; simpl; constructor.
  - rewrite filter_In, negb_true_iff, String.eqb_neq. tauto.
  - apply NoDup_filter. exact IH.
Qed.

Lemma collect_countries (rows : list json) (cs : list string) :
  Forall2 has_country rows cs -> collect row_country rows = Val cs.
Proof.
  induction 1 as [|row c rows cs (o & -> & Hc) _ IH]; simpl.
  - reflexivity.
  - rewrite Hc, IH. reflexivity.
Qed.

Lemma fetch_countries_failed (b : backend) (u : ui) (w : world) :
  failed (b (filter_source u)) ->
  fetch_countries b u w = (Val default_countries, add_sent w [filter_source u]).
Proof.
  unfold fetch_countries, try_except, bind, get, call, ret.
  fold (filter_source u).
  destruct (b (filter_source u)) as [msg | r]; simpl; intros H.
  - reflexivity.
  - rewrite H. reflexivity.
Qed.

Lemma fetch_countries_succeeded (b : backend) (u : ui) (w : world)
    (rows : list json) (cs : list string) :
  succeeded (b (filter_source u)) (JArr rows) ->
  Forall2 has_country rows cs ->
  fetch_countries b u w = (Val (Str.nodup cs), add_sent w [filter_source u]).
Proof.
  unfold fetch_countries, try_except, bind, get, call, ret, json_of, lift.
  fold (filter_source u).
  destruct (b (filter_source u)) as [msg | r]; simpl; [tauto | ].
  intros [Hok Hbody] Hrows. rewrite Hok, Hbody. simpl.
  rewrite (collect_countries rows cs Hrows). reflexivity.
Qed.

(** What the sidebar shows once the options are known. *)
Lemma sidebar_filters_shows (b : backend) (u : ui) (w w1 : world)
    (cs : list string) :
  fetch_countries b u
    (add_page w [(Sidebar, Image "https://via.placeholder.com/200x100?text=Islamic+Economy+Dashboard ");
                 (Sidebar, Markdown "## 🌍 Filters")]) = (Val cs, w1) ->
  sidebar_filters b u w =
  (Val cs, add_page w1 [country_selector cs;
                        (Sidebar, Slider "Select Year" 2015 2025 (ui_selected_year u))]).
Proof.
  intros E. unfold sidebar_filters. rewrite !bind_st, add_page_page. simpl app.
  rewrite (bind_val _ _ _ _ _ E). rewrite !bind_st, add_page_page.
  reflexivity.
Qed.

(** C4: when the call to [/query/halal_ecommerce] fails, by a transport
    exception or a status other than 200, the country selector offers
    exactly Malaysia, Indonesia, Saudi Arabia; when it succeeds, the
    selector offers the distinct country values of the returned rows. *)
Theorem C4_country_selector_options (b : backend) (u : ui) (w : world) :
  (failed (b (filter_source u)) ->
   exists w',
     sidebar_filters b u w = (Val ["Malaysia"; "Indonesia"; "Saudi Arabia"], w') /\
     In (country_selector ["Malaysia"; "Indonesia"; "Saudi Arabia"]) (page w'))
  /\
  (forall rows cs,
     succeeded (b (filter_source u)) (JArr rows) ->
     Forall2 has_country rows cs ->
     exists options w',
       sidebar_filters b u w = (Val options, w') /\
       In (country_selector options) (page w') /\
       NoDup options /\
       (forall c, In c options <-> In c cs)).
Proof.
  split.
  - intros Hf. eexists. split.
    + apply sidebar_filters_shows. apply fetch_countries_failed. exact Hf.
    + simpl. apply in_or_app. right. left. reflexivity.
  - intros rows cs Hs Hrows. exists (Str.nodup cs). eexists. split; [ | split; [ | split]].
    + apply sidebar_filters_shows.
      apply (fetch_countries_succeeded b u _ rows cs Hs Hrows).
    + simpl. apply in_or_app. right. left. reflexivity.
    + apply nodup_NoDup.
    + intros c. apply nodup_In.
Qed.

(** A backend that is down, and one that lists Malaysia twice and Qatar. *)
Lemma C4_witness :
  (exists w',
     sidebar_filters unavailable first_visit start
     = (Val ["Malaysia"; "Indonesia"; "Saudi Arabia"], w') /\
     In (country_selector ["Malaysia"; "Indonesia"; "Saudi Arabia"]) (page w'))
  /\
  (exists options w',
     sidebar_filters two_countries first_visit start = (Val options, w') /\
     In (country_selector options) (page w') /\
     NoDup options /\
     (forall c, In c options <-> In c ["Malaysia"; "Qatar"; "Malaysia"])).
Proof.
  split.
  - apply (proj1 (C4_country_selector_options unavailable first_visit start)).
    reflexivity.
  - apply (proj2 (C4_country_selector_options two_countries first_visit start)
             [JObj [("country", JStr "Malaysia"); ("year", JInt 2020)];
              JObj [("country", JStr "Qatar"); ("year", JInt 2020)];
              JObj [("country", JStr "Malaysia"); ("year", JInt 2021)]]).
    + split; reflexivity.
    + repeat constructor; eexists; split; reflexivity.
Defined.

(* ================================================================== *)
(** * The cross-sector comparison *)

(** ** The loop never raises and only touches the totals *)

Lemma add_row_frame (label : string) (df : pd.DataFrame)
    (row : list (string * json)) (w : world) :
  exists r t, add_row label df row w = (r, mkWorld (sent w) (page w) t).
Proof.
  destruct w as [s p t]. unfold add_row, bind, lift, store, raise. simpl.
  destruct (row_get df row "country") as [c | e]; [ | eauto].
  destruct (row_get df row "total") as [a | e]; [ | eauto].
  destruct (times_million a) as [v | e]; [ | eauto].
  destruct c; eauto.
Qed.

Lemma for_each_rows_frame (label : string) (df : pd.DataFrame)
    (rows : list (list (string * json))) (w : world) :
  exists r t,
    for_each rows (add_row label df) w = (r, mkWorld (sent w) (page w) t).
Proof.
  revert w. induction rows as [|row rows IH]; intros w; simpl.
  - destruct w. unfold ret. eauto.
  - unfold bind.
    destruct (add_row_frame label df row w) as (r & t & ->).
    destruct r as [[] | e]; [ | eauto].
    destruct (IH (mkWorld (sent w) (page w) t)) as (r' & t' & ->). eauto.
Qed.

Lemma add_sector_returns (b : backend) (u : ui) (label endpoint : string)
    (w : world) :
  exists t,
    add_sector b u (label, endpoint) w
    = (Val tt, mkWorld (sent w ++ [agg_request u endpoint]) (page w) t).
Proof.
  unfold add_sector, try_except, bind, get, call, json_of, lift, ret, raise.
  fold (agg_request u endpoint).
  destruct (b (agg_request u endpoint)) as [msg | r]; [eauto | ].
  destruct (ok r); [ | eauto].
  destruct (body r) as [v | ]; [ | eauto].
  destruct (pd.DataFrame_of (as_list v)) as [df | e]; [ | eauto].
  match goal with
  | |- context [for_each ?rows ?f ?w0] =>
      destruct (for_each_rows_frame label df rows w0) as (res & t & ->)
  end.
  destruct res as [[] | e]; eauto.
Qed.

Lemma comparison_chart_shows (w : world) :
  comparison_chart w
  = (Val tt, match country_totals w with
             | [] => w
             | _ => add_page w [(Main, PlotlyChart (compare_fig (country_totals w)))]
             end).
Proof.
  unfold comparison_chart, read_totals, bind.
  destruct (country_totals w) eqn:E; reflexivity.
Qed.

Lemma sectors_loop_returns (b : backend) (u : ui) (w : world) :
  exists t,
    for_each metrics (add_sector b u) w
    = (Val tt,
       mkWorld (sent w ++ List.map (fun m => agg_request u (snd m)) metrics)
               (page w) t).
Proof.
  unfold metrics. cbn [for_each List.map snd].
  destruct (add_sector_returns b u "Halal E-commerce" "halal_ecommerce" w)
    as (t1 & E1).
  rewrite (bind_val _ _ _ _ _ E1).
  match goal with |- context [bind _ _ ?w1] =>
    destruct (add_sector_returns b u "Islamic Fintech" "islamic_fintech" w1)
      as (t2 & E2) end.
  rewrite (bind_val _ _ _ _ _ E2).
  match goal with |- context [bind _ _ ?w2] =>
    destruct (add_sector_returns b u "ICT Services" "ict_services" w2)
      as (t3 & E3) end.
  rewrite (bind_val _ _ _ _ _ E3).
  exists t3. unfold ret. simpl. rewrite <- !app_assoc. reflexivity.
Qed.

(** The block of lines 188-224 from the totals its loop ends with. *)
Lemma country_comparison_shows (b : backend) (u : ui) (w : world) :
  exists t,
    country_comparison b u w
    = (Val tt,
       mkWorld (sent w ++ List.map (fun m => agg_request u (snd m)) metrics)
               (page w ++ comparison_heading ::
                  match t with
                  | [] => []
                  | _ => [(Main, PlotlyChart (compare_fig t))]
                  end)
               t).
Proof.
  unfold country_comparison. rewrite bind_st.
  rewrite (bind_val reset_totals _ _ _ tt eq_refl).
  match goal with |- context [bind _ _ ?w1] =>
    destruct (sectors_loop_returns b u w1) as (t & E) end.
  rewrite (bind_val _ _ _ _ _ E). rewrite comparison_chart_shows.
  exists t. simpl. destruct t; unfold add_page; simpl;
    rewrite <- ?app_assoc; reflexivity.
Qed.

(** C9: when the accumulator is empty after the three calls, the
    comparison section shows its heading and nothing else: no chart, no
    message. *)
Theorem C9_no_chart_when_totals_empty (b : backend) (u : ui) (w : world) :
  country_totals (snd (country_comparison b u w)) = [] ->
  fst (country_comparison b u w) = Val tt /\
  page (snd (country_comparison b u w)) = (page w ++ [comparison_heading])%list.
Proof.
  destruct (country_comparison_shows b u w) as (t & ->). simpl.
  intros ->. split; reflexivity.
Qed.

(** With every call answered 503 the section is its heading alone. *)
Lemma C9_witness :
  fst (country_comparison unavailable first_visit start) = Val tt /\
  page (snd (country_comparison unavailable first_visit start))
  = (page start ++ [comparison_heading])%list.
Proof.
  apply (C9_no_chart_when_totals_empty unavailable first_visit start).
  reflexivity.
Defined.

(* ================================================================== *)
(** * The summary metrics *)

(** ** Integers below 2^53 go through [float] and [.0f] unchanged *)

Lemma round_div_even_exact (a d : Z) :
  0 < d -> Float.round_div_even (a * d) d = a.
Proof.
  intros Hd. unfold Float.round_div_even.
  rewrite Z.mod_mul, Z.div_mul by lia.
  rewrite Z.mul_0_r. destruct d; try lia. reflexivity.
Qed.

Lemma round_div_even_1 (a : Z) : Float.round_div_even a 1 = a.
Proof.
  rewrite <- (Z.mul_1_r a) at 1. apply round_div_even_exact. lia.
Qed.

Lemma scale_nonpos (n k : Z) : k <= 0 -> Float.scale n k = n.
Proof. intros Hk. unfold Float.scale. rewrite Z.max_l by lia. simpl. lia. Qed.

Lemma scale_nonneg (n k : Z) : 0 <= k -> Float.scale n k = n * 2 ^ k.
Proof. intros Hk. unfold Float.scale. rewrite Z.max_r by lia. reflexivity. Qed.

Lemma ilog2_ratio_int (n : Z) : 0 < n -> Float.ilog2_ratio n 1 = Z.log2 n.
Proof.
  intros Hn. unfold Float.ilog2_ratio.
  change (Z.log2 1) with 0. rewrite Z.sub_0_r.
  pose proof (Z.log2_nonneg n) as H0.
  rewrite scale_nonneg, scale_nonpos by lia.
  destruct (Z.log2_spec n Hn) as [Hlo _].
  destruct (Z.leb_spec (1 * 2 ^ Z.log2 n) n); [reflexivity | lia].
Qed.

Lemma of_ratio_int (neg : bool) (n : Z) :
  0 < n < 2 ^ 53 ->
  exists p,
    Float.of_ratio neg n 1 = S754_finite neg p (Z.log2 n - 52) /\
    Zpos p = n * 2 ^ (52 - Z.log2 n) /\
    Z.log2 n <= 52.
Proof.
  intros [Hn Hhi].
  pose proof (Z.log2_nonneg n) as H0.
  destruct (Z.log2_spec n Hn) as [Hlo Hup].
  assert (He : Z.log2 n <= 52).
  { apply Z.lt_succ_r. apply (Z.pow_lt_mono_r_iff 2); lia. }
  set (e := Z.log2 n) in *.
  assert (Hm : 0 < n * 2 ^ (52 - e) < 2 ^ 53).
  { split; [apply Z.mul_pos_pos; [lia | apply Z.pow_pos_nonneg; lia] | ].
    replace (2 ^ 53) with (2 ^ Z.succ e * 2 ^ (52 - e)).
    - apply Z.mul_lt_mono_pos_r; [apply Z.pow_pos_nonneg; lia | exact Hup].
    - rewrite <- Z.pow_add_r by lia. f_equal. lia. }
  unfold Float.of_ratio.
  destruct (Z.eqb_spec n 0) as [-> | _]; [lia | ].
  rewrite ilog2_ratio_int by exact Hn. fold e.
  unfold Float.prec, Float.emin, Float.emax.
  replace (Z.max (e - (53 - 1)) (-1074)) with (e - 52) by lia.
  rewrite scale_nonneg, scale_nonpos by lia.
  replace (- (e - 52)) with (52 - e) by lia.
  rewrite !round_div_even_1.
  destruct (Z.eqb_spec (n * 2 ^ (52 - e)) (2 ^ 53)) as [Heq | _]; [lia | ].
  destruct (n * 2 ^ (52 - e)) as [|p|p] eqn:Ep; try lia.
  exists p. destruct (Z.leb_spec (e - 52) (1024 - 53)); [ | lia].
  auto.
Qed.

Lemma format_int_exact (z : Z) :
  Z.abs z < 2 ^ 53 ->
  format_f true 0 (JInt z)
  = Val ((if z <? 0 then "-" else "")
           ++ Str.of_list (Fmt.group3 (Fmt.digits (Z.abs z)))).
Proof.
  intros Hz. unfold format_f, Float.of_Z.
  destruct (Z.eq_dec z 0) as [-> | Hnz]; [reflexivity | ].
  destruct (of_ratio_int (z <? 0) (Z.abs z)) as (p & -> & Hp & He); [lia | ].
  unfold Fmt.format_f. f_equal. f_equal. f_equal.
  change (10 ^ Z.of_nat 0) with 1. rewrite Z.mul_1_r, Hp.
  rewrite scale_nonpos by lia.
  rewrite scale_nonneg by lia.
  replace (- (Z.log2 (Z.abs z) - 52)) with (52 - Z.log2 (Z.abs z)) by lia.
  rewrite Z.mul_1_l.
  rewrite round_div_even_exact
    by (apply Z.pow_pos_nonneg; lia).
  unfold Fmt.fixed_digits. change (10 ^ Z.of_nat 0) with 1.
  rewrite Z.div_1_r. reflexivity.
Qed.

(** ** What each metric displays *)

Lemma currency_count (d : list (string * json)) (n : Z) :
  Str.lookup "count" d = Some (JInt n) ->
  Z.abs (n * 1000000) < 2 ^ 53 ->
  currency (JObj d) = Val (usd n).
Proof.
  intros Hd Hn. unfold currency, dict_get, times_million. rewrite Hd.
  rewrite (format_int_exact _ Hn). reflexivity.
Qed.

Lemma percentage_rate (d : list (string * json)) (f : spec_float) :
  Str.lookup "avg_growth_rate" d = Some (JFloat f) ->
  percentage (JObj d) = Val (percent f).
Proof.
  intros Hd. unfold percentage, dict_get. rewrite Hd. reflexivity.
Qed.

Lemma summary_metric_shows (b : backend) (u : ui) (i : nat)
    (dataset : string) (default : json) (label : string)
    (display : json -> result string) (w : world)
    (r : response) (data : json) (s : string) :
  b (summary_request u dataset) = Replies r ->
  (if ok r then body r = Some data else data = default) ->
  display data = Val s ->
  summary_metric b u i dataset default label display w
  = (Val tt, add_page (add_sent w [summary_request u dataset])
                      [(Column i, Metric label s)]).
Proof.
  intros Hb Hdata Hs.
  unfold summary_metric, bind, get, call, json_of, lift, ret.
  fold (summary_request u dataset). rewrite Hb.
  destruct (ok r).
  - rewrite Hdata, Hs. reflexivity.
  - subst data. rewrite Hs. reflexivity.
Qed.

Lemma count_metric_shows (b : backend) (u : ui) (i : nat)
    (dataset : string) (default : list (string * json)) (label : string)
    (w : world) (n : Z) :
  count_shown (b (summary_request u dataset)) n ->
  Str.lookup "count" default = Some (JInt 0) ->
  Z.abs (n * 1000000) < 2 ^ 53 ->
  summary_metric b u i dataset (JObj default) label currency w
  = (Val tt, add_page (add_sent w [summary_request u dataset])
                      [(Column i, Metric label (usd n))]).
Proof.
  unfold count_shown. intros Hshown Hdef Hn.
  destruct (b (summary_request u dataset)) as [msg | r] eqn:Hb; [tauto | ].
  destruct (ok r) eqn:Hok.
  - destruct Hshown as (d & Hbody & Hcount).
    apply (summary_metric_shows b u i dataset (JObj default) label currency w
             r (JObj d) (usd n) Hb).
    + rewrite Hok. exact Hbody.
    + apply currency_count; assumption.
  - subst n.
    apply (summary_metric_shows b u i dataset (JObj default) label currency w
             r (JObj default) (usd 0) Hb).
    + rewrite Hok. reflexivity.
    + apply currency_count; [exact Hdef | exact Hn].
Qed.

Lemma rate_metric_shows (b : backend) (u : ui) (w : world) (f : spec_float) :
  rate_shown (b (summary_request u "household_ict")) f ->
  summary_metric b u 4 "household_ict"
    (JObj [("avg_growth_rate", JFloat (Float.of_decimal false 754 (-1)))])
    "Average Internet Usage" percentage w
  = (Val tt, add_page (add_sent w [summary_request u "household_ict"])
                      [(Column 4, Metric "Average Internet Usage" (percent f))]).
Proof.
  unfold rate_shown. intros Hshown.
  destruct (b (summary_request u "household_ict")) as [msg | r] eqn:Hb; [tauto | ].
  destruct (ok r) eqn:Hok.
  - destruct Hshown as (d & Hbody & Hrate).
    eapply summary_metric_shows; [exact Hb | rewrite Hok; exact Hbody | ].
    apply percentage_rate. exact Hrate.
  - subst f.
    eapply summary_metric_shows; [exact Hb | rewrite Hok; reflexivity | ].
    reflexivity.
Qed.

(** C3: each of the three count metrics displays the returned count
    times 1,000,000 as dollars with thousands separators, with count 0
    standing in for a response that is not 200; the fourth displays the
    returned [avg_growth_rate] as a percentage with one decimal, with
    75.4 standing in for a response that is not 200.  A count of 3 reads
    [$3,000,000 USD] and the stand-in rate reads [75.4%].  The amounts
    are taken below 2^53, where the conversion to [float] made by the
    format is exact. *)
Theorem C3_summary_metrics_display (b : backend) (u : ui) (w : world)
    (n1 n2 n3 : Z) (f : spec_float) :
  count_shown (b (summary_request u "halal_ecommerce")) n1 ->
  count_shown (b (summary_request u "islamic_fintech")) n2 ->
  count_shown (b (summary_request u "ict_services")) n3 ->
  rate_shown (b (summary_request u "household_ict")) f ->
  Z.abs (n1 * 1000000) < 2 ^ 53 ->
  Z.abs (n2 * 1000000) < 2 ^ 53 ->
  Z.abs (n3 * 1000000) < 2 ^ 53 ->
  summary_metrics b u w
  = (Val tt,
     add_page
       (add_sent w [summary_request u "halal_ecommerce";
                    summary_request u "islamic_fintech";
                    summary_request u "ict_services";
                    summary_request u "household_ict"])
       [(Main, Markdown "## 📈 Key Metrics");
        (Column 1, Metric "Total Halal Revenue" (usd n1));
        (Column 2, Metric "Total Fintech Transactions" (usd n2));
        (Column 3, Metric "Total ICT Output" (usd n3));
        (Column 4, Metric "Average Internet Usage" (percent f))])
  /\ usd 3 = "$3,000,000 USD"
  /\ usd 0 = "$0 USD"
  /\ percent f75_4 = "75.4%".
Proof.
  intros H1 H2 H3 H4 B1 B2 B3.
  split; [ | repeat split; reflexivity].
  unfold summary_metrics. rewrite bind_st.
  rewrite (bind_val _ _ _ _ _
             (count_metric_shows b u 1 "halal_ecommerce"
                [("count", JInt 0); ("avg_growth_rate", JInt 0)]
                _ _ n1 H1 eq_refl B1)).
  rewrite (bind_val _ _ _ _ _
             (count_metric_shows b u 2 "islamic_fintech" [("count", JInt 0)]
                _ _ n2 H2 eq_refl B2)).
  rewrite (bind_val _ _ _ _ _
             (count_metric_shows b u 3 "ict_services" [("count", JInt 0)]
                _ _ n3 H3 eq_refl B3)).
  rewrite (rate_metric_shows b u _ f H4).
  unfold add_page, add_sent. simpl. rewrite <- !app_assoc. reflexivity.
Qed.

(** A count of 3 for the first metric and 503 for the other three. *)
Lemma C3_witness :
  summary_metrics count_is_three first_visit start
  = (Val tt,
     add_page
       (add_sent start [summary_request first_visit "halal_ecommerce";
                        summary_request first_visit "islamic_fintech";
                        summary_request first_visit "ict_services";
                        summary_request first_visit "household_ict"])
       [(Main, Markdown "## 📈 Key Metrics");
        (Column 1, Metric "Total Halal Revenue" (usd 3));
        (Column 2, Metric "Total Fintech Transactions" (usd 0));
        (Column 3, Metric "Total ICT Output" (usd 0));
        (Column 4, Metric "Average Internet Usage" (percent f75_4))])
  /\ usd 3 = "$3,000,000 USD"
  /\ usd 0 = "$0 USD"
  /\ percent f75_4 = "75.4%".
Proof.
  apply (C3_summary_metrics_display count_is_three first_visit start 3 0 0 f75_4).
  - exists [("count", JInt 3)]. split; reflexivity.
  - reflexivity.
  - reflexivity.
  - reflexivity.
  - reflexivity.
  - reflexivity.
  - reflexivity.
Defined.

(* ================================================================== *)
(** * Frames *)

Lemma mem_In (k : string) (l : list string) : Str.mem k l = true <-> In k l.
Proof.
  induction l as [|x l IH]; simpl; [split; [discriminate | tauto] | ].
  rewrite orb_true_iff, IH, String.eqb_eq. split; intros [H | H]; auto.
Qed.

Lemma lookup_keys {A} (k : string) (o : list (string * A)) (v : A) :
  Str.lookup k o = Some v -> In k (pd.keys o).
Proof.
  induction o as [|[k' v'] o IH]; simpl; [discriminate | ].
  destruct (String.eqb_spec k k') as [-> | Hne]; auto.
Qed.

Lemma of_records_column (os : list (list (string * json)))
    (o : list (string * json)) (k : string) (v : json) :
  In o os -> Str.lookup k o = Some v ->
  Str.mem k (pd.columns (pd.of_records os)) = true.
Proof.
  intros Ho Hk. apply mem_In. simpl. apply nodup_In.
  apply in_concat. exists (pd.keys o). split.
  - apply in_map. exact Ho.
  - apply (lookup_keys k o v Hk).
Qed.

Lemma all_some_objects (os : list (list (string * json))) :
  pd.all_some pd.as_object (List.map JObj os) = Some os.
Proof.
  induction os as [|o os IH]; simpl; [reflexivity | ].
  rewrite IH. reflexivity.
Qed.

(** A non-empty list of dicts becomes a frame with one row per dict. *)
Lemma DataFrame_of_objects (os : list (list (string * json))) :
  pd.DataFrame_of (JArr (List.map JObj os))
  = Val (match os with [] => pd.empty_frame | _ => pd.of_records os end).
Proof.
  destruct os as [|o os]; [reflexivity | ].
  change (List.map JObj (o :: os)) with (JObj o :: List.map JObj os).
  unfold pd.DataFrame_of.
  change (JObj o :: List.map JObj os) with (List.map JObj (o :: os)).
  rewrite all_some_objects. reflexivity.
Qed.

Lemma cell_set_key (k : string) (v : json) (row : list (string * json)) :
  pd.cell k (pd.set_key k v row) = v.
Proof.
  unfold pd.cell. induction row as [|[k' v'] row IH]; simpl.
  - rewrite String.eqb_refl. reflexivity.
  - destruct (String.eqb_spec k k') as [-> | Hne]; simpl.
    + rewrite String.eqb_refl. reflexivity.
    + apply String.eqb_neq in Hne. rewrite Hne. exact IH.
Qed.

Lemma cells_zip_set (k : string) (rows : list (list (string * json)))
    (vals : list json) :
  List.length rows = List.length vals ->
  List.map (pd.cell k) (pd.zip_set k rows vals) = vals.
Proof.
  revert vals. induction rows as [|row rows IH]; intros [|v vals] Hlen;
    simpl in *; try discriminate; [reflexivity | ].
  rewrite cell_set_key, IH by congruence. reflexivity.
Qed.

Lemma column_set_column (df : pd.DataFrame) (k : string) (vals : list json) :
  List.length (pd.records df) = List.length vals ->
  pd.column (pd.set_column df k vals) k = Val vals.
Proof.
  intros Hlen. unfold pd.column, pd.set_column. simpl.
  assert (Hmem : Str.mem k (if Str.mem k (pd.columns df) then pd.columns df
                            else (pd.columns df ++ [k])%list) = true).
  { destruct (Str.mem k (pd.columns df)) eqn:E; [exact E | ].
    apply mem_In. apply in_or_app. right. left. reflexivity. }
  rewrite Hmem, cells_zip_set by exact Hlen. reflexivity.
Qed.

(* ================================================================== *)
(** * The internet penetration chart *)

Lemma penetration_cells (os : list (list (string * json))) (ss : list string) :
  Forall2 penetration_row os ss ->
  List.map (pd.cell "internet_penetration") os = List.map JStr ss.
Proof.
  induction 1 as [|o s os ss [Hs _] _ IH]; simpl; [reflexivity | ].
  unfold pd.cell at 1. rewrite Hs, IH. reflexivity.
Qed.

Lemma texts_object_dtype (ss : list string) :
  pd.object_dtype (List.map JStr ss) = true.
Proof. destruct ss; reflexivity. Qed.

Lemma texts_to_floats (ss : list string) (fs : list spec_float) :
  Forall2 (fun s f => percent_removed s = Some f) ss fs ->
  pd.all_some (pd.replace_to_float "%") (List.map JStr ss) = Some fs.
Proof.
  induction 1 as [|s f ss fs Hs _ IH]; simpl; [reflexivity | ].
  unfold percent_removed in Hs. rewrite Hs, IH. reflexivity.
Qed.

Lemma penetration_chart_shows (b : backend) (u : ui) (w : world)
    (data : json) (os : list (list (string * json)))
    (ss : list string) (fs : list spec_float) :
  succeeded (b (penetration_request u)) data ->
  as_list data = JArr (List.map JObj os) ->
  os <> [] ->
  Forall2 penetration_row os ss ->
  Forall2 (fun s f => percent_removed s = Some f) ss fs ->
  internet_penetration_chart b u w
  = (Val tt,
     add_page (add_sent w [penetration_request u])
       [(Column 2,
         PlotlyChart
           (penetration_fig
              (pd.set_column (pd.of_records os) "internet_penetration"
                             (List.map JFloat fs))))]).
Proof.
  intros Hs Hdata Hne Hrows Hfs.
  assert (Hcol : forall k, (k = "country" \/ k = "internet_penetration") ->
                 Str.mem k (pd.columns (pd.of_records os)) = true).
  { intros k Hk. destruct Hrows as [|o s os' ss' [Hp [c Hc]] _]; [congruence | ].
    destruct Hk as [-> | ->];
      eapply of_records_column; try (left; reflexivity); eassumption. }
  unfold internet_penetration_chart, get, call, bind, json_of, lift, ret.
  fold (penetration_request u). unfold succeeded in Hs.
  destruct (b (penetration_request u)) as [msg | r]; [tauto | ].
  destruct Hs as [Hok Hbody]. rewrite Hok, Hbody, Hdata.
  rewrite DataFrame_of_objects.
  destruct os as [|o os'] eqn:Eos; [congruence | ]. rewrite <- Eos in *.
  assert (Hempty : pd.empty (pd.of_records os) = false).
  { unfold pd.empty. pose proof (Hcol "country" (or_introl eq_refl)) as Hc.
    destruct (pd.columns (pd.of_records os)); [discriminate Hc | ].
    simpl. rewrite Eos. reflexivity. }
  rewrite Hempty. simpl negb. cbv iota.
  unfold pd.column. rewrite (Hcol "internet_penetration") by auto.
  change (pd.records (pd.of_records os)) with os.
  rewrite (penetration_cells os ss Hrows).
  unfold pd.str_replace_astype_float.
  rewrite texts_object_dtype, (texts_to_floats ss fs Hfs).
  unfold px.chart, pd.set_column. rewrite (Hcol "internet_penetration") by auto.
  cbn [List.find pd.columns].
  rewrite !(Hcol "country") by auto.
  rewrite !(Hcol "internet_penetration") by auto. reflexivity.
Qed.

Lemma remove_no_percent (s : string) :
  Str.occurs "%" s = false -> Str.remove_char "%" s = s.
Proof.
  induction s as [|a s IH]; simpl; [reflexivity | ].
  intros H. apply orb_false_iff in H as [Ha Hs].
  rewrite Ha, IH by exact Hs. reflexivity.
Qed.

(** Where the only [%] of a text is a last one, removing every [%] and
    stripping a trailing [%] are the same. *)
Lemma remove_is_strip_trailing (s : string) :
  Str.occurs "%" (Str.strip_trailing "%" s) = false ->
  Str.remove_char "%" s = Str.strip_trailing "%" s.
Proof.
  induction s as [|a s IH]; [reflexivity | ].
  destruct s as [|a' s'].
  - simpl. destruct (Ascii.eqb a "%"); [reflexivity | ].
    simpl. reflexivity.
  - change (Str.strip_trailing "%" (String a (String a' s')))
      with (String a (Str.strip_trailing "%" (String a' s'))).
    intros H. simpl Str.occurs in H.
    apply orb_false_iff in H as [Ha Hs].
    change (Str.remove_char "%" (String a (String a' s')))
      with (if Ascii.eqb a "%" then Str.remove_char "%" (String a' s')
            else String a (Str.remove_char "%" (String a' s'))).
    rewrite Ha, (IH Hs). reflexivity.
Qed.

(** C7, as the script has it: for the rows of a successful
    [/query/internet_penetration] response, the value charted is the
    row's text with every [%] removed, wherever it stands, read as a
    float; the chart is a bar chart of these values with the y axis fixed
    to [0, 100].  ["45.2%"] gives 45.2.  Where the text has no [%] other
    than a last one, this is the text with a trailing [%] stripped. *)
Theorem C7_penetration_values (b : backend) (u : ui) (w : world)
    (data : json) (os : list (list (string * json)))
    (ss : list string) (fs : list spec_float) :
  succeeded (b (penetration_request u)) data ->
  as_list data = JArr (List.map JObj os) ->
  os <> [] ->
  Forall2 penetration_row os ss ->
  Forall2 (fun s f => percent_removed s = Some f) ss fs ->
  (exists fig,
     internet_penetration_chart b u w
     = (Val tt, add_page (add_sent w [penetration_request u])
                         [(Column 2, PlotlyChart fig)]) /\
     px.fig_kind fig = px.Bar /\
     px.fig_y fig = "internet_penetration" /\
     px.fig_range_y fig = Some (0, 100) /\
     pd.column (px.fig_data fig) "internet_penetration"
     = Val (List.map JFloat fs))
  /\ percent_removed "45.2%" = Some f45_2
  /\ (forall s, Str.occurs "%" (Str.strip_trailing "%" s) = false ->
                percent_removed s = trailing_percent_stripped s).
Proof.
  intros Hs Hdata Hne Hrows Hfs. split; [ | split].
  - eexists. split.
    + apply (penetration_chart_shows b u w data os ss fs); assumption.
    + do 3 (split; [reflexivity | ]).
      simpl. apply column_set_column. simpl.
      rewrite length_map.
      rewrite (Forall2_length Hrows). apply (Forall2_length Hfs).
  - reflexivity.
  - intros s H. unfold percent_removed, trailing_percent_stripped.
    rewrite (remove_is_strip_trailing s H). reflexivity.
Qed.

(** Two rows: one with the sign behind the number, one with it in front. *)
Lemma C7_witness :
  exists fig,
    internet_penetration_chart percent_in_front first_visit start
    = (Val tt, add_page (add_sent start [penetration_request first_visit])
                        [(Column 2, PlotlyChart fig)]) /\
    px.fig_range_y fig = Some (0, 100) /\
    pd.column (px.fig_data fig) "internet_penetration"
    = Val [JFloat (Float.of_decimal false 896 (-1)); JFloat f45_2].
Proof.
  destruct (C7_penetration_values percent_in_front first_visit start
              (JArr [JObj [("country", JStr "Malaysia");
                           ("internet_penetration", JStr "89.6%")];
                     JObj [("country", JStr "Qatar");
                           ("internet_penetration", JStr "%45.2")]])
              [[("country", JStr "Malaysia");
                ("internet_penetration", JStr "89.6%")];
               [("country", JStr "Qatar");
                ("internet_penetration", JStr "%45.2")]]
              ["89.6%"; "%45.2"]
              [Float.of_decimal false 896 (-1); f45_2])
    as [(fig & Hrun & _ & _ & Hrange & Hcol) _].
  - split; reflexivity.
  - reflexivity.
  - discriminate.
  - repeat constructor; eexists; reflexivity.
  - repeat constructor.
  - exists fig. auto.
Defined.

(** C7 as stated fails: the value charted is not always the text with a
    trailing [%] stripped, parsed.  For the text ["%45.2"] the script
    charts 45.2, while the text with a trailing [%] stripped is not a
    number. *)
Lemma C7_counterexample :
  (exists fig,
     In (Column 2, PlotlyChart fig)
        (page (snd (internet_penetration_chart percent_in_front first_visit start))) /\
     pd.column (px.fig_data fig) "internet_penetration"
     = Val [JFloat (Float.of_decimal false 896 (-1)); JFloat f45_2])
  /\ trailing_percent_stripped "%45.2" = None
  /\ percent_removed "%45.2" = Some f45_2.
Proof.
  split; [ | split; reflexivity].
  eexists. split.
  - vm_compute. left. reflexivity.
  - vm_compute. reflexivity.
Qed.

(* ================================================================== *)
(** * Single objects and tables *)

(** Where the script writes [data if isinstance(data, list) else [data]],
    a single object becomes a table of exactly one row. *)
Lemma as_list_object_one_row (o : list (string * json)) :
  exists df, pd.DataFrame_of (as_list (JObj o)) = Val df /\ pd.len df = 1%nat.
Proof.
  exists (pd.of_records [o]). split; reflexivity.
Qed.

Lemma scalars_have_no_rows (o : list (string * json)) :
  List.forallb (fun kv => scalar (snd kv)) o = true ->
  List.flat_map (fun kv : string * json =>
                   match snd kv with
                   | JArr l => [List.length l]
                   | _ => []
                   end) o = []
  /\ List.flat_map (fun kv : string * json =>
                      match snd kv with
                      | JObj d => pd.keys d
                      | _ => []
                      end) o = []
  /\ List.existsb (fun kv : string * json =>
                     match snd kv with
                     | JObj _ => true
                     | _ => false
                     end) o = false.
Proof.
  induction o as [|[k v] o IH]; simpl; [auto | ].
  intros Hall. apply andb_true_iff in Hall as [Hv Ho].
  destruct (IH Ho) as (Hl & Hi & He).
  destruct v; try discriminate; simpl; auto.
Qed.

Lemma of_dict_scalars (o : list (string * json)) :
  o <> [] ->
  List.forallb (fun kv => scalar (snd kv)) o = true ->
  pd.of_dict o
  = Exc (Exn ValueError "If using all scalar values, you must pass an index").
Proof.
  intros Hne Hall. unfold pd.of_dict.
  destruct (scalars_have_no_rows o Hall) as (-> & -> & ->).
  destruct o; [congruence | reflexivity].
Qed.

(** Lines 179 and 184 pass the decoded response to [pd.DataFrame] as it
    is: a single object, a row of scalars, is refused. *)
Lemma profile_table_object_raises (b : backend) (u : ui) (i : nat)
    (c title dataset : string) (w : world) (r : response)
    (o : list (string * json)) :
  b (mkRequest GET (BACKEND_URL u ++ "/query/" ++ dataset)
               [("countries", PList [c])] None None) = Replies r ->
  ok r = true ->
  body r = Some (JObj o) ->
  o <> [] ->
  List.forallb (fun kv => scalar (snd kv)) o = true ->
  fst (profile_table b u i c title dataset w)
  = Exc (Exn ValueError "If using all scalar values, you must pass an index").
Proof.
  intros Hb Hok Hbody Hne Hall.
  unfold profile_table. rewrite bind_st.
  unfold bind, get, call, json_of, lift, ret. rewrite Hb, Hok, Hbody.
  unfold pd.DataFrame_of. rewrite (of_dict_scalars o Hne Hall). reflexivity.
Qed.

(** C5 fails at the country-profile tables.  For a backend that answers
    the filtered [/query/halal_ecommerce] with a single object, the Data
    Explorer shows a table of one row, but the country profile does not:
    the frame constructor raises, no profile table is shown and the
    render pass ends there. *)
Theorem C5_profile_table_not_normalised :
  (exists df,
     In (Main, Dataframe df) (page (snd (render single_row_backend exploring))) /\
     pd.len df = 1%nat)
  /\ fst (render single_row_backend first_visit)
     = Exc (Exn ValueError "If using all scalar values, you must pass an index")
  /\ (forall c df,
        ~ In (c, Dataframe df) (page (snd (render single_row_backend first_visit))))
  /\ ~ In comparison_heading (page (snd (render single_row_backend first_visit))).
Proof.
  split; [ | split; [ | split]].
  - eexists. split.
    + vm_compute. do 10 right. left. reflexivity.
    + reflexivity.
  - vm_compute. reflexivity.
  - intros c df H. vm_compute in H.
    repeat (destruct H as [H | H]; [discriminate H | ]). exact H.
  - intros H. vm_compute in H.
    repeat (destruct H as [H | H]; [discriminate H | ]). exact H.
Qed.

(* ================================================================== *)
(** * Failures of the backend *)

(** ** A status other than 200 never ends the pass *)

Lemma returning_ret {A} (P : A -> Prop) (a : A) : P a -> returning P (ret a).
Proof. intros HP w. exists a, w. auto. Qed.

Lemma returning_bind {A B} (P : A -> Prop) (Q : B -> Prop)
    (m : M A) (f : A -> M B) :
  returning P m -> (forall a, P a -> returning Q (f a)) ->
  returning Q (bind m f).
Proof.
  intros Hm Hf w. destruct (Hm w) as (a & w' & E & Ha).
  rewrite (bind_val _ _ _ _ _ E). apply (Hf a Ha).
Qed.

Lemma returning_st (c : container) (e : element) :
  returning (fun _ => True) (st c e).
Proof. intros w. eexists; eexists; split; [reflexivity | exact I]. Qed.

Lemma returning_lift {A} (P : A -> Prop) (r : result A) (a : A) :
  r = Val a -> P a -> returning P (lift r).
Proof. intros -> HP w. exists a, w. auto. Qed.

Lemma returning_call (b : backend) (r : request) :
  never_200 b -> returning (fun resp => ok resp = false) (call b r).
Proof.
  intros Hb w. destruct (Hb r) as (resp & E & Hok).
  unfold call. rewrite E. eexists; eexists; split; [reflexivity | exact Hok].
Qed.

Lemma returning_unit (m : M unit) :
  (forall w, exists w', m w = (Val tt, w')) -> returning (fun _ => True) m.
Proof. intros H w. destruct (H w) as (w' & E). exists tt, w'. auto. Qed.

(** The call of line 233 never raises out of its [try]. *)
Lemma download_section_returns (b : backend) (u : ui) (w : world) :
  exists w', download_section b u w = (Val tt, w').
Proof.
  unfold download_section. rewrite !bind_st.
  unfold try_except, bind, get, call, st.
  match goal with |- context [b ?r] => destruct (b r) as [msg | resp] end;
    [eexists; reflexivity | ].
  destruct (ok resp); eexists; reflexivity.
Qed.

Section Never200.

Variable b : backend.
Variable u : ui.
Hypothesis Hb : never_200 b.

Ltac after_st := eapply returning_bind; [apply returning_st | intros _ _].
Ltac after_get :=
  eapply returning_bind;
  [unfold get; apply (returning_call b _ Hb) | intros ? Hok; rewrite Hok].
Ltac done := apply (returning_ret (fun _ : unit => True)); exact I.

Lemma halal_ecommerce_view_completes :
  returning (fun _ => True) (halal_ecommerce_view b u).
Proof. unfold halal_ecommerce_view. after_st. after_get. done. Qed.

Lemma ict_fintech_view_completes :
  returning (fun _ => True) (ict_fintech_view b u).
Proof.
  unfold ict_fintech_view, ict_services_chart, internet_penetration_chart.
  eapply returning_bind; [after_get; done | intros _ _].
  after_get. done.
Qed.

Lemma ai_insights_view_completes :
  returning (fun _ => True) (ai_insights_view b u).
Proof.
  unfold ai_insights_view. do 3 after_st.
  destruct (ui_button u && Str.truthy (Str.strip (ui_user_query u)));
    [ | done].
  eapply returning_bind; [apply (returning_call b _ Hb) | intros r Hok].
  unfold ai_answer. rewrite Hok. apply returning_st.
Qed.

Lemma data_explorer_view_completes (cs : list string) :
  returning (fun _ => True) (data_explorer_view b u cs).
Proof.
  unfold data_explorer_view. do 3 after_st. after_get. apply returning_st.
Qed.

Lemma selected_view_completes (cs : list string) :
  returning (fun _ => True) (selected_view b u cs).
Proof.
  unfold selected_view. after_st.
  destruct (String.eqb _ "Halal E-commerce");
    [apply halal_ecommerce_view_completes | ].
  destruct (String.eqb _ "ICT & Fintech");
    [apply ict_fintech_view_completes | ].
  destruct (String.eqb _ "AI Insights");
    [apply ai_insights_view_completes | ].
  destruct (String.eqb _ "Data Explorer");
    [apply data_explorer_view_completes | done].
Qed.

Lemma summary_metric_completes (i : nat) (dataset : string) (default : json)
    (label : string) (display : json -> result string) (s : string) :
  display default = Val s ->
  returning (fun _ => True) (summary_metric b u i dataset default label display).
Proof.
  intros Hs. unfold summary_metric. after_get.
  eapply returning_bind;
    [apply (returning_ret (fun d => d = default)); reflexivity | intros d ->].
  eapply returning_bind;
    [apply (returning_lift (fun _ => True) _ s Hs I) | intros v _].
  apply returning_st.
Qed.

Lemma summary_metrics_completes :
  returning (fun _ => True) (summary_metrics b u).
Proof.
  unfold summary_metrics. after_st.
  do 3 (eapply returning_bind;
        [eapply summary_metric_completes; reflexivity | intros _ _]).
  eapply summary_metric_completes; reflexivity.
Qed.

Lemma profile_table_completes (i : nat) (c title dataset : string) :
  returning (fun _ => True) (profile_table b u i c title dataset).
Proof.
  unfold profile_table. after_st. after_get.
  eapply returning_bind;
    [apply (returning_ret (fun d => d = JArr [])); reflexivity | intros d ->].
  eapply returning_bind;
    [apply (returning_lift (fun _ => True) _ pd.empty_frame eq_refl I)
    | intros df _].
  apply returning_st.
Qed.

Lemma country_profile_tool_completes (cs : list string) :
  returning (fun _ => True) (country_profile_tool b u cs).
Proof.
  unfold country_profile_tool. do 2 after_st.
  destruct (selectbox (ui_country_profile u) cs) as [c | ]; [ | done].
  destruct (Str.truthy c); [ | done].
  eapply returning_bind; [apply profile_table_completes | intros _ _].
  apply profile_table_completes.
Qed.

(** With every call answered and none with 200, the render pass runs to
    its end. *)
Lemma app_completes : returning (fun _ => True) (app b u).
Proof.
  unfold app.
  eapply returning_bind with (P := fun _ => True).
  { intros w. destruct (sidebar_filters_returns b u w) as (cs & w' & E).
    exists cs, w'. auto. }
  intros cs _. do 2 after_st.
  eapply returning_bind; [apply selected_view_completes | intros _ _].
  eapply returning_bind; [apply summary_metrics_completes | intros _ _].
  eapply returning_bind; [apply country_profile_tool_completes | intros _ _].
  eapply returning_bind with (P := fun _ => True).
  { apply returning_unit. intros w.
    destruct (country_comparison_shows b u w) as (t & E). eauto. }
  intros _ _. apply returning_unit. apply download_section_returns.
Qed.

End Never200.

Lemma render_completes_without_200 (b : backend) (u : ui) :
  never_200 b -> fst (render b u) = Val tt.
Proof.
  intros Hb. destruct (app_completes b u Hb start) as ([] & w' & E & _).
  unfold render. rewrite E. reflexivity.
Qed.

(** C1 fails at the summary metrics.  For a backend that cannot be
    reached for [/summary/halal_ecommerce], the exception of the call is
    not caught: the render pass ends with it, and neither the metrics nor
    the country profile, the comparison or the download section that
    follow are shown.  With 503 in place of the exception the pass
    completes. *)
Theorem C1_summary_exception_aborts_render :
  fst (render summary_unreachable first_visit)
  = Exc (Exn RequestException "Connection refused")
  /\ (forall c l v,
        ~ In (c, Metric l v) (page (snd (render summary_unreachable first_visit))))
  /\ ~ In (Main, Markdown "## 🌏 Country Profile Tool")
          (page (snd (render summary_unreachable first_visit)))
  /\ ~ In comparison_heading (page (snd (render summary_unreachable first_visit)))
  /\ ~ In (Sidebar, Markdown "## 📥 Download Reports")
          (page (snd (render summary_unreachable first_visit)))
  /\ fst (render unavailable first_visit) = Val tt.
Proof.
  split; [vm_compute; reflexivity | ].
  split; [ | split; [ | split; [ | split]]];
    try (vm_compute; reflexivity);
    intros; intros H; vm_compute in H;
    repeat (destruct H as [H | H]; [discriminate H | ]); exact H.
Qed.

(* ================================================================== *)
(** * The accumulator of the comparison *)

Lemma lookup_set_key (k k' : string) (v : json) (d : list (string * json)) :
  Str.lookup k' (pd.set_key k v d)
  = if String.eqb k' k then Some v else Str.lookup k' d.
Proof.
  induction d as [|[k0 v0] d IH]; simpl.
  - reflexivity.
  - destruct (String.eqb_spec k k0) as [-> | Hne]; simpl.
    + destruct (String.eqb k' k0); reflexivity.
    + rewrite IH. destruct (String.eqb_spec k' k0) as [-> | Hne'].
      * apply not_eq_sym, String.eqb_neq in Hne. rewrite Hne. reflexivity.
      * reflexivity.
Qed.

Lemma entry_put (c l : string) (v : json) (t : totals) (c' l' : string) :
  entry (put c l v t) c' l'
  = if String.eqb c' c && String.eqb l' l then Some v else entry t c' l'.
Proof.
  unfold entry. induction t as [|[c0 d0] t IH]; simpl.
  - destruct (String.eqb c' c); simpl; [ | reflexivity].
    destruct (String.eqb l' l); reflexivity.
  - destruct (String.eqb_spec c c0) as [-> | Hne]; simpl.
    + destruct (String.eqb c' c0); simpl; [ | reflexivity].
      apply lookup_set_key.
    + destruct (String.eqb_spec c' c0) as [-> | Hne'].
      * apply not_eq_sym, String.eqb_neq in Hne. rewrite Hne. reflexivity.
      * exact IH.
Qed.

Lemma lookup_app {A} (k : string) (l1 l2 : list (string * A)) :
  Str.lookup k (l1 ++ l2)
  = match Str.lookup k l1 with
    | Some v => Some v
    | None => Str.lookup k l2
    end.
Proof.
  induction l1 as [|[k0 v0] l1 IH]; simpl; [reflexivity | ].
  destruct (String.eqb k k0); [reflexivity | exact IH].
Qed.

(** After one sector's rows, the entries under its label are the last
    totals listed, times 1,000,000; every other entry is as before. *)
Lemma entry_accumulate (label : string) (cxs : list (string * Z)) (t : totals)
    (c l : string) :
  entry (accumulate label cxs t) c l
  = if String.eqb l label
    then match last_total c cxs with
         | Some x => Some (JInt (x * 1000000))
         | None => entry t c l
         end
    else entry t c l.
Proof.
  unfold accumulate, last_total. revert t.
  induction cxs as [|[c0 x0] cxs IH]; intros t; simpl.
  - destruct (String.eqb l label); reflexivity.
  - rewrite IH, lookup_app, entry_put. simpl.
    destruct (String.eqb l label); [ | rewrite andb_false_r; reflexivity].
    destruct (Str.lookup c (rev cxs)); [reflexivity | ].
    rewrite andb_true_r. destruct (String.eqb c c0); reflexivity.
Qed.

Lemma put_keys (c l : string) (v : json) (t : totals) :
  pd.keys (put c l v t)
  = if Str.mem c (pd.keys t) then pd.keys t else (pd.keys t ++ [c])%list.
Proof.
  induction t as [|[c0 d0] t IH]; simpl; [reflexivity | ].
  destruct (String.eqb c c0); simpl; [reflexivity | ].
  rewrite IH. destruct (Str.mem c (pd.keys t)); reflexivity.
Qed.

Lemma put_NoDup (c l : string) (v : json) (t : totals) :
  NoDup (pd.keys t) -> NoDup (pd.keys (put c l v t)).
Proof.
  intros Ht. rewrite put_keys.
  destruct (Str.mem c (pd.keys t)) eqn:E; [exact Ht | ].
  apply NoDup_app; [exact Ht | repeat constructor; simpl; tauto | ].
  intros x Hx [<- | []]. apply mem_In in Hx. congruence.
Qed.

Lemma accumulate_NoDup (label : string) (cxs : list (string * Z)) (t : totals) :
  NoDup (pd.keys t) -> NoDup (pd.keys (accumulate label cxs t)).
Proof.
  unfold accumulate. revert t.
  induction cxs as [|cx cxs IH]; intros t Ht; simpl; [exact Ht | ].
  apply IH. apply put_NoDup. exact Ht.
Qed.

(** ** One sector's call *)

Lemma add_row_stores (label : string) (df : pd.DataFrame)
    (o : list (string * json)) (cx : string * Z) (w : world) :
  Str.mem "country" (pd.columns df) = true ->
  Str.mem "total" (pd.columns df) = true ->
  agg_row o cx ->
  add_row label df o w
  = (Val tt, mkWorld (sent w) (page w)
                     (put (fst cx) label (JInt (snd cx * 1000000))
                          (country_totals w))).
Proof.
  intros Hc Ht [Hco Hto].
  unfold add_row, bind, lift, row_get, pd.cell, times_million.
  rewrite Hc, Ht, Hco, Hto. reflexivity.
Qed.

Lemma add_rows_accumulate (label : string) (df : pd.DataFrame)
    (os : list (list (string * json))) (cxs : list (string * Z)) (w : world) :
  Str.mem "country" (pd.columns df) = true ->
  Str.mem "total" (pd.columns df) = true ->
  Forall2 agg_row os cxs ->
  for_each os (add_row label df) w
  = (Val tt, mkWorld (sent w) (page w)
                     (accumulate label cxs (country_totals w))).
Proof.
  intros Hc Ht Hrows. revert w.
  induction Hrows as [|o cx os cxs Hrow _ IH]; intros w; simpl.
  - destruct w. reflexivity.
  - rewrite (bind_val _ _ _ _ _ (add_row_stores label df o cx w Hc Ht Hrow)).
    rewrite IH. reflexivity.
Qed.

Lemma add_sector_failed (b : backend) (u : ui) (label endpoint : string)
    (w : world) :
  failed (b (agg_request u endpoint)) ->
  add_sector b u (label, endpoint) w
  = (Val tt, add_sent w [agg_request u endpoint]).
Proof.
  unfold add_sector, try_except, bind, get, call, ret.
  fold (agg_request u endpoint).
  destruct (b (agg_request u endpoint)) as [msg | r]; simpl; intros H.
  - reflexivity.
  - rewrite H. reflexivity.
Qed.

Lemma add_sector_succeeded (b : backend) (u : ui) (label endpoint : string)
    (w : world) (data : json) (os : list (list (string * json)))
    (cxs : list (string * Z)) :
  succeeded (b (agg_request u endpoint)) data ->
  as_list data = JArr (List.map JObj os) ->
  Forall2 agg_row os cxs ->
  add_sector b u (label, endpoint) w
  = (Val tt, mkWorld (sent w ++ [agg_request u endpoint]) (page w)
                     (accumulate label cxs (country_totals w))).
Proof.
  intros Hs Hdata Hrows.
  unfold add_sector, try_except, bind at 1, get, call.
  fold (agg_request u endpoint). unfold succeeded in Hs.
  destruct (b (agg_request u endpoint)) as [msg | r]; [tauto | ].
  destruct Hs as [Hok Hbody]. rewrite Hok.
  unfold bind at 1, json_of. rewrite Hbody. unfold ret at 1.
  unfold bind at 1, lift. rewrite Hdata, DataFrame_of_objects.
  destruct Hrows as [|o cx os cxs Hrow Hrows].
  - reflexivity.
  - rewrite (add_rows_accumulate label (pd.of_records (o :: os))
               (o :: os) (cx :: cxs)).
    + reflexivity.
    + destruct Hrow as [Hco _].
      eapply of_records_column; [left; reflexivity | exact Hco].
    + destruct Hrow as [_ Hto].
      eapply of_records_column; [left; reflexivity | exact Hto].
    + constructor; assumption.
Qed.

(** The world after one sector, whatever came back for it. *)
Lemma add_sector_outcome (b : backend) (u : ui) (label endpoint : string)
    (w : world) (r : option (list (string * Z))) :
  sector_outcome (b (agg_request u endpoint)) r ->
  add_sector b u (label, endpoint) w
  = (Val tt, mkWorld (sent w ++ [agg_request u endpoint]) (page w)
                     match r with
                     | Some cxs => accumulate label cxs (country_totals w)
                     | None => country_totals w
                     end).
Proof.
  destruct r as [cxs | ]; simpl.
  - intros (data & os & Hs & Hdata & Hrows).
    apply (add_sector_succeeded b u label endpoint w data os cxs); assumption.
  - apply add_sector_failed.
Qed.

(** ** The frame that is charted *)

Lemma lookup_In {A} (k : string) (l : list (string * A)) (v : A) :
  Str.lookup k l = Some v -> In (k, v) l.
Proof.
  induction l as [|[k0 v0] l IH]; simpl; [discriminate | ].
  destruct (String.eqb_spec k k0) as [-> | Hne].
  - intros [= ->]. left. reflexivity.
  - intros H. right. apply IH. exact H.
Qed.

Lemma lookup_filled (f : string -> json) (cols : list string) (l : string) :
  l <> "Country" -> l <> "index" -> In l cols ->
  Str.lookup l
    (List.map (fun '(c, v) => (if String.eqb c "index" then "Country" else c, v))
              (List.map (fun c => (c, f c)) cols))
  = Some (f l).
Proof.
  intros HC Hi. induction cols as [|c0 cols IH]; simpl; [tauto | ].
  intros Hin.
  destruct (String.eqb_spec c0 "index") as [-> | Hc0].
  - apply String.eqb_neq in HC. rewrite HC.
    apply IH. destruct Hin as [H | H]; [congruence | exact H].
  - destruct (String.eqb_spec l c0) as [-> | Hne]; [reflexivity | ].
    apply IH. destruct Hin as [H | H]; [congruence | exact H].
Qed.

Lemma in_combine_map {A B C} (f : B -> C) (t : list (A * B)) (a : A) (x : B) :
  In (a, x) t ->
  In (a, f x) (List.combine (List.map fst t) (List.map f (List.map snd t))).
Proof.
  induction t as [|[a0 x0] t IH]; simpl; [tauto | ].
  intros [[= -> ->] | H]; [left; reflexivity | right; apply IH; exact H].
Qed.

(** Every country of the accumulator has a row in the charted frame for
    every label that occurs in it, with 0 where the country has no
    total under the label. *)
Lemma melted_has_row (t : totals) (c l : string)
    (d : list (string * json)) :
  In (c, d) t ->
  (exists c' d', In (c', d') t /\ In l (pd.keys d')) ->
  l <> "Country" -> l <> "index" ->
  In (melted_row c l (fill0 (pd.cell l d))) (pd.records (melted t)).
Proof.
  intros Hcd (c' & d' & Hcd' & Hl) HC Hi.
  set (cols := Str.nodup (List.concat (List.map (fun kv : string * list (string * json) =>
                                                   pd.keys (snd kv)) t))).
  assert (Hcols : In l cols).
  { apply nodup_In. apply in_concat. exists (pd.keys d'). split; [ | exact Hl].
    apply (in_map (fun kv : string * list (string * json) => pd.keys (snd kv))
                  t (c', d') Hcd'). }
  unfold melted, pd.melt. cbn [pd.records pd.columns].
  apply in_flat_map. exists l. split.
  - apply filter_In. split.
    + cbn. fold cols. right.
      apply in_map_iff. exists l. split; [ | exact Hcols].
      apply String.eqb_neq in Hi. rewrite Hi. reflexivity.
    + apply String.eqb_neq in HC. rewrite HC. reflexivity.
  - apply in_map_iff.
    exists (("Country", JStr c) ::
            List.map (fun '(c0, v) => (if String.eqb c0 "index" then "Country" else c0, v))
              (List.map (fun c0 => (c0, fill0 (pd.cell c0 d))) cols)).
    split.
    + unfold melted_row. f_equal. f_equal. f_equal. f_equal.
      unfold pd.cell at 1. cbn [Str.lookup].
      apply String.eqb_neq in HC. rewrite HC.
      rewrite (lookup_filled (fun c0 => fill0 (pd.cell c0 d)) cols l);
        [reflexivity | | | exact Hcols];
        apply String.eqb_neq; [exact HC | ].
      apply String.eqb_neq. exact Hi.
    + cbn. fold cols.
      apply in_map_iff.
      exists (("index", JStr c) ::
              List.map (fun c0 => (c0, fill0 (pd.cell c0 d))) cols).
      split; [reflexivity | ].
      apply in_map_iff.
      exists (c, List.map (fun c0 => (c0, fill0 (pd.cell c0 d))) cols).
      split; [reflexivity | ].
      apply (in_combine_map
               (fun row => List.map (fun c0 => (c0, fill0 (pd.cell c0 row))) cols)
               t c d Hcd).
Qed.

(** ** The three calls together *)

Lemma entry_after (label : string) (r : option (list (string * Z)))
    (t : totals) (c l : string) :
  entry (after label r t) c l
  = if String.eqb l label
    then match stored c r with
         | Some v => Some v
         | None => entry t c l
         end
    else entry t c l.
Proof.
  destruct r as [cxs | ]; simpl.
  - rewrite entry_accumulate. destruct (last_total c cxs); reflexivity.
  - destruct (String.eqb l label); reflexivity.
Qed.

Lemma entry_comparison_totals (r1 r2 r3 : option (list (string * Z)))
    (c l : string) :
  entry (comparison_totals r1 r2 r3) c l
  = if String.eqb l "ICT Services" then stored c r3
    else if String.eqb l "Islamic Fintech" then stored c r2
    else if String.eqb l "Halal E-commerce" then stored c r1
    else None.
Proof.
  unfold comparison_totals. rewrite !entry_after.
  destruct (String.eqb_spec l "ICT Services") as [-> | H3].
  - change (String.eqb "ICT Services" "Islamic Fintech") with false.
    change (String.eqb "ICT Services" "Halal E-commerce") with false.
    cbv iota. destruct (stored c r3); reflexivity.
  - destruct (String.eqb_spec l "Islamic Fintech") as [-> | H2].
    + change (String.eqb "Islamic Fintech" "Halal E-commerce") with false.
      cbv iota. destruct (stored c r2); reflexivity.
    + destruct (String.eqb l "Halal E-commerce"); [ | reflexivity].
      destruct (stored c r1); reflexivity.
Qed.

Lemma stored_is_int (c : string) (r : option (list (string * Z))) (v : json) :
  stored c r = Some v -> exists x, v = JInt x.
Proof.
  unfold stored. destruct r as [cxs | ]; [ | discriminate].
  destruct (last_total c cxs); [ | discriminate].
  intros [= <-]. eauto.
Qed.

(** An entry of the accumulator is an integer under one of the three
    labels. *)
Lemma entry_comparison_inv (r1 r2 r3 : option (list (string * Z)))
    (c l : string) (v : json) :
  entry (comparison_totals r1 r2 r3) c l = Some v ->
  (exists x, v = JInt x) /\ In l (List.map fst metrics).
Proof.
  rewrite entry_comparison_totals.
  destruct (String.eqb_spec l "ICT Services") as [-> | _];
    [intros H; split; [eapply stored_is_int; eauto | simpl; auto] | ].
  destruct (String.eqb_spec l "Islamic Fintech") as [-> | _];
    [intros H; split; [eapply stored_is_int; eauto | simpl; auto] | ].
  destruct (String.eqb_spec l "Halal E-commerce") as [-> | _];
    [intros H; split; [eapply stored_is_int; eauto | simpl; auto] | ].
  discriminate.
Qed.

Lemma sectors_loop_totals (b : backend) (u : ui) (w : world)
    (r1 r2 r3 : option (list (string * Z))) :
  sector_outcome (b (agg_request u "halal_ecommerce")) r1 ->
  sector_outcome (b (agg_request u "islamic_fintech")) r2 ->
  sector_outcome (b (agg_request u "ict_services")) r3 ->
  for_each metrics (add_sector b u) w
  = (Val tt,
     mkWorld (sent w ++ [agg_request u "halal_ecommerce";
                         agg_request u "islamic_fintech";
                         agg_request u "ict_services"])
             (page w)
             (after "ICT Services" r3
                (after "Islamic Fintech" r2
                   (after "Halal E-commerce" r1 (country_totals w))))).
Proof.
  intros H1 H2 H3. unfold metrics. cbn [for_each].
  rewrite (bind_val _ _ _ _ _
             (add_sector_outcome b u "Halal E-commerce" "halal_ecommerce" _ r1 H1)).
  rewrite (bind_val _ _ _ _ _
             (add_sector_outcome b u "Islamic Fintech" "islamic_fintech" _ r2 H2)).
  rewrite (bind_val _ _ _ _ _
             (add_sector_outcome b u "ICT Services" "ict_services" _ r3 H3)).
  unfold ret, after. cbn [sent page country_totals].
  rewrite <- !app_assoc. reflexivity.
Qed.

Lemma country_comparison_totals (b : backend) (u : ui) (w : world)
    (r1 r2 r3 : option (list (string * Z))) :
  sector_outcome (b (agg_request u "halal_ecommerce")) r1 ->
  sector_outcome (b (agg_request u "islamic_fintech")) r2 ->
  sector_outcome (b (agg_request u "ict_services")) r3 ->
  country_comparison b u w
  = (Val tt,
     mkWorld (sent w ++ [agg_request u "halal_ecommerce";
                         agg_request u "islamic_fintech";
                         agg_request u "ict_services"])
             (page w ++ comparison_heading ::
                match comparison_totals r1 r2 r3 with
                | [] => []
                | _ => [(Main, PlotlyChart (compare_fig (comparison_totals r1 r2 r3)))]
                end)
             (comparison_totals r1 r2 r3)).
Proof.
  intros H1 H2 H3.
  unfold country_comparison. rewrite bind_st.
  rewrite (bind_val reset_totals _ _ _ tt eq_refl).
  rewrite (bind_val _ _ _ _ _ (sectors_loop_totals b u _ r1 r2 r3 H1 H2 H3)).
  rewrite comparison_chart_shows.
  cbn [sent page country_totals add_page].
  fold (comparison_totals r1 r2 r3).
  destruct (comparison_totals r1 r2 r3); unfold add_page;
    cbn [sent page country_totals]; rewrite <- ?app_assoc; reflexivity.
Qed.

Lemma NoDup_lookup {A} (t : list (string * A)) (k : string) (v : A) :
  NoDup (pd.keys t) -> In (k, v) t -> Str.lookup k t = Some v.
Proof.
  induction t as [|[k0 v0] t IH]; simpl; [tauto | ].
  intros Hnd [[= -> ->] | Hin].
  - rewrite String.eqb_refl. reflexivity.
  - inversion Hnd as [|? ? Hnotin Hnd']; subst.
    destruct (String.eqb_spec k k0) as [-> | _]; [ | apply IH; assumption].
    exfalso. apply Hnotin.
    apply (in_map fst t (k0, v) Hin).
Qed.

Lemma keys_lookup {A} (k : string) (d : list (string * A)) :
  In k (pd.keys d) -> Str.lookup k d <> None.
Proof.
  induction d as [|[k0 v0] d IH]; simpl; [tauto | ].
  destruct (String.eqb_spec k k0) as [-> | Hne]; [discriminate | ].
  intros [H | H]; [congruence | apply IH; exact H].
Qed.

Lemma comparison_totals_NoDup (r1 r2 r3 : option (list (string * Z))) :
  NoDup (pd.keys (comparison_totals r1 r2 r3)).
Proof.
  assert (Hafter : forall label r t,
             NoDup (pd.keys t) -> NoDup (pd.keys (after label r t))).
  { intros label [cxs | ] t Ht; simpl; [apply accumulate_NoDup | ]; exact Ht. }
  unfold comparison_totals. do 3 apply Hafter. constructor.
Qed.

(** Calls that fail or return no rows leave the accumulator empty, and
    then the section is its heading alone. *)
Lemma nothing_returned_no_chart (b : backend) (u : ui) (w : world)
    (r1 r2 r3 : option (list (string * Z))) :
  sector_outcome (b (agg_request u "halal_ecommerce")) r1 ->
  sector_outcome (b (agg_request u "islamic_fintech")) r2 ->
  sector_outcome (b (agg_request u "ict_services")) r3 ->
  (r1 = None \/ r1 = Some []) ->
  (r2 = None \/ r2 = Some []) ->
  (r3 = None \/ r3 = Some []) ->
  country_totals (snd (country_comparison b u w)) = [] /\
  page (snd (country_comparison b u w)) = (page w ++ [comparison_heading])%list.
Proof.
  intros H1 H2 H3 E1 E2 E3.
  rewrite (country_comparison_totals b u w r1 r2 r3 H1 H2 H3).
  destruct E1 as [-> | ->], E2 as [-> | ->], E3 as [-> | ->];
    split; reflexivity.
Qed.

Lemma entry_country (t : totals) (c l : string) :
  entry t c l <> None ->
  exists d, In (c, d) t /\ entry t c l = Str.lookup l d /\
            (forall l', entry t c l' = Str.lookup l' d).
Proof.
  unfold entry. destruct (Str.lookup c t) as [d | ] eqn:E; [ | congruence].
  intros _. exists d. split; [apply lookup_In; exact E | auto].
Qed.

(** C2, as the script has it.  For each of the three (label, endpoint)
    pairs the client fetches the aggregation by metric [count] grouped by
    country and stores total * 1,000,000 under (country, label) in the
    accumulator; an endpoint whose call fails contributes nothing.  When
    the accumulator is not empty the grouped bar chart is drawn from it,
    and in the charted frame every country of the accumulator has a row
    for every sector label that some country has a total under, with 0
    where the country itself has none.  A label that no country has a
    total under, as after a failed call, has no rows. *)
Theorem C2_comparison_totals (b : backend) (u : ui) (w : world)
    (r1 r2 r3 : option (list (string * Z))) :
  sector_outcome (b (agg_request u "halal_ecommerce")) r1 ->
  sector_outcome (b (agg_request u "islamic_fintech")) r2 ->
  sector_outcome (b (agg_request u "ict_services")) r3 ->
  exists t,
    country_comparison b u w
    = (Val tt,
       mkWorld (sent w ++ [agg_request u "halal_ecommerce";
                           agg_request u "islamic_fintech";
                           agg_request u "ict_services"])
               (page w ++ comparison_heading ::
                  match t with
                  | [] => []
                  | _ => [(Main, PlotlyChart (compare_fig t))]
                  end)
               t)
    /\ (forall c,
          entry t c "Halal E-commerce" = stored c r1 /\
          entry t c "Islamic Fintech" = stored c r2 /\
          entry t c "ICT Services" = stored c r3)
    /\ (forall c l,
          country_present t c -> sector_present t l ->
          In (melted_row c l (charted t c l))
             (pd.records (px.fig_data (compare_fig t))))
    /\ (forall c l v,
          In (melted_row c l v) (pd.records (px.fig_data (compare_fig t))) ->
          sector_present t l).
Proof.
  intros H1 H2 H3. exists (comparison_totals r1 r2 r3).
  split; [apply country_comparison_totals; assumption | ].
  split; [ | split].
  - intros c. rewrite !entry_comparison_totals. auto.
  - intros c l [l0 Hc] [c' Hl].
    destruct (entry_country _ c l0 Hc) as (d & Hd & _ & Hentry).
    destruct (entry_country _ c' l Hl) as (d' & Hd' & Hl' & _).
    destruct (entry (comparison_totals r1 r2 r3) c' l) as [v' | ] eqn:Ev';
      [ | congruence].
    destruct (entry_comparison_inv r1 r2 r3 c' l v' Ev') as [_ Hlabel].
    assert (Hrow : In (melted_row c l (fill0 (pd.cell l d)))
                      (pd.records (melted (comparison_totals r1 r2 r3)))).
    { apply melted_has_row; [exact Hd | | | ].
      - exists c', d'. split; [exact Hd' | ].
        symmetry in Hl'. apply (lookup_keys l d' v' Hl').
      - intros ->. simpl in Hlabel.
        repeat (destruct Hlabel as [Hlabel | Hlabel]; [discriminate Hlabel | ]).
        exact Hlabel.
      - intros ->. simpl in Hlabel.
        repeat (destruct Hlabel as [Hlabel | Hlabel]; [discriminate Hlabel | ]).
        exact Hlabel. }
    replace (charted (comparison_totals r1 r2 r3) c l)
      with (fill0 (pd.cell l d)); [exact Hrow | ].
    unfold charted, pd.cell. rewrite (Hentry l).
    destruct (Str.lookup l d) as [v | ] eqn:Ev; [ | reflexivity].
    rewrite <- (Hentry l) in Ev.
    destruct (entry_comparison_inv r1 r2 r3 c l v Ev) as [[x ->] _].
    reflexivity.
  - intros c l v Hin. cbn [compare_fig px.fig_data] in Hin.
    unfold melted, pd.melt in Hin. cbn [pd.records pd.columns] in Hin.
    apply in_flat_map in Hin as (l0 & Hl0 & Hrow).
    apply in_map_iff in Hrow as (rec & Hrec & _).
    unfold melted_row in Hrec. injection Hrec as _ Hl _. subst l0.
    apply filter_In in Hl0 as [Hl0 Hne].
    cbn in Hl0. destruct Hl0 as [<- | Hl0]; [discriminate Hne | ].
    apply in_map_iff in Hl0 as (l1 & Hl1 & Hcols).
    apply nodup_In, in_concat in Hcols as (ks & Hks & Hl1').
    apply in_map_iff in Hks as ([c1 d1] & <- & Hcd1). simpl in Hl1'.
    assert (Hl : l = l1).
    { destruct (String.eqb l1 "index"); [ | congruence].
      subst l. discriminate Hne. }
    subst l1. exists c1. unfold entry.
    rewrite (NoDup_lookup _ c1 d1 (comparison_totals_NoDup r1 r2 r3) Hcd1).
    apply keys_lookup. exact Hl1'.
Qed.

(** Malaysia with a total of 2 in every sector and Qatar in the first only:
    2,000,000 under each label for Malaysia, and a row with 0 for Qatar
    under Islamic Fintech. *)
Lemma C2_witness :
  exists t,
    country_comparison three_sectors first_visit start
    = (Val tt,
       mkWorld (sent start ++ [agg_request first_visit "halal_ecommerce";
                               agg_request first_visit "islamic_fintech";
                               agg_request first_visit "ict_services"])
               (page start ++ comparison_heading ::
                  match t with
                  | [] => []
                  | _ => [(Main, PlotlyChart (compare_fig t))]
                  end)
               t)
    /\ (entry t "Malaysia" "Halal E-commerce" = Some (JInt 2000000) /\
        entry t "Malaysia" "Islamic Fintech" = Some (JInt 2000000) /\
        entry t "Malaysia" "ICT Services" = Some (JInt 2000000))
    /\ In (melted_row "Qatar" "Islamic Fintech" (JInt 0))
          (pd.records (px.fig_data (compare_fig t))).
Proof.
  destruct (C2_comparison_totals three_sectors first_visit start
              (Some [("Malaysia", 2); ("Qatar", 5)])
              (Some [("Malaysia", 2)])
              (Some [("Malaysia", 2)]))
    as (t & Hrun & Hentries & Hrows & _).
  - exists (JArr [JObj [("country", JStr "Malaysia"); ("total", JInt 2)];
                  JObj [("country", JStr "Qatar"); ("total", JInt 5)]]),
           [[("country", JStr "Malaysia"); ("total", JInt 2)];
            [("country", JStr "Qatar"); ("total", JInt 5)]].
    split; [split; reflexivity | split; [reflexivity | ]].
    repeat constructor.
  - exists (JObj [("country", JStr "Malaysia"); ("total", JInt 2)]),
           [[("country", JStr "Malaysia"); ("total", JInt 2)]].
    split; [split; reflexivity | split; [reflexivity | ]].
    repeat constructor.
  - exists (JArr [JObj [("country", JStr "Malaysia"); ("total", JInt 2)]]),
           [[("country", JStr "Malaysia"); ("total", JInt 2)]].
    split; [split; reflexivity | split; [reflexivity | ]].
    repeat constructor.
  - exists t. split; [exact Hrun | split; [exact (Hentries "Malaysia") | ]].
    assert (HQ : entry t "Qatar" "Halal E-commerce" = Some (JInt 5000000))
      by exact (proj1 (Hentries "Qatar")).
    assert (HF : entry t "Qatar" "Islamic Fintech" = None)
      by exact (proj1 (proj2 (Hentries "Qatar"))).
    assert (HM : entry t "Malaysia" "Islamic Fintech" = Some (JInt 2000000))
      by exact (proj1 (proj2 (Hentries "Malaysia"))).
    pose proof (Hrows "Qatar" "Islamic Fintech") as Hrow.
    unfold charted in Hrow. rewrite HF in Hrow. apply Hrow.
    + exists "Halal E-commerce". rewrite HQ. discriminate.
    + exists "Malaysia". rewrite HM. discriminate.
Defined.

(** C2 as stated fails: a country does not appear with 0 for every sector
    label it is missing.  When only the halal e-commerce call succeeds,
    Malaysia is in a response and has no total under Islamic Fintech; the
    chart is drawn, and its frame has no row that pairs Malaysia with
    Islamic Fintech. *)
Lemma C2_counterexample :
  exists t,
    country_totals (snd (country_comparison halal_only first_visit start)) = t /\
    country_present t "Malaysia" /\
    In "Islamic Fintech" (List.map fst metrics) /\
    entry t "Malaysia" "Islamic Fintech" = None /\
    In (Main, PlotlyChart (compare_fig t))
       (page (snd (country_comparison halal_only first_visit start))) /\
    forall v,
      ~ In (melted_row "Malaysia" "Islamic Fintech" v)
           (pd.records (px.fig_data (compare_fig t))).
Proof.
  eexists. split; [vm_compute; reflexivity | ].
  split; [exists "Halal E-commerce"; vm_compute; discriminate | ].
  split; [simpl; auto | ].
  split; [reflexivity | ].
  split; [vm_compute; right; left; reflexivity | ].
  intros v H. vm_compute in H.
  repeat (destruct H as [H | H]; [discriminate H | ]). exact H.
Qed.

(* ================================================================== *)
(** * Further properties of the script *)

(** ** The download section *)

(** X1: the download section never raises.  It sends one GET to
    [/download/] followed by the chosen report, which is one of the four
    datasets, and shows one element for the outcome: a button offering
    the response text as [<report>.csv] on status 200, an information
    line on any other status, an error line with the exception's text
    when the call raises. *)
Theorem X1_download_section_outcomes (b : backend) (u : ui) (w : world) :
  download_section b u w
  = (Val tt,
     add_page (add_sent w [download_request u])
       [(Sidebar, Markdown "---");
        (Sidebar, Markdown "## 📥 Download Reports");
        (Sidebar, Selectbox "Select report to download" datasets);
        (Sidebar, download_element u (b (download_request u)))])
  /\ In (selected_report u) datasets.
Proof.
  split; [ | apply choose_dataset].
  unfold download_section. rewrite !bind_st, !add_page_page.
  unfold try_except, bind, get, call, st, download_element, ok.
  fold (selected_report u). fold (download_request u).
  destruct (b (download_request u)) as [msg | r]; cbn [exn_str].
  - unfold add_page, add_sent. cbn [sent page country_totals].
    rewrite <- !app_assoc. reflexivity.
  - destruct (status_code r =? 200); unfold add_page, add_sent;
      cbn [sent page country_totals]; rewrite <- !app_assoc; reflexivity.
Qed.

(** ** Whole passes *)

(** X2: when every call is answered and none with status 200, the render
    pass runs to its end: each widget falls back on its own and no
    exception leaves the script, whatever view and widget state. *)
Theorem X2_pass_completes_without_200 (b : backend) (u : ui) :
  never_200 b -> fst (render b u) = Val tt.
Proof. apply render_completes_without_200. Qed.

(** A backend that answers 503 to everything, on the Data Explorer view. *)
Lemma X2_witness : fst (render unavailable exploring) = Val tt.
Proof.
  apply (X2_pass_completes_without_200 unavailable exploring).
  intros r. eexists. split; reflexivity.
Defined.

(** X3: every request of a render pass goes to [BACKEND_URL] followed by
    one of the script's paths, and none carries a timeout.  All are GETs
    without a JSON body, except the POST to [/ai_query]. *)
Theorem X3_requests_of_a_pass (b : backend) (u : ui) (r : request) :
  In r (sent (snd (render b u))) ->
  req_timeout r = None /\
  (exists p, req_url r = BACKEND_URL u ++ p /\
             (In p get_paths \/ p = "/ai_query")) /\
  ((req_method r = GET /\ req_json r = None) \/ is_ai_query u r).
Proof.
  intros Hin. pose proof (render_expected b u) as Hall.
  rewrite Forall_forall in Hall.
  destruct (Hall r Hin) as [(p & params & Hp & ->) | (_ & ->)]; simpl.
  - split; [reflexivity | split; [exists p; auto | left; auto]].
  - split; [reflexivity | split; [exists "/ai_query"; auto | right]].
    split; reflexivity.
Qed.

(** The third request of a first visit: a summary call. *)
Lemma X3_witness :
  req_timeout (summary_request first_visit "halal_ecommerce") = None /\
  (exists p, req_url (summary_request first_visit "halal_ecommerce")
             = BACKEND_URL first_visit ++ p /\
             (In p get_paths \/ p = "/ai_query")) /\
  ((req_method (summary_request first_visit "halal_ecommerce") = GET /\
    req_json (summary_request first_visit "halal_ecommerce") = None)
   \/ is_ai_query first_visit (summary_request first_visit "halal_ecommerce")).
Proof.
  apply (X3_requests_of_a_pass unavailable first_visit).
  vm_compute. do 2 right. left. reflexivity.
Defined.

(** ** No call is repeated *)

Section Counting.

Variable b : backend.
Variable u : ui.


























End Counting.


(** ** The country selector on unusable answers *)

Lemma collect_row_without_country (rows : list json) :
  (exists o, In (JObj o) rows /\ Str.lookup "country" o = None) ->
  exists e, collect row_country rows = Exc e.
Proof.
  intros (o & Hin & Ho). induction rows as [|row rows IH]; [destruct Hin | ].
  simpl. destruct Hin as [-> | Hin].
  - simpl. rewrite Ho. eauto.
  - destruct (row_country row) as [c | e]; [ | eauto].
    destruct (IH Hin) as (e & ->). eauto.
Qed.

(** X5: a 200 answer of the filter source that cannot be used is treated
    like a failure.  When its body is not JSON, is not something to
    iterate over, or holds a row without [country], the exception is
    swallowed by the [except] of line 35 and the selector offers the
    default list. *)
Theorem X5_selector_defaults_on_unusable_answer (b : backend) (u : ui)
    (w : world) (r : response) :
  b (filter_source u) = Replies r ->
  status_code r = 200 ->
  no_countries_in (body r) ->
  fetch_countries b u w
  = (Val ["Malaysia"; "Indonesia"; "Saudi Arabia"],
     add_sent w [filter_source u]).
Proof.
  intros Hb Hok Hbody.
  unfold fetch_countries, try_except, bind, get, call, json_of, lift, ret,
    raise, ok.
  fold (filter_source u). rewrite Hb, Hok.
  change (200 =? 200) with true. cbv iota.
  destruct (body r) as [v | ]; [ | reflexivity].
  destruct v as [ | | | | s | rows | o]; try contradiction; try reflexivity.
  cbn [iterate].
  destruct (collect_row_without_country rows Hbody) as (e & ->).
  reflexivity.
Qed.

(** A second row without a country spoils the answer. *)
Lemma X5_witness :
  fetch_countries row_without_country first_visit start
  = (Val ["Malaysia"; "Indonesia"; "Saudi Arabia"],
     add_sent start [filter_source first_visit]).
Proof.
  apply (X5_selector_defaults_on_unusable_answer row_without_country
           first_visit start
           (mkResponse 200 ""
              (Some (JArr [JObj [("country", JStr "Malaysia")];
                           JObj [("revenue_usd", JInt 7)]])))).
  - reflexivity.
  - reflexivity.
  - exists [("revenue_usd", JInt 7)]. split; [right; left | ]; reflexivity.
Defined.

(** ** The Halal E-commerce view *)

Lemma some_row_column (k : string) (os : list (list (string * json))) :
  some_row_has k os -> Str.mem k (pd.columns (pd.of_records os)) = true.
Proof.
  intros (o & Hin & Hk).
  destruct (Str.lookup k o) as [v | ] eqn:E; [ | congruence].
  apply (of_records_column os o k v Hin E).
Qed.

Lemma no_row_column (k : string) (os : list (list (string * json))) :
  no_row_has k os -> Str.mem k (pd.columns (pd.of_records os)) = false.
Proof.
  intros Hno. destruct (Str.mem k (pd.columns (pd.of_records os))) eqn:E;
    [ | reflexivity].
  apply mem_In in E. simpl in E.
  apply nodup_In, in_concat in E as (ks & Hks & Hk).
  apply in_map_iff in Hks as (o & <- & Ho).
  apply keys_lookup in Hk. rewrite (Hno o Ho) in Hk. congruence.
Qed.

Lemma some_row_not_empty (k : string) (os : list (list (string * json))) :
  some_row_has k os -> pd.empty (pd.of_records os) = false.
Proof.
  intros Hk. pose proof (some_row_column k os Hk) as Hc.
  destruct Hk as (o & Hin & _). unfold pd.empty.
  destruct (pd.columns (pd.of_records os)); [discriminate Hc | ].
  simpl. destruct os; [destruct Hin | reflexivity].
Qed.

Lemma DataFrame_of_rows (os : list (list (string * json))) :
  os <> [] -> pd.DataFrame_of (JArr (List.map JObj os)) = Val (pd.of_records os).
Proof.
  intros Hne. rewrite DataFrame_of_objects. destruct os; [congruence | reflexivity].
Qed.

(** X6: what the Halal E-commerce view shows for an answer.  With a
    status other than 200, or 200 and an empty list, it shows its header
    and no chart.  With 200 and rows, given as a list or as one object,
    it charts a frame that has exactly one row per returned row, as bars
    of [total] by [country]. *)
Theorem X6_halal_view_chart (b : backend) (u : ui) (w : world) :
  (nothing_to_chart (b (revenue_request u)) ->
   halal_ecommerce_view b u w
   = (Val tt, add_page (add_sent w [revenue_request u]) [halal_header]))
  /\
  (forall data os,
     succeeded (b (revenue_request u)) data ->
     as_list data = JArr (List.map JObj os) ->
     some_row_has "country" os ->
     some_row_has "total" os ->
     halal_ecommerce_view b u w
     = (Val tt, add_page (add_sent w [revenue_request u])
                  [halal_header;
                   (Main, PlotlyChart (revenue_fig (pd.of_records os)))])
     /\ pd.len (px.fig_data (revenue_fig (pd.of_records os))) = List.length os).
Proof.
  split.
  - unfold nothing_to_chart. intros H.
    unfold halal_ecommerce_view. rewrite bind_st.
    unfold bind, get, call, json_of, lift, ret. fold (revenue_request u).
    destruct (b (revenue_request u)) as [msg | r]; [contradiction | ].
    destruct H as [-> | [-> ->]]; reflexivity.
  - intros data os Hs Hdata Hc Ht. split; [ | reflexivity].
    unfold halal_ecommerce_view. rewrite bind_st.
    unfold bind, get, call, json_of, lift, ret. fold (revenue_request u).
    unfold succeeded in Hs.
    destruct (b (revenue_request u)) as [msg | r]; [contradiction | ].
    destruct Hs as [-> ->]. rewrite Hdata, DataFrame_of_rows.
    + rewrite (some_row_not_empty "country" os Hc). cbn [negb].
      unfold px.chart. cbn [List.find].
      rewrite (some_row_column "country" os Hc),
              (some_row_column "total" os Ht).
      cbn [negb]. unfold st, add_page, add_sent.
      cbn [sent page country_totals]. rewrite <- app_assoc. reflexivity.
    + destruct Hc as (o & Hin & _). intros ->. destruct Hin.
Qed.

(** Nothing to chart behind a 503, and two bars for two rows. *)
Lemma X6_witness :
  halal_ecommerce_view unavailable first_visit start
  = (Val tt, add_page (add_sent start [revenue_request first_visit]) [halal_header])
  /\
  pd.len (px.fig_data
            (revenue_fig
               (pd.of_records
                  [[("country", JStr "Malaysia"); ("total", JInt 12)];
                   [("country", JStr "Qatar"); ("total", JInt 7)]]))) = 2%nat.
Proof.
  split.
  - apply (proj1 (X6_halal_view_chart unavailable first_visit start)).
    left. reflexivity.
  - apply (proj2 (X6_halal_view_chart two_revenues first_visit start)
             (JArr [JObj [("country", JStr "Malaysia"); ("total", JInt 12)];
                    JObj [("country", JStr "Qatar"); ("total", JInt 7)]])).
    + split; reflexivity.
    + reflexivity.
    + eexists. split; [left; reflexivity | discriminate].
    + eexists. split; [left; reflexivity | discriminate].
Defined.

(** X7: the Halal E-commerce view does not guard the shape of a 200
    answer.  When its rows have a [country] but none has a [total], the
    chart cannot be built: the view raises [ValueError] after its header
    and shows no chart. *)
Theorem X7_halal_view_missing_total (b : backend) (u : ui) (w : world)
    (data : json) (os : list (list (string * json))) :
  succeeded (b (revenue_request u)) data ->
  as_list data = JArr (List.map JObj os) ->
  some_row_has "country" os ->
  no_row_has "total" os ->
  halal_ecommerce_view b u w
  = (Exc (Exn ValueError "total"),
     add_page (add_sent w [revenue_request u]) [halal_header]).
Proof.
  intros Hs Hdata Hc Ht.
  unfold halal_ecommerce_view. rewrite bind_st.
  unfold bind, get, call, json_of, lift, ret. fold (revenue_request u).
  unfold succeeded in Hs.
  destruct (b (revenue_request u)) as [msg | r]; [contradiction | ].
  destruct Hs as [-> ->]. rewrite Hdata, DataFrame_of_rows.
  - rewrite (some_row_not_empty "country" os Hc). cbn [negb].
    unfold px.chart. cbn [List.find].
    rewrite (some_row_column "country" os Hc), (no_row_column "total" os Ht).
    reflexivity.
  - destruct Hc as (o & Hin & _). intros ->. destruct Hin.
Qed.

(** The sum arrives under another name. *)
Lemma X7_witness :
  halal_ecommerce_view renamed_total first_visit start
  = (Exc (Exn ValueError "total"),
     add_page (add_sent start [revenue_request first_visit]) [halal_header]).
Proof.
  apply (X7_halal_view_missing_total renamed_total first_visit start
           (JArr [JObj [("country", JStr "Malaysia"); ("revenue", JInt 12)]])
           [[("country", JStr "Malaysia"); ("revenue", JInt 12)]]).
  - split; reflexivity.
  - reflexivity.
  - eexists. split; [left; reflexivity | discriminate].
  - intros o [<- | []]. reflexivity.
Defined.

(** ** The Data Explorer view *)

Lemma frame_of_rows_len (os : list (list (string * json))) :
  pd.len (frame_of_rows os) = List.length os.
Proof. destruct os; reflexivity. Qed.

(** X8: what the Data Explorer shows for an answer.  It asks for one of
    the four datasets.  With a status other than 200 it shows a warning
    and no table.  With 200 and rows, given as a list or as one object,
    it shows a table with exactly one row per returned row; an empty list
    gives an empty table, not the warning. *)
Theorem X8_data_explorer_table (b : backend) (u : ui) (w : world)
    (cs : list string) :
  In (explorer_dataset u) datasets
  /\
  (forall r,
     b (explorer_request u cs) = Replies r -> ok r = false ->
     data_explorer_view b u cs w
     = (Val tt, add_page (add_sent w [explorer_request u cs])
                  (explorer_widgets cs ++
                   [(Main, Warning "No data available for this selection.")])))
  /\
  (forall data os,
     succeeded (b (explorer_request u cs)) data ->
     as_list data = JArr (List.map JObj os) ->
     data_explorer_view b u cs w
     = (Val tt, add_page (add_sent w [explorer_request u cs])
                  (explorer_widgets cs ++ [(Main, Dataframe (frame_of_rows os))]))
     /\ pd.len (frame_of_rows os) = List.length os).
Proof.
  split; [apply choose_dataset | split].
  - intros r Hb Hok. unfold data_explorer_view.
    rewrite !bind_st, !add_page_page.
    unfold bind, get, call, st. fold (explorer_dataset u).
    fold (explorer_request u cs). rewrite Hb, Hok.
    unfold add_page, add_sent. cbn [sent page country_totals].
    rewrite <- !app_assoc. reflexivity.
  - intros data os Hs Hdata. split; [ | apply frame_of_rows_len].
    unfold data_explorer_view. rewrite !bind_st, !add_page_page.
    unfold bind, get, call, json_of, lift, ret, st.
    fold (explorer_dataset u). fold (explorer_request u cs).
    unfold succeeded in Hs.
    destruct (b (explorer_request u cs)) as [msg | r]; [contradiction | ].
    destruct Hs as [-> ->]. rewrite Hdata, DataFrame_of_objects.
    fold (frame_of_rows os).
    unfold add_page, add_sent. cbn [sent page country_totals].
    rewrite <- !app_assoc. reflexivity.
Qed.

(** A warning behind a 503; one row for the single object that
    [single_row_backend] answers a filtered query with. *)
Lemma X8_witness :
  data_explorer_view unavailable exploring ["Malaysia"] start
  = (Val tt, add_page (add_sent start [explorer_request exploring ["Malaysia"]])
               (explorer_widgets ["Malaysia"] ++
                [(Main, Warning "No data available for this selection.")]))
  /\
  pd.len (frame_of_rows [[("country", JStr "Malaysia"); ("revenue_usd", JInt 5)]])
  = 1%nat.
Proof.
  split.
  - apply (proj1 (proj2 (X8_data_explorer_table unavailable exploring start
                           ["Malaysia"]))
             (mkResponse 503 "" (Some JNull))); reflexivity.
  - apply (proj2 (proj2 (X8_data_explorer_table single_row_backend exploring
                           start ["Malaysia"]))
             (JObj [("country", JStr "Malaysia"); ("revenue_usd", JInt 5)])).
    + split; reflexivity.
    + reflexivity.
Defined.

(** ** The answer to an AI query *)

(** X9: what is shown for the response to an AI query.  A status other
    than 200 shows the raw response text as an error.  A 200 object shows
    its [answer], or the text [No answer returned.] when it has none;
    its [result], when it has one that is a list of rows, follows as a
    table with one row per row, and no table is shown without one. *)
Theorem X9_ai_answer_shown (r : response) (w : world) :
  (ok r = false ->
   ai_answer r w
   = (Val tt, add_page w [(Main, Error ("AI Query Failed: " ++ text r))]))
  /\
  (forall o,
     ok r = true -> body r = Some (JObj o) -> Str.lookup "result" o = None ->
     ai_answer r w = (Val tt, add_page w (ai_analysis o)))
  /\
  (forall o os,
     ok r = true -> body r = Some (JObj o) ->
     Str.lookup "result" o = Some (JArr (List.map JObj os)) ->
     ai_answer r w
     = (Val tt, add_page w (ai_analysis o ++
                            [(Main, Markdown "### 📊 Query Results");
                             (Main, Dataframe (frame_of_rows os))]))
     /\ pd.len (frame_of_rows os) = List.length os).
Proof.
  split; [ | split].
  - intros Hok. unfold ai_answer. rewrite Hok. reflexivity.
  - intros o Hok Hbody Hres. unfold ai_answer. rewrite Hok.
    unfold bind, json_of, lift, dict_get, ret, st. rewrite Hbody, Hres.
    unfold add_page, ai_analysis. cbn [sent page country_totals].
    rewrite <- !app_assoc. reflexivity.
  - intros o os Hok Hbody Hres. split; [ | apply frame_of_rows_len].
    unfold ai_answer. rewrite Hok.
    unfold bind, json_of, lift, dict_get, ret, st. rewrite Hbody, Hres.
    rewrite DataFrame_of_objects. fold (frame_of_rows os).
    unfold add_page, ai_analysis. cbn [sent page country_totals].
    rewrite <- !app_assoc. reflexivity.
Qed.

(** A 500 with its text, and a 200 object without an answer. *)
Lemma X9_witness :
  ai_answer (mkResponse 500 "model offline" None) start
  = (Val tt, add_page start [(Main, Error "AI Query Failed: model offline")])
  /\
  ai_answer (mkResponse 200 "" (Some (JObj [("sql", JStr "select 1")]))) start
  = (Val tt, add_page start
               [(Main, Markdown "### 🤖 AI Analysis");
                (Main, MarkdownOf (JStr "No answer returned."))]).
Proof.
  split.
  - apply (proj1 (X9_ai_answer_shown (mkResponse 500 "model offline" None) start)).
    reflexivity.
  - apply (proj1 (proj2 (X9_ai_answer_shown
                           (mkResponse 200 "" (Some (JObj [("sql", JStr "select 1")])))
                           start))
             [("sql", JStr "select 1")]); reflexivity.
Defined.

(** ** The accumulator *)

(** X10: storing a total and reading it back.  After
    [country_totals[country][label] = total], with the country's dict
    created when absent, the entry read under (country, label) is that
    total, every other entry reads as before, and the countries stay
    distinct. *)
Theorem X10_store_then_read (c l : string) (v : json) (t : totals) :
  entry (put c l v t) c l = Some v
  /\ (forall c' l', c' <> c \/ l' <> l ->
                    entry (put c l v t) c' l' = entry t c' l')
  /\ (NoDup (pd.keys t) -> NoDup (pd.keys (put c l v t))).
Proof.
  split; [ | split].
  - rewrite entry_put, !String.eqb_refl. reflexivity.
  - intros c' l' H. rewrite entry_put.
    destruct H as [H | H]; apply String.eqb_neq in H; rewrite H;
      [ | rewrite andb_false_r]; reflexivity.
  - apply put_NoDup.
Qed.

(** A second sector for a country already there. *)
Lemma X10_witness :
  entry (put "Qatar" "ICT Services" (JInt 3)
             [("Qatar", [("Halal E-commerce", JInt 5)])])
        "Qatar" "Halal E-commerce" = Some (JInt 5)
  /\ NoDup (pd.keys (put "Qatar" "ICT Services" (JInt 3)
                         [("Qatar", [("Halal E-commerce", JInt 5)])])).
Proof.
  destruct (X10_store_then_read "Qatar" "ICT Services" (JInt 3)
              [("Qatar", [("Halal E-commerce", JInt 5)])])
    as (_ & Hother & Hnodup).
  split.
  - rewrite Hother; [reflexivity | right; discriminate].
  - apply Hnodup. repeat constructor. simpl. tauto.
Defined.

(** ** The comparison loop on calls that go wrong *)


Lemma add_row_missing_column (label : string) (df : pd.DataFrame)
    (row : list (string * json)) (w : world) :
  Str.mem "country" (pd.columns df) = false \/
  Str.mem "total" (pd.columns df) = false ->
  exists e, add_row label df row w = (Exc e, w).
Proof.
  intros H. unfold add_row, bind, lift, row_get.
  destruct (Str.mem "country" (pd.columns df)); [ | eauto].
  destruct H as [H | ->]; [discriminate H | eauto].
Qed.

(** X12: a 200 answer the loop cannot use contributes nothing and stops
    nothing.  When the body of a sector's answer is not JSON, or none of
    its rows has a [country], or none has a [total], the exception is
    swallowed: the accumulator is as before and the sector returns
    normally. *)
Theorem X12_unusable_sector_contributes_nothing (b : backend) (u : ui)
    (label endpoint : string) (w : world) (r : response) :
  b (agg_request u endpoint) = Replies r ->
  status_code r = 200 ->
  no_totals_in (body r) ->
  add_sector b u (label, endpoint) w
  = (Val tt, add_sent w [agg_request u endpoint]).
Proof.
  intros Hb Hok Hbody.
  unfold add_sector, try_except, bind at 1, get, call, ok.
  fold (agg_request u endpoint). rewrite Hb, Hok.
  change (200 =? 200) with true. cbv iota.
  unfold bind at 1, json_of.
  destruct (body r) as [data | ]; [ | reflexivity].
  destruct Hbody as (os & Hdata & Hno).
  unfold ret at 1. unfold bind at 1, lift.
  rewrite Hdata, DataFrame_of_objects.
  destruct os as [|o os]; [reflexivity | ].
  cbn [for_each pd.records pd.of_records].
  match goal with
  | |- context [bind (add_row label ?df o) ?k ?w0] =>
      destruct (add_row_missing_column label df o w0) as (e & E)
  end.
  - destruct Hno as [Hno | Hno]; [left | right]; apply no_row_column; exact Hno.
  - rewrite (bind_exc _ _ _ _ _ E). reflexivity.
Qed.

(** The ICT rows carry [count] where [total] is read. *)
Lemma X12_witness :
  add_sector ict_renamed_total first_visit ("ICT Services", "ict_services") start
  = (Val tt, add_sent start [agg_request first_visit "ict_services"]).
Proof.
  apply (X12_unusable_sector_contributes_nothing ict_renamed_total first_visit
           "ICT Services" "ict_services" start
           (mkResponse 200 ""
              (Some (JArr [JObj [("country", JStr "Malaysia"); ("count", JInt 4)]])))).
  - reflexivity.
  - reflexivity.
  - exists [[("country", JStr "Malaysia"); ("count", JInt 4)]].
    split; [reflexivity | right].
    intros o [<- | []]. reflexivity.
Defined.

Lemma for_each_app {A} (l1 l2 : list A) (body : A -> M unit) (w : world) :
  for_each (l1 ++ l2) body w
  = bind (for_each l1 body) (fun _ => for_each l2 body) w.
Proof.
  revert w. induction l1 as [|x l1 IH]; intros w; simpl; [reflexivity | ].
  unfold bind. destruct (body x w) as [[[] | e] w']; [ | reflexivity].
  rewrite IH. reflexivity.
Qed.

(** X13: the rows before a bad row are kept.  The [try] of line 197
    encloses the whole loop over a sector's rows, and the accumulator is
    changed in place: when a row's total is an object, which cannot be
    multiplied, the rows before it stay stored, that row and the rows
    after it are skipped, and the sector returns normally. *)
Theorem X13_rows_before_a_bad_row_are_kept (b : backend) (u : ui)
    (label endpoint : string) (w : world) (data : json)
    (good rest : list (list (string * json))) (bad : list (string * json))
    (cxs : list (string * Z)) (c : string) (d : list (string * json)) :
  succeeded (b (agg_request u endpoint)) data ->
  as_list data = JArr (List.map JObj (good ++ bad :: rest)) ->
  Forall2 agg_row good cxs ->
  Str.lookup "country" bad = Some (JStr c) ->
  Str.lookup "total" bad = Some (JObj d) ->
  add_sector b u (label, endpoint) w
  = (Val tt, mkWorld (sent w ++ [agg_request u endpoint]) (page w)
                     (accumulate label cxs (country_totals w))).
Proof.
  intros Hs Hdata Hgood Hc Ht.
  assert (Hin : In bad (good ++ bad :: rest))
    by (apply in_or_app; right; left; reflexivity).
  pose proof (of_records_column _ bad "country" _ Hin Hc) as Hcc.
  pose proof (of_records_column _ bad "total" _ Hin Ht) as Hct.
  unfold add_sector, try_except, bind at 1, get, call.
  fold (agg_request u endpoint). unfold succeeded in Hs.
  destruct (b (agg_request u endpoint)) as [msg | r]; [contradiction | ].
  destruct Hs as [-> Hbody].
  unfold bind at 1, json_of. rewrite Hbody. unfold ret at 1.
  unfold bind at 1, lift. rewrite Hdata, DataFrame_of_rows
    by (destruct good; discriminate).
  cbn [pd.records pd.of_records]. rewrite for_each_app.
  rewrite (bind_val _ _ _ _ _
             (add_rows_accumulate label _ good cxs _ Hcc Hct Hgood)).
  cbn [for_each]. unfold bind at 1.
  unfold add_row at 1, bind, lift, row_get, pd.cell, times_million.
  rewrite Hcc, Hct, Hc, Ht. reflexivity.
Qed.

(** Malaysia, then Qatar with an object for a total, then Oman. *)
Lemma X13_witness :
  add_sector bad_second_row first_visit ("Halal E-commerce", "halal_ecommerce")
             start
  = (Val tt,
     mkWorld [agg_request first_visit "halal_ecommerce"] []
             [("Malaysia", [("Halal E-commerce", JInt 2000000)])]).
Proof.
  apply (X13_rows_before_a_bad_row_are_kept bad_second_row first_visit
           "Halal E-commerce" "halal_ecommerce" start
           (JArr [JObj [("country", JStr "Malaysia"); ("total", JInt 2)];
                  JObj [("country", JStr "Qatar");
                        ("total", JObj [("value", JInt 5)])];
                  JObj [("country", JStr "Oman"); ("total", JInt 9)]])
           [[("country", JStr "Malaysia"); ("total", JInt 2)]]
           [[("country", JStr "Oman"); ("total", JInt 9)]]
           [("country", JStr "Qatar"); ("total", JObj [("value", JInt 5)])]
           [("Malaysia", 2)] "Qatar" [("value", JInt 5)]).
  - split; reflexivity.
  - reflexivity.
  - repeat constructor.
  - reflexivity.
  - reflexivity.
Defined.

(** ** The country profile tool *)

Lemma profile_table_empty (b : backend) (u : ui) (i : nat)
    (c title dataset : string) (w : world) (r : response) :
  b (profile_request u dataset c) = Replies r ->
  ok r = false ->
  profile_table b u i c title dataset w
  = (Val tt, add_page (add_sent w [profile_request u dataset c])
               [(Column i, Markdown ("### " ++ c ++ title));
                (Column i, Dataframe pd.empty_frame)]).
Proof.
  intros Hb Hok. unfold profile_table. rewrite bind_st.
  unfold bind, get, call, lift, ret, st. fold (profile_request u dataset c).
  rewrite Hb, Hok. unfold add_page, add_sent. cbn [sent page country_totals pd.DataFrame_of].
  rewrite <- !app_assoc. reflexivity.
Qed.

(** X14: the country profile at its edges.  With no country to choose
    from, the tool shows its heading and an empty selector and sends
    nothing.  With countries, the one profiled is one of them, and when
    both of its calls are answered with a status other than 200 the two
    tables are still shown, empty, each under its title; both requests
    carry that one country as filter. *)
Theorem X14_country_profile_edges (b : backend) (u : ui) (w : world) :
  country_profile_tool b u [] w = (Val tt, add_page w (profile_widgets []))
  /\
  (forall cs, cs <> [] -> In (choose (ui_country_profile u) cs) cs)
  /\
  (forall cs c r1 r2,
     cs <> [] ->
     c = choose (ui_country_profile u) cs ->
     c <> "" ->
     b (profile_request u "halal_ecommerce" c) = Replies r1 -> ok r1 = false ->
     b (profile_request u "islamic_fintech" c) = Replies r2 -> ok r2 = false ->
     country_profile_tool b u cs w
     = (Val tt,
        add_page (add_sent w [profile_request u "halal_ecommerce" c;
                              profile_request u "islamic_fintech" c])
          (profile_widgets cs ++
           [(Column 1, Markdown ("### " ++ c ++ " - Halal E-commerce"));
            (Column 1, Dataframe pd.empty_frame);
            (Column 2, Markdown ("### " ++ c ++ " - Fintech"));
            (Column 2, Dataframe pd.empty_frame)]))).
Proof.
  split; [ | split; [intros cs; apply choose_in | ]].
  { unfold country_profile_tool. rewrite !bind_st, add_page_page. reflexivity. }
  intros cs c r1 r2 Hcs -> Hc H1 Hok1 H2 Hok2.
  unfold country_profile_tool. rewrite !bind_st, add_page_page.
  unfold selectbox. destruct cs as [|c0 cs]; [congruence | ].
  set (c := choose (ui_country_profile u) (c0 :: cs)) in *.
  assert (Ht : Str.truthy c = true) by (destruct c; [congruence | reflexivity]).
  fold c. rewrite Ht. cbv iota.
  rewrite (bind_val _ _ _ _ _
             (profile_table_empty b u 1 c " - Halal E-commerce"
                "halal_ecommerce" _ r1 H1 Hok1)).
  rewrite (profile_table_empty b u 2 c " - Fintech" "islamic_fintech" _ r2 H2 Hok2).
  unfold add_page, add_sent, profile_widgets. cbn [sent page country_totals].
  rewrite <- !app_assoc. reflexivity.
Qed.

(** Nothing to choose from; and Malaysia behind a backend that is down. *)
Lemma X14_witness :
  In (choose 0 ["Malaysia"; "Qatar"]) ["Malaysia"; "Qatar"]
  /\
  country_profile_tool unavailable first_visit ["Malaysia"; "Qatar"] start
  = (Val tt,
     add_page (add_sent start [profile_request first_visit "halal_ecommerce" "Malaysia";
                               profile_request first_visit "islamic_fintech" "Malaysia"])
       (profile_widgets ["Malaysia"; "Qatar"] ++
        [(Column 1, Markdown "### Malaysia - Halal E-commerce");
         (Column 1, Dataframe pd.empty_frame);
         (Column 2, Markdown "### Malaysia - Fintech");
         (Column 2, Dataframe pd.empty_frame)])).
Proof.
  destruct (X14_country_profile_edges unavailable first_visit start)
    as (_ & Hin & Hrun).
  split.
  - apply (Hin ["Malaysia"; "Qatar"]). discriminate.
  - apply (Hrun ["Malaysia"; "Qatar"] "Malaysia"
             (mkResponse 503 "" (Some JNull)) (mkResponse 503 "" (Some JNull)));
      try reflexivity; discriminate.
Defined.

(** ** The summary metrics on unexpected answers *)

(** X15: a 200 object without the key that is read displays the default.
    Without [count], a count metric reads [$0 USD]; without
    [avg_growth_rate], the rate metric reads [75.4%]. *)
Theorem X15_summary_missing_key (b : backend) (u : ui) (i : nat)
    (dataset : string) (default : json) (label : string) (w : world)
    (r : response) (d : list (string * json)) :
  b (summary_request u dataset) = Replies r ->
  status_code r = 200 ->
  body r = Some (JObj d) ->
  (Str.lookup "count" d = None ->
   summary_metric b u i dataset default label currency w
   = (Val tt, add_page (add_sent w [summary_request u dataset])
                [(Column i, Metric label "$0 USD")]))
  /\
  (Str.lookup "avg_growth_rate" d = None ->
   summary_metric b u i dataset default label percentage w
   = (Val tt, add_page (add_sent w [summary_request u dataset])
                [(Column i, Metric label "75.4%")])).
Proof.
  intros Hb Hok Hbody.
  assert (Hok' : ok r = true) by (unfold ok; rewrite Hok; reflexivity).
  split; intros Hd;
    apply (summary_metric_shows b u i dataset default label _ w r (JObj d) _ Hb);
    try (rewrite Hok'; exact Hbody);
    [unfold currency | unfold percentage]; unfold dict_get; rewrite Hd;
    reflexivity.
Qed.

(** The halal summary of [count_is_three] read as a rate. *)
Lemma X15_witness :
  summary_metric count_is_three first_visit 4 "halal_ecommerce" JNull
                 "Average Internet Usage" percentage start
  = (Val tt, add_page (add_sent start [summary_request first_visit "halal_ecommerce"])
               [(Column 4, Metric "Average Internet Usage" "75.4%")]).
Proof.
  apply (proj2 (X15_summary_missing_key count_is_three first_visit 4
                  "halal_ecommerce" JNull "Average Internet Usage" start
                  (mkResponse 200 "" (Some (JObj [("count", JInt 3)])))
                  [("count", JInt 3)] eq_refl eq_refl eq_refl)).
  reflexivity.
Defined.

(** X16: a 200 answer of another shape is not guarded at the metrics.
    When the body is not JSON, or is a list instead of an object, or its
    [count] is text, the metric raises ([JSONDecodeError],
    [AttributeError], [ValueError]) and is not shown; nothing catches the
    exception. *)
Theorem X16_summary_wrong_shape_raises (b : backend) (u : ui) (i : nat)
    (dataset : string) (default : json) (label : string) (w : world)
    (r : response) :
  b (summary_request u dataset) = Replies r ->
  status_code r = 200 ->
  (body r = None ->
   exists msg,
     summary_metric b u i dataset default label currency w
     = (Exc (Exn JSONDecodeError msg), add_sent w [summary_request u dataset]))
  /\
  (forall l, body r = Some (JArr l) ->
   exists msg,
     summary_metric b u i dataset default label currency w
     = (Exc (Exn AttributeError msg), add_sent w [summary_request u dataset]))
  /\
  (forall d s, body r = Some (JObj d) -> Str.lookup "count" d = Some (JStr s) ->
   exists msg,
     summary_metric b u i dataset default label currency w
     = (Exc (Exn ValueError msg), add_sent w [summary_request u dataset])).
Proof.
  intros Hb Hok.
  assert (Hok' : ok r = true) by (unfold ok; rewrite Hok; reflexivity).
  unfold summary_metric, bind, get, call, json_of, lift, ret, raise.
  fold (summary_request u dataset). rewrite Hb, Hok'.
  split; [ | split].
  - intros ->. eexists. reflexivity.
  - intros l ->. eexists. reflexivity.
  - intros d s -> Hd. unfold currency, dict_get. rewrite Hd.
    eexists. reflexivity.
Qed.

(** The empty list that [reply 200 (JArr [])] carries. *)
Lemma X16_witness :
  exists msg,
    summary_metric (fun _ => reply 200 (JArr [])) first_visit 1
                   "halal_ecommerce" JNull "Total Halal Revenue" currency start
    = (Exc (Exn AttributeError msg),
       add_sent start [summary_request first_visit "halal_ecommerce"]).
Proof.
  apply (proj1 (proj2 (X16_summary_wrong_shape_raises
                         (fun _ => reply 200 (JArr [])) first_visit 1
                         "halal_ecommerce" JNull "Total Halal Revenue" start
                         (mkResponse 200 "" (Some (JArr [])))
                         eq_refl eq_refl)) []).
  reflexivity.
Defined.

(** ** The two halves of the ICT & Fintech view *)

(** X17: how the halves of the ICT & Fintech view depend on each other.
    When the aggregation of the left half is answered with a status
    other than 200, or with an empty list, the right half runs as if it
    were alone.  When the call of the left half raises, the view ends
    there: the penetration query of the right half is not sent. *)
Theorem X17_ict_fintech_halves (b : backend) (u : ui) (w : world) :
  (nothing_to_chart (b (ict_request u)) ->
   ict_fintech_view b u w
   = internet_penetration_chart b u (add_sent w [ict_request u]))
  /\
  (forall msg,
     b (ict_request u) = Raises msg ->
     ict_fintech_view b u w
     = (Exc (Exn RequestException msg), add_sent w [ict_request u])).
Proof.
  split.
  - unfold nothing_to_chart. intros H.
    unfold ict_fintech_view, ict_services_chart.
    unfold bind at 1. unfold bind at 1, get at 1, call at 1.
    fold (ict_request u).
    destruct (b (ict_request u)) as [msg | r]; [contradiction | ].
    destruct H as [-> | [-> Hbody]]; [reflexivity | ].
    unfold bind, json_of, lift, ret. rewrite Hbody. reflexivity.
  - intros msg Hb.
    unfold ict_fintech_view, ict_services_chart.
    unfold bind at 1. unfold bind at 1, get at 1, call at 1.
    fold (ict_request u). rewrite Hb. reflexivity.
Qed.

(** The right half draws its chart behind a left half answered 503; and
    nothing follows a left half that cannot be reached. *)
Lemma X17_witness :
  ict_fintech_view penetration_only first_visit start
  = internet_penetration_chart penetration_only first_visit
      (add_sent start [ict_request first_visit])
  /\
  ict_fintech_view unreachable first_visit start
  = (Exc (Exn RequestException "Connection refused"),
     add_sent start [ict_request first_visit]).
Proof.
  split.
  - apply (proj1 (X17_ict_fintech_halves penetration_only first_visit start)).
    left. reflexivity.
  - apply (proj2 (X17_ict_fintech_halves unreachable first_visit start)).
    reflexivity.
Defined.

(** ** Blank questions *)

Lemma space_prefix_blank (c : ascii) (l : list ascii) :
  blank c = true -> Str.space_prefix (c :: l) = Some 1%nat.
Proof.
  destruct c as [[] [] [] [] [] [] [] []]; intros H;
    try discriminate H; reflexivity.
Qed.

Lemma lstrip_all_blank (l : list ascii) (fuel : nat) :
  List.forallb blank l = true ->
  (List.length l <= fuel)%nat ->
  Str.strip_with Str.space_prefix fuel l = [].
Proof.
  revert fuel. induction l as [|c l IH]; intros fuel Hall Hlen.
  - destruct fuel; reflexivity.
  - simpl in Hall, Hlen. apply andb_true_iff in Hall as [Hc Hl].
    destruct fuel as [|fuel]; [lia | ].
    cbn [Str.strip_with]. rewrite (space_prefix_blank c l Hc).
    apply IH; [exact Hl | lia].
Qed.

Lemma strip_all_blank (s : string) : all_blank s = true -> Str.strip s = "".
Proof.
  intros H. unfold Str.strip, Str.lstrip_list.
  rewrite (lstrip_all_blank _ _ H (Nat.le_refl _)). reflexivity.
Qed.

(** X18: a question made of white space only is never sent.  Whatever
    the view, the button and the backend, when the text typed consists
    of spaces, tabs and line breaks, or is empty, no render pass posts
    to [/ai_query]. *)
Theorem X18_blank_question_not_sent (b : backend) (u : ui) (r : request) :
  all_blank (ui_user_query u) = true ->
  In r (sent (snd (render b u))) ->
  ~ is_ai_query u r.
Proof.
  intros Hblank Hin Hai.
  pose proof (render_expected b u) as Hall.
  rewrite Forall_forall in Hall.
  destruct (expected_ai_query u r (Hall r Hin) Hai) as [Hsub _].
  apply ai_submitted_iff in Hsub as (_ & _ & Hq).
  apply Hq. apply strip_all_blank. exact Hblank.
Qed.

(** Two spaces, a tab and a space, with the button pressed. *)
Lemma X18_witness :
  ~ is_ai_query (asking (String " " (String " " (String "009" " "))))
                (filter_source (asking (String " " (String " " (String "009" " "))))).
Proof.
  apply (X18_blank_question_not_sent unavailable
           (asking (String " " (String " " (String "009" " "))))).
  - reflexivity.
  - vm_compute. left. reflexivity.
Defined.

(** ** Penetration values that are not numbers *)




(** ** The ICT services chart *)

(** X20: what the left half of the ICT & Fintech view shows.  With a
    status other than 200, or 200 and an empty list, it shows nothing,
    not even its heading.  With 200 and rows, given as a list or as one
    object, it shows its heading and an area chart of [total] by
    [country] over a frame with exactly one row per returned row. *)
Theorem X20_ict_services_chart (b : backend) (u : ui) (w : world) :
  (nothing_to_chart (b (ict_request u)) ->
   ict_services_chart b u w = (Val tt, add_sent w [ict_request u]))
  /\
  (forall data os,
     succeeded (b (ict_request u)) data ->
     as_list data = JArr (List.map JObj os) ->
     some_row_has "country" os ->
     some_row_has "total" os ->
     ict_services_chart b u w
     = (Val tt, add_page (add_sent w [ict_request u])
                  [(Column 1, Markdown "## 📶 ICT Services Output");
                   (Column 1, PlotlyChart (ict_fig (pd.of_records os)))])
     /\ pd.len (px.fig_data (ict_fig (pd.of_records os))) = List.length os).
Proof.
  split.
  - unfold nothing_to_chart. intros H.
    unfold ict_services_chart, bind, get, call, json_of, lift, ret.
    fold (ict_request u).
    destruct (b (ict_request u)) as [msg | r]; [contradiction | ].
    destruct H as [-> | [-> ->]]; reflexivity.
  - intros data os Hs Hdata Hc Ht. split; [ | reflexivity].
    unfold ict_services_chart, bind, get, call, json_of, lift, ret.
    fold (ict_request u). unfold succeeded in Hs.
    destruct (b (ict_request u)) as [msg | r]; [contradiction | ].
    destruct Hs as [-> ->]. rewrite Hdata, DataFrame_of_rows.
    + rewrite (some_row_not_empty "country" os Hc). cbn [negb].
      unfold px.chart. cbn [List.find st sent page country_totals].
      rewrite (some_row_column "country" os Hc),
              (some_row_column "total" os Ht).
      cbn [negb]. unfold st, add_page, add_sent.
      cbn [sent page country_totals]. rewrite <- app_assoc. reflexivity.
    + destruct Hc as (o & Hin & _). intros ->. destruct Hin.
Qed.

(** One object answered: one row charted. *)
Lemma X20_witness :
  ict_services_chart one_output first_visit start
  = (Val tt, add_page (add_sent start [ict_request first_visit])
               [(Column 1, Markdown "## 📶 ICT Services Output");
                (Column 1, PlotlyChart
                             (ict_fig (pd.of_records
                                         [[("country", JStr "Malaysia");
                                           ("total", JInt 40)]])))])
  /\ pd.len (px.fig_data (ict_fig (pd.of_records
                                     [[("country", JStr "Malaysia");
                                       ("total", JInt 40)]]))) = 1%nat.
Proof.
  apply (proj2 (X20_ict_services_chart one_output first_visit start)
           (JObj [("country", JStr "Malaysia"); ("total", JInt 40)])).
  - split; reflexivity.
  - reflexivity.
  - eexists. split; [left; reflexivity | discriminate].
  - eexists. split; [left; reflexivity | discriminate].
Defined.

(** ** The country profile tables *)

(** X21: a country-profile table for a list of rows.  When the call is
    answered 200 with a list of objects, the table under the title has
    exactly one row per object; an empty list gives an empty table. *)
Theorem X21_profile_table_rows (b : backend) (u : ui) (i : nat)
    (c title dataset : string) (w : world) (os : list (list (string * json))) :
  succeeded (b (profile_request u dataset c)) (JArr (List.map JObj os)) ->
  profile_table b u i c title dataset w
  = (Val tt, add_page (add_sent w [profile_request u dataset c])
               [(Column i, Markdown ("### " ++ c ++ title));
                (Column i, Dataframe (frame_of_rows os))])
  /\ pd.len (frame_of_rows os) = List.length os.
Proof.
  intros Hs. split; [ | apply frame_of_rows_len].
  unfold profile_table. rewrite bind_st.
  unfold bind, get, call, json_of, lift, ret, st.
  fold (profile_request u dataset c). unfold succeeded in Hs.
  destruct (b (profile_request u dataset c)) as [msg | r]; [contradiction | ].
  destruct Hs as [-> ->]. rewrite DataFrame_of_objects. fold (frame_of_rows os).
  unfold add_page, add_sent. cbn [sent page country_totals].
  rewrite <- !app_assoc. reflexivity.
Qed.

(** The three rows that [two_countries] lists. *)
Lemma X21_witness :
  pd.len (frame_of_rows
            [[("country", JStr "Malaysia"); ("year", JInt 2020)];
             [("country", JStr "Qatar"); ("year", JInt 2020)];
             [("country", JStr "Malaysia"); ("year", JInt 2021)]]) = 3%nat.
Proof.
  apply (proj2 (X21_profile_table_rows two_countries first_visit 1 "Malaysia"
                  " - Halal E-commerce" "halal_ecommerce" start
                  [[("country", JStr "Malaysia"); ("year", JInt 2020)];
                   [("country", JStr "Qatar"); ("year", JInt 2020)];
                   [("country", JStr "Malaysia"); ("year", JInt 2021)]]
                  (conj eq_refl eq_refl))).
Defined.
